(** * vtadmin API: a shallow embedding of go/vt/vtadmin/api.go

    The aggregate operations of the vtadmin API (GetGates, GetKeyspaces,
    GetSchemas, GetTablets, GetTablet, VTExplain) are embedded as Rocq
    functions over a fixed picture of the remote clusters:

    - a cluster handle carries, as plain functions, what each of its remote
      endpoints answers during one request;
    - every remote call is written to an event trace, so that "no remote
      call is issued" is a statement about the trace;
    - the goroutines of a fan-out are run in an order chosen by a schedule
      (the order in which they reach the mutex), and Go's unspecified map
      iteration order is a schedule component as well; the calls of one
      goroutine stay together in the trace, so statements about traces
      are about membership or hold up to permutation;
    - a Go function returning [(resp, err)] returns a pair of options, so
      that "a response together with an error" is a value of the model;
    - a nil pointer dereference is the outcome [Panics]; the pointers that
      api.go compares with nil somewhere (the GetSchema response and its
      Schema field) are options, every other pointer is taken to be
      non-nil. *)

From Stdlib Require Import ZArith Sorting.Sorted.
From stdpp Require Import gmap strings list fin_maps.

Open Scope string_scope.
Open Scope list_scope.

(** ** Errors *)

(** The sentinel values of go/vt/vtadmin/errors that api.go refers to. *)
Inductive Sentinel :=
| ErrAmbiguousTablet
| ErrInvalidRequest
| ErrNoSrvVSchema
| ErrNoTablet
| ErrUnsupportedCluster.

#[global] Instance Sentinel_eq_dec : EqDecision Sentinel := ltac:(solve_decision).

(** vtrpcpb.Code: the canonical RPC codes; api.go only uses NOT_FOUND. *)
Inductive Code :=
| Code_OK
| Code_CANCELED
| Code_UNKNOWN
| Code_INVALID_ARGUMENT
| Code_DEADLINE_EXCEEDED
| Code_NOT_FOUND
| Code_ALREADY_EXISTS.

#[global] Instance Code_eq_dec : EqDecision Code := ltac:(solve_decision).

#[local] Set Warnings "-register-all".

(** Go error values, by the way they are built in api.go. *)
Inductive error :=
| ESentinel (s : Sentinel)                   (* errors.ErrX itself *)
| EWrap (s : Sentinel) (detail : string)     (* fmt.Errorf("%w: <detail>", errors.ErrX) *)
| EVt (code : Code) (msg : string)           (* vterrors.Errorf(code, format, ...) *)
| ERemote (msg : string)                     (* whatever a remote client returned *)
| EAggregate (errs : list error).            (* AllErrorRecorder.Error() *)

(** errors.Is(err, target) for a sentinel target: follows the %w chain.
    vterrors.Errorf formats its arguments into the message and keeps no
    cause, and the value of AllErrorRecorder.Error() is not a wrapper. *)
Definition errors_Is (e : error) (target : Sentinel) : bool :=
  match e with
  | ESentinel s => bool_decide (s = target)
  | EWrap s _ => bool_decide (s = target)
  | _ => false
  end.

(** What a caller can learn about an error without reading its text: the
    RPC code it carries (vterrors.Code) and the sentinels it wraps. *)
Inductive Kind :=
| KSentinel (s : Sentinel)
| KCode (c : Code)
| KRemote
| KAggregate.

Definition kind_of (e : error) : Kind :=
  match e with
  | ESentinel s => KSentinel s
  | EWrap s _ => KSentinel s
  | EVt c _ => KCode c
  | ERemote _ => KRemote
  | EAggregate _ => KAggregate
  end.

(** A fallible remote answer: Go's [(value, err)] with [err] tested first. *)
Inductive result (A : Type) :=
| Ok (a : A)
| Err (e : error).
Arguments Ok {A} a.
Arguments Err {A} e.

(** ** Protobuf messages (the fields api.go reads or writes) *)

Inductive ServingState := Tablet_UNKNOWN | Tablet_SERVING | Tablet_NOT_SERVING.

#[global] Instance ServingState_eq_dec : EqDecision ServingState := ltac:(solve_decision).

Inductive TabletType :=
| TabletType_UNKNOWN
| TabletType_MASTER
| TabletType_REPLICA
| TabletType_RDONLY
| TabletType_SPARE
| TabletType_EXPERIMENTAL
| TabletType_BACKUP
| TabletType_RESTORE
| TabletType_DRAINED.

#[global] Instance TabletType_eq_dec : EqDecision TabletType := ltac:(solve_decision).

(** topodatapb.TabletAlias *)
Record TabletAlias := { Cell : string; Uid : Z }.

(** topodatapb.Tablet *)
Record TopoTablet := {
  Alias : TabletAlias;
  Hostname : string;
  Keyspace : string;
  Type_ : TabletType
}.

(** vtadminpb.Tablet *)
Record Tablet := { Tablet_ : TopoTablet; State : ServingState }.

(** tabletmanagerdatapb.TableDefinition *)
Record TableDefinition := { td_Name : string; td_Schema : string }.

(** tabletmanagerdatapb.SchemaDefinition *)
Record SchemaDefinition := { TableDefinitions : list TableDefinition }.

(** vtctldatapb.GetSchemaResponse; [Schema] is a pointer that api.go tests
    against nil. *)
Record GetSchemaResponse := { Schema : option SchemaDefinition }.

(** vtadminpb.Cluster *)
Record ClusterPb := { Id : string; cpb_Name : string }.

(** vtadminpb.Schema *)
Record SchemaPb := {
  s_Cluster : ClusterPb;
  s_Keyspace : string;
  s_TableDefinitions : list TableDefinition
}.

(** What DiscoverVTGates returns for one gate. *)
Record DiscoveredGate := {
  dg_Cell : string;
  dg_Hostname : string;
  dg_Keyspaces : list string;
  dg_Pool : string
}.

(** vtadminpb.VTGate *)
Record VTGate := {
  g_Cell : string;
  g_Cluster : ClusterPb;
  g_Hostname : string;
  g_Keyspaces : list string;
  g_Pool : string
}.

(** vtctldatapb.Keyspace; the topodata payload is carried as its JSON. *)
Record KeyspacePb := { ks_Name : string; ks_Keyspace : string }.

(** vtctldatapb.Shard; the topodata payload is carried as its JSON. The
    Shards field of a FindAllShardsInKeyspace answer is carried as the
    sequence of its entries in the order the request's range over it
    yields them. *)
Record ShardPb := { sh_Keyspace : string; sh_Name : string; sh_Shard : string }.

(** vtadminpb.Keyspace *)
Record KeyspaceView := {
  k_Cluster : ClusterPb;
  k_Keyspace : KeyspacePb;
  k_Shards : list ShardPb
}.

(** vschemapb.Keyspace, carried opaquely. *)
Record VSchemaKeyspace := { vschema_body : string }.

(** vtctldatapb.GetSrvVSchemaResponse with its SrvVSchema.Keyspaces map. *)
Record GetSrvVSchemaResponse := { SrvVSchema_Keyspaces : gmap string VSchemaKeyspace }.

(** ** Events: the calls that leave the API *)

Inductive Event :=
| CallDiscoverVTGates (cluster : string)
| CallDial (cluster : string)
| CallGetKeyspaces (cluster : string)
| CallFindAllShardsInKeyspace (cluster : string) (keyspace : string)
| CallGetSchema (cluster : string) (alias : TabletAlias)
| CallGetSrvVSchema (cluster : string) (cell : string)
| CallGetTablets (cluster : string)
| CallFindTablet (cluster : string)
| CallExplainInit (vschema schema shardMap : string)
| CallExplainRun (sql : string).

(** ** Clusters *)

(** cluster.Cluster: identity plus what its discovery client, its vtctld
    client and its own tablet helpers answer while one request is served. *)
Record Cluster := {
  ID : string;
  Name : string;
  Discovery_DiscoverVTGates : result (list DiscoveredGate);
  Vtctld_Dial : option error;
  Vtctld_GetKeyspaces : result (list KeyspacePb);
  Vtctld_FindAllShardsInKeyspace : string -> result (list ShardPb);
  Vtctld_GetSchema : TabletAlias -> result (option GetSchemaResponse);
  Vtctld_GetSrvVSchema : string -> result GetSrvVSchemaResponse;
  Cluster_GetTablets : result (list Tablet);
  Cluster_FindTablet : (Tablet -> bool) -> result Tablet
}.

(** c.ToProto() *)
Definition ToProto (c : Cluster) : ClusterPb := {| Id := ID c; cpb_Name := Name c |}.

(** The API value: the configured cluster sequence and the id index. *)
Record API := {
  clusters : list Cluster;
  clusterMap : gmap string Cluster
}.

(** ** Collaborators outside api.go *)

(** vtexplain plans, carried opaquely. *)
Record Plan := { plan_text : string }.

(** The functions api.go calls whose code lives elsewhere: the texts of the
    sentinel errors, topo.IsInServingGraph, encoding/json on the two values
    VTExplain serialises, and the explain engine. *)
Record Externals := {
  sentinel_text : Sentinel -> string;
  IsInServingGraph : TabletType -> bool;
  json_Marshal_vschema : VSchemaKeyspace -> result string;
  json_Marshal_shards : gmap string string -> result string;
  vtexplain_Init : string -> string -> string -> option error;
  vtexplain_Run : string -> result (list Plan);
  vtexplain_ExplainsAsText : list Plan -> string
}.

(** ** Traces, replies, outcomes and schedules *)

(** A computation that issues remote calls: its value and the calls. *)
Definition Traced (A : Type) : Type := A * list Event.

(** Go's [(resp, err)] return pair; either component may be nil. *)
Definition Reply (A : Type) : Type := option A * option error.

(** A call either returns its pair or dies on a nil pointer dereference. *)
Inductive Outcome (A : Type) :=
| Returns (r : Reply A)
| Panics.
Arguments Returns {A} r.
Arguments Panics {A}.

(** What one goroutine of a fan-out did before [wg.Done()]: the items it
    appended to the shared accumulator under the mutex, the errors it
    recorded, the calls it issued, and whether it dereferenced nil. *)
Record Branch (R : Type) := {
  appended : list R;
  recorded : list error;
  issued : list Event;
  crashed : bool
}.
Arguments appended {R} _.
Arguments recorded {R} _.
Arguments issued {R} _.
Arguments crashed {R} _.

(** The state read after [wg.Wait()]. *)
Record Joined (R : Type) := {
  acc : list R;
  er : list error;
  log : list Event;
  died : bool
}.
Arguments acc {R} _.
Arguments er {R} _.
Arguments log {R} _.
Arguments died {R} _.

(** The goroutines of one fan-out, taken in the order [order] names them by
    dispatch index. *)
Definition run_in_order {B : Type} (order : list nat) (bs : list B) : list B :=
  omap (fun i => bs !! i) order.

(** A schedule of [n] goroutines runs each of them once. *)
Definition schedules (order : list nat) (n : nat) : Prop :=
  order ≡ₚ seq 0 n.

(** [wg.Wait()]: every goroutine has run; accumulator, error recorder and
    call log hold the contributions in schedule order. A goroutine that
    panics takes the process down. *)
Definition wait {R : Type} (order : list nat) (bs : list (Branch R)) : Joined R :=
  let done := run_in_order order bs in
  {| acc := concat (map appended done);
     er := concat (map recorded done);
     log := concat (map issued done);
     died := existsb crashed done |}.

(** Modelled from the spec: concurrency.AllErrorRecorder is not part of the
    sources at hand; the spec describes it as an ordered collection of the
    individual failures, non-empty meaning failed, rendered as a single
    combined error. *)
Definition HasErrors (errs : list error) : bool :=
  match errs with
  | [] => false
  | _ :: _ => true
  end.

Definition AllErrors (errs : list error) : error := EAggregate errs.

(** Everything a run of a request leaves to chance: the order in which
    [range api.clusterMap] yields the keys, the order in which the
    per-cluster goroutines complete, and for the i-th of them the order in
    which its per-keyspace goroutines complete. *)
Record Schedule := {
  mapRange : list string;
  outer : list nat;
  inner : nat -> list nat
}.

(** The key order of a schedule is an enumeration of the map's keys. *)
Definition ranges_over (s : Schedule) (api : API) : Prop :=
  mapRange s ≡ₚ (map_to_list (clusterMap api)).*1.

(** ** getClustersForRequest *)

Definition lookup_clusters (api : API) (ids : list string) : list Cluster :=
  fold_left
    (fun cs id =>
       match clusterMap api !! id with
       | Some c => cs ++ [c]
       | None => cs
       end)
    ids [].

Definition getClustersForRequest (api : API) (s : Schedule) (ids : list string)
  : list Cluster * list string :=
  match ids with
  | [] =>
      let clusterIDs := fold_left (fun acc k => acc ++ [k]) (mapRange s) [] in
      (clusters api, clusterIDs)
  | _ :: _ => (lookup_clusters api ids, ids)
  end.

(** ** GetGates *)

Record GetGatesResponse := { Gates : list VTGate }.

Definition GetGates_goroutine (c : Cluster) : Branch VTGate :=
  match Discovery_DiscoverVTGates c with
  | Err err =>
      {| appended := []; recorded := [err];
         issued := [CallDiscoverVTGates (ID c)]; crashed := false |}
  | Ok gs =>
      {| appended :=
           map (fun g =>
                  {| g_Cell := dg_Cell g;
                     g_Cluster := {| Id := ID c; cpb_Name := Name c |};
                     g_Hostname := dg_Hostname g;
                     g_Keyspaces := dg_Keyspaces g;
                     g_Pool := dg_Pool g |}) gs;
         recorded := [];
         issued := [CallDiscoverVTGates (ID c)];
         crashed := false |}
  end.

Definition GetGates (api : API) (s : Schedule) (req_ClusterIds : list string)
  : Traced (Outcome GetGatesResponse) :=
  let '(cs, _) := getClustersForRequest api s req_ClusterIds in
  let j := wait (outer s) (map GetGates_goroutine cs) in
  if died j then (Panics, log j)
  else if HasErrors (er j)
  then (Returns (None, Some (AllErrors (er j))), log j)
  else (Returns (Some {| Gates := acc j |}, None), log j).

(** ** GetKeyspaces *)

Record GetKeyspacesResponse := { Keyspaces : list KeyspaceView }.

(** The goroutine started for one keyspace of one cluster. *)
Definition GetKeyspaces_shards_goroutine (c : Cluster) (ks : KeyspacePb)
  : Branch KeyspaceView :=
  match Vtctld_FindAllShardsInKeyspace c (ks_Name ks) with
  | Err err =>
      {| appended := []; recorded := [err];
         issued := [CallFindAllShardsInKeyspace (ID c) (ks_Name ks)];
         crashed := false |}
  | Ok shards =>
      {| appended := [{| k_Cluster := ToProto c; k_Keyspace := ks; k_Shards := shards |}];
         recorded := [];
         issued := [CallFindAllShardsInKeyspace (ID c) (ks_Name ks)];
         crashed := false |}
  end.

(** The goroutine started for one cluster; its keyspace goroutines record
    into the same error recorder and fill [kss], which is appended to the
    shared accumulator after [kwg.Wait()]. *)
Definition GetKeyspaces_goroutine (korder : list nat) (c : Cluster)
  : Branch KeyspaceView :=
  match Vtctld_Dial c with
  | Some err =>
      {| appended := []; recorded := [err]; issued := [CallDial (ID c)];
         crashed := false |}
  | None =>
      match Vtctld_GetKeyspaces c with
      | Err err =>
          {| appended := []; recorded := [err];
             issued := [CallDial (ID c); CallGetKeyspaces (ID c)];
             crashed := false |}
      | Ok resp_Keyspaces =>
          let kj := wait korder (map (GetKeyspaces_shards_goroutine c) resp_Keyspaces) in
          {| appended := acc kj;
             recorded := er kj;
             issued := [CallDial (ID c); CallGetKeyspaces (ID c)] ++ log kj;
             crashed := died kj |}
      end
  end.

Definition GetKeyspaces (api : API) (s : Schedule) (req_ClusterIds : list string)
  : Traced (Outcome GetKeyspacesResponse) :=
  let '(cs, _) := getClustersForRequest api s req_ClusterIds in
  let j := wait (outer s) (imap (fun i c => GetKeyspaces_goroutine (inner s i) c) cs) in
  if died j then (Panics, log j)
  else if HasErrors (er j)
  then (Returns (None, Some (AllErrors (er j))), log j)
  else (Returns (Some {| Keyspaces := acc j |}, None), log j).

(** ** GetSchemas, getSchemas, getSchemasForKeyspace *)

Record GetSchemasResponse := { Schemas : list SchemaPb }.

(** Field reads through a pointer; [None] is the nil pointer dereference. *)
Definition read_Schema (res : option GetSchemaResponse) : option (option SchemaDefinition) :=
  match res with
  | None => None
  | Some r => Some (Schema r)
  end.

Definition read_TableDefinitions (sd : option SchemaDefinition)
  : option (list TableDefinition) :=
  match sd with
  | None => None
  | Some d => Some (TableDefinitions d)
  end.

(** [res.Schema.TableDefinitions] *)
Definition read_Schema_TableDefinitions (res : option GetSchemaResponse)
  : option (list TableDefinition) :=
  match read_Schema res with
  | None => None
  | Some sd => read_TableDefinitions sd
  end.

Definition is_nil {A : Type} (p : option A) : bool :=
  match p with
  | None => true
  | Some _ => false
  end.

(** The condition [s == nil || s.Schema == nil ||
    len(s.Schema.TableDefinitions) == 0], evaluated left to right with
    Go's short-circuit disjunction. *)
Definition without_table_definitions (s : option GetSchemaResponse) : option bool :=
  if is_nil s then Some true
  else
    match read_Schema s with
    | None => None
    | Some sd =>
        if is_nil sd then Some true
        else
          match read_Schema_TableDefinitions s with
          | None => None
          | Some tds => Some (Nat.eqb (length tds) 0)
          end
    end.

(** The loop at the head of getSchemasForKeyspace: [kt] starts nil and is
    overwritten by every tablet of the keyspace that is serving. *)
Definition servingTablet (ks_Name : string) (tablets : list Tablet) : option Tablet :=
  fold_left
    (fun kt t =>
       if bool_decide (Keyspace (Tablet_ t) ≠ ks_Name)
          || bool_decide (State t ≠ Tablet_SERVING)
       then kt
       else Some t)
    tablets None.

Definition getSchemasForKeyspace (c : Cluster) (ks : KeyspacePb) (tablets : list Tablet)
  : Traced (Outcome SchemaPb) :=
  match servingTablet (ks_Name ks) tablets with
  | None => (Returns (None, None), [])
  | Some kt =>
      match Vtctld_Dial c with
      | Some err => (Returns (None, Some err), [CallDial (ID c)])
      | None =>
          let calls := [CallDial (ID c); CallGetSchema (ID c) (Alias (Tablet_ kt))] in
          match Vtctld_GetSchema c (Alias (Tablet_ kt)) with
          | Err err => (Returns (None, Some err), calls)
          | Ok s =>
              match without_table_definitions s with
              | None => (Panics, calls)
              | Some true => (Returns (None, None), calls)
              | Some false =>
                  match read_Schema_TableDefinitions s with
                  | None => (Panics, calls)
                  | Some tds =>
                      (Returns
                         (Some {| s_Cluster := {| Id := ID c; cpb_Name := Name c |};
                                  s_Keyspace := ks_Name ks;
                                  s_TableDefinitions := tds |},
                          None),
                       calls)
                  end
              end
          end
      end
  end.

(** The goroutine getSchemas starts for one keyspace. *)
Definition getSchemas_goroutine (c : Cluster) (tablets : list Tablet) (ks : KeyspacePb)
  : Branch SchemaPb :=
  match getSchemasForKeyspace c ks tablets with
  | (Panics, calls) =>
      {| appended := []; recorded := []; issued := calls; crashed := true |}
  | (Returns (_, Some err), calls) =>
      {| appended := []; recorded := [err]; issued := calls; crashed := false |}
  | (Returns (None, None), calls) =>
      {| appended := []; recorded := []; issued := calls; crashed := false |}
  | (Returns (Some ss, None), calls) =>
      {| appended := [ss]; recorded := []; issued := calls; crashed := false |}
  end.

Definition getSchemas (korder : list nat) (c : Cluster) (tablets : list Tablet)
  : Traced (Outcome (list SchemaPb)) :=
  match Vtctld_Dial c with
  | Some err => (Returns (None, Some err), [CallDial (ID c)])
  | None =>
      match Vtctld_GetKeyspaces c with
      | Err err => (Returns (None, Some err), [CallDial (ID c); CallGetKeyspaces (ID c)])
      | Ok resp_Keyspaces =>
          let j := wait korder (map (getSchemas_goroutine c tablets) resp_Keyspaces) in
          let calls := [CallDial (ID c); CallGetKeyspaces (ID c)] ++ log j in
          if died j then (Panics, calls)
          else if HasErrors (er j)
          then (Returns (None, Some (AllErrors (er j))), calls)
          else (Returns (Some (acc j), None), calls)
      end
  end.

(** The goroutine GetSchemas starts for one cluster. *)
Definition GetSchemas_goroutine (korder : list nat) (c : Cluster) : Branch SchemaPb :=
  match Cluster_GetTablets c with
  | Err err =>
      {| appended := []; recorded := [err]; issued := [CallGetTablets (ID c)];
         crashed := false |}
  | Ok tablets =>
      match getSchemas korder c tablets with
      | (Panics, calls) =>
          {| appended := []; recorded := [];
             issued := CallGetTablets (ID c) :: calls; crashed := true |}
      | (Returns (_, Some err), calls) =>
          {| appended := []; recorded := [err];
             issued := CallGetTablets (ID c) :: calls; crashed := false |}
      | (Returns (ss, None), calls) =>
          {| appended := default [] ss; recorded := [];
             issued := CallGetTablets (ID c) :: calls; crashed := false |}
      end
  end.

Definition GetSchemas (api : API) (s : Schedule) (req_ClusterIds : list string)
  : Traced (Outcome GetSchemasResponse) :=
  let '(cs, _) := getClustersForRequest api s req_ClusterIds in
  let j := wait (outer s) (imap (fun i c => GetSchemas_goroutine (inner s i) c) cs) in
  if died j then (Panics, log j)
  else if HasErrors (er j)
  then (Returns (None, Some (AllErrors (er j))), log j)
  else (Returns (Some {| Schemas := acc j |}, None), log j).

(** ** GetTablet and GetTablets *)

(** fmt's %v of a []string: the elements in brackets, separated by spaces. *)
Definition fmt_v (ids : list string) : string :=
  "[" +:+ String.concat " " ids +:+ "]".

(** The message built by the format "%s: %s, searched clusters = %v". *)
Definition searched_message (ext : Externals) (s : Sentinel) (hostname : string)
    (ids : list string) : string :=
  sentinel_text ext s +:+ ": " +:+ hostname +:+ ", searched clusters = " +:+ fmt_v ids.

(** The inner loop of GetTablet's goroutine. *)
Definition found_by_hostname (req_Hostname : string) (ts : list Tablet) : list Tablet :=
  fold_left
    (fun found t =>
       if bool_decide (Hostname (Tablet_ t) = req_Hostname)
       then found ++ [t]
       else found)
    ts [].

Definition GetTablet_goroutine (req_Hostname : string) (c : Cluster) : Branch Tablet :=
  match Cluster_GetTablets c with
  | Err err =>
      {| appended := []; recorded := [err]; issued := [CallGetTablets (ID c)];
         crashed := false |}
  | Ok ts =>
      {| appended := found_by_hostname req_Hostname ts; recorded := [];
         issued := [CallGetTablets (ID c)]; crashed := false |}
  end.

Definition GetTablet (ext : Externals) (api : API) (s : Schedule)
    (req_Hostname : string) (req_ClusterIds : list string) : Traced (Outcome Tablet) :=
  let '(cs, ids) := getClustersForRequest api s req_ClusterIds in
  let j := wait (outer s) (map (GetTablet_goroutine req_Hostname) cs) in
  if died j then (Panics, log j)
  else if HasErrors (er j)
  then (Returns (None, Some (AllErrors (er j))), log j)
  else
    match acc j with
    | [] =>
        (Returns
           (None,
            Some (EVt Code_NOT_FOUND (searched_message ext ErrNoTablet req_Hostname ids))),
         log j)
    | [t] => (Returns (Some t, None), log j)
    | _ :: _ :: _ =>
        (Returns
           (None,
            Some (EVt Code_NOT_FOUND
                    (searched_message ext ErrAmbiguousTablet req_Hostname ids))),
         log j)
    end.

Record GetTabletsResponse := { Tablets : list Tablet }.

Definition GetTablets_goroutine (c : Cluster) : Branch Tablet :=
  match Cluster_GetTablets c with
  | Err err =>
      {| appended := []; recorded := [err]; issued := [CallGetTablets (ID c)];
         crashed := false |}
  | Ok ts =>
      {| appended := ts; recorded := []; issued := [CallGetTablets (ID c)];
         crashed := false |}
  end.

Definition GetTablets (api : API) (s : Schedule) (req_ClusterIds : list string)
  : Traced (Outcome GetTabletsResponse) :=
  let '(cs, _) := getClustersForRequest api s req_ClusterIds in
  let j := wait (outer s) (map GetTablets_goroutine cs) in
  if died j then (Panics, log j)
  else if HasErrors (er j)
  then (Returns (None, Some (AllErrors (er j))), log j)
  else (Returns (Some {| Tablets := acc j |}, None), log j).

(** ** VTExplain *)

Record VTExplainRequest := {
  req_Cluster : string;
  req_Keyspace : string;
  req_Sql : string
}.

Record VTExplainResponse := { Response : string }.

Definition dquote : string := String (Ascii.ascii_of_nat 34) EmptyString.

(** The text built by the format [{"%s": %s}]. *)
Definition fmt_keyed (key body : string) : string :=
  "{" +:+ dquote +:+ key +:+ dquote +:+ ": " +:+ body +:+ "}".

(** The tablet predicate VTExplain hands to FindTablet. *)
Definition VTExplain_tablet_filter (ext : Externals) (req : VTExplainRequest) (t : Tablet)
  : bool :=
  bool_decide (Keyspace (Tablet_ t) = req_Keyspace req)
  && IsInServingGraph ext (Type_ (Tablet_ t))
  && bool_decide (Type_ (Tablet_ t) ≠ TabletType_MASTER)
  && bool_decide (State t = Tablet_SERVING).

(** Each of VTExplain's three goroutines owns one string slot: the branch
    appends what it wrote to that slot. *)

(** The GetSchema goroutine: [res.Schema.TableDefinitions] is read without
    a nil test. *)
Definition VTExplain_GetSchema (c : Cluster) (tablet : Tablet) : Branch string :=
  let calls := [CallGetSchema (ID c) (Alias (Tablet_ tablet))] in
  match Vtctld_GetSchema c (Alias (Tablet_ tablet)) with
  | Err err => {| appended := []; recorded := [err]; issued := calls; crashed := false |}
  | Ok res =>
      match read_Schema_TableDefinitions res with
      | None => {| appended := []; recorded := []; issued := calls; crashed := true |}
      | Some tds =>
          {| appended := [String.concat ";" (map td_Schema tds)];
             recorded := []; issued := calls; crashed := false |}
      end
  end.

(** The GetSrvVSchema goroutine. *)
Definition VTExplain_GetSrvVSchema (ext : Externals) (c : Cluster) (tablet : Tablet)
    (req : VTExplainRequest) : Branch string :=
  let calls := [CallGetSrvVSchema (ID c) (Cell (Alias (Tablet_ tablet)))] in
  match Vtctld_GetSrvVSchema c (Cell (Alias (Tablet_ tablet))) with
  | Err err => {| appended := []; recorded := [err]; issued := calls; crashed := false |}
  | Ok res =>
      match SrvVSchema_Keyspaces res !! req_Keyspace req with
      | None =>
          {| appended := [];
             recorded := [EWrap ErrNoSrvVSchema ("keyspace " +:+ req_Keyspace req)];
             issued := calls; crashed := false |}
      | Some ksvs =>
          match json_Marshal_vschema ext ksvs with
          | Err err =>
              {| appended := []; recorded := [err]; issued := calls; crashed := false |}
          | Ok ksvsb =>
              {| appended := [fmt_keyed (req_Keyspace req) ksvsb];
                 recorded := []; issued := calls; crashed := false |}
          end
      end
  end.

(** The FindAllShardsInKeyspace goroutine. *)
Definition VTExplain_FindAllShards (ext : Externals) (c : Cluster) (req : VTExplainRequest)
  : Branch string :=
  let calls := [CallFindAllShardsInKeyspace (ID c) (req_Keyspace req)] in
  match Vtctld_FindAllShardsInKeyspace c (req_Keyspace req) with
  | Err err => {| appended := []; recorded := [err]; issued := calls; crashed := false |}
  | Ok ksm_Shards =>
      let vtsm : gmap string string :=
        fold_left (fun m s => <[sh_Name s := sh_Shard s]> m) ksm_Shards ∅ in
      match json_Marshal_shards ext vtsm with
      | Err err =>
          {| appended := []; recorded := [err]; issued := calls; crashed := false |}
      | Ok vtsb =>
          {| appended := [fmt_keyed (req_Keyspace req) vtsb];
             recorded := []; issued := calls; crashed := false |}
      end
  end.

(** The content of a goroutine's slot after the barrier; the zero value is
    the empty string. *)
Definition slot_of (b : Branch string) : string :=
  match appended b with
  | [] => ""
  | v :: _ => v
  end.

Definition VTExplain (ext : Externals) (api : API) (s : Schedule) (req : VTExplainRequest)
  : Traced (Outcome VTExplainResponse) :=
  if bool_decide (req_Cluster req = "")
  then (Returns (None, Some (EWrap ErrInvalidRequest "cluster ID is required")), [])
  else if bool_decide (req_Keyspace req = "")
  then (Returns (None, Some (EWrap ErrInvalidRequest "keyspace name is required")), [])
  else if bool_decide (req_Sql req = "")
  then (Returns (None, Some (EWrap ErrInvalidRequest "SQL query is required")), [])
  else
    match clusterMap api !! req_Cluster req with
    | None => (Returns (None, Some (ESentinel ErrUnsupportedCluster)), [])
    | Some c =>
        match Cluster_FindTablet c (VTExplain_tablet_filter ext req) with
        | Err err => (Returns (None, Some err), [CallFindTablet (ID c)])
        | Ok tablet =>
            match Vtctld_Dial c with
            | Some err => (Returns (None, Some err), [CallFindTablet (ID c); CallDial (ID c)])
            | None =>
                let schema := VTExplain_GetSchema c tablet in
                let srvVSchema := VTExplain_GetSrvVSchema ext c tablet req in
                let shardMap := VTExplain_FindAllShards ext c req in
                let j := wait (outer s) [schema; srvVSchema; shardMap] in
                let calls := [CallFindTablet (ID c); CallDial (ID c)] ++ log j in
                if died j then (Panics, calls)
                else if HasErrors (er j)
                then (Returns (None, Some (AllErrors (er j))), calls)
                else
                  let init :=
                    CallExplainInit (slot_of srvVSchema) (slot_of schema) (slot_of shardMap) in
                  match vtexplain_Init ext (slot_of srvVSchema) (slot_of schema)
                          (slot_of shardMap) with
                  | Some err => (Returns (None, Some err), calls ++ [init])
                  | None =>
                      match vtexplain_Run ext (req_Sql req) with
                      | Err err =>
                          (Returns (None, Some err),
                           calls ++ [init; CallExplainRun (req_Sql req)])
                      | Ok plans =>
                          (Returns
                             (Some {| Response := vtexplain_ExplainsAsText ext plans |}, None),
                           calls ++ [init; CallExplainRun (req_Sql req)])
                      end
                  end
            end
        end
    end.

(** ** A small installation used to run the operations *)

Definition demo_tablet (host ks : string) (uid : Z) (ty : TabletType) (st : ServingState)
  : Tablet :=
  {| Tablet_ :=
       {| Alias := {| Cell := "zone1"; Uid := uid |};
          Hostname := host;
          Keyspace := ks;
          Type_ := ty |};
     State := st |}.

Definition demo_t100 : Tablet := demo_tablet "h1" "commerce" 100 TabletType_REPLICA Tablet_SERVING.
Definition demo_t101 : Tablet := demo_tablet "h2" "commerce" 101 TabletType_REPLICA Tablet_SERVING.
Definition demo_t102 : Tablet := demo_tablet "h2" "commerce" 102 TabletType_MASTER Tablet_SERVING.
Definition demo_t103 : Tablet := demo_tablet "h3" "commerce" 103 TabletType_RDONLY Tablet_NOT_SERVING.

Definition demo_customer : TableDefinition :=
  {| td_Name := "customer"; td_Schema := "create table customer(id bigint)" |}.
Definition demo_orders : TableDefinition :=
  {| td_Name := "orders"; td_Schema := "create table orders(id bigint)" |}.

Definition demo_unavailable : error := ERemote "unavailable".

(** A healthy cluster with one keyspace, two tables and four tablets. *)
Definition demo_A : Cluster :=
  {| ID := "a";
     Name := "cluster A";
     Discovery_DiscoverVTGates :=
       Ok [{| dg_Cell := "zone1"; dg_Hostname := "gate1";
              dg_Keyspaces := ["commerce"]; dg_Pool := "pool1" |}];
     Vtctld_Dial := None;
     Vtctld_GetKeyspaces := Ok [{| ks_Name := "commerce"; ks_Keyspace := "{}" |}];
     Vtctld_FindAllShardsInKeyspace :=
       fun _ => Ok [{| sh_Keyspace := "commerce"; sh_Name := "-"; sh_Shard := "{}" |}];
     Vtctld_GetSchema :=
       fun _ => Ok (Some {| Schema :=
                              Some {| TableDefinitions := [demo_customer; demo_orders] |} |});
     Vtctld_GetSrvVSchema :=
       fun _ => Ok {| SrvVSchema_Keyspaces :=
                        {[ "commerce" := {| vschema_body := "{}" |} ]} |};
     Cluster_GetTablets := Ok [demo_t100; demo_t101; demo_t102; demo_t103];
     Cluster_FindTablet := fun _ => Ok demo_t100 |}.

(** A cluster none of whose endpoints answers. *)
Definition demo_B : Cluster :=
  {| ID := "b";
     Name := "cluster B";
     Discovery_DiscoverVTGates := Err demo_unavailable;
     Vtctld_Dial := Some demo_unavailable;
     Vtctld_GetKeyspaces := Err demo_unavailable;
     Vtctld_FindAllShardsInKeyspace := fun _ => Err demo_unavailable;
     Vtctld_GetSchema := fun _ => Err demo_unavailable;
     Vtctld_GetSrvVSchema := fun _ => Err demo_unavailable;
     Cluster_GetTablets := Err demo_unavailable;
     Cluster_FindTablet := fun _ => Err demo_unavailable |}.

(** A cluster whose GetSchema answers without a schema, whose serving
    vschema lacks the keyspace, and which is otherwise like [demo_A]. *)
Definition demo_N : Cluster :=
  {| ID := "n";
     Name := "cluster N";
     Discovery_DiscoverVTGates := Ok [];
     Vtctld_Dial := None;
     Vtctld_GetKeyspaces := Ok [{| ks_Name := "commerce"; ks_Keyspace := "{}" |}];
     Vtctld_FindAllShardsInKeyspace :=
       fun _ => Ok [{| sh_Keyspace := "commerce"; sh_Name := "-"; sh_Shard := "{}" |}];
     Vtctld_GetSchema := fun _ => Ok (Some {| Schema := None |});
     Vtctld_GetSrvVSchema := fun _ => Ok {| SrvVSchema_Keyspaces := ∅ |};
     Cluster_GetTablets := Ok [demo_t100];
     Cluster_FindTablet := fun _ => Ok demo_t100 |}.

Definition demo_api : API :=
  {| clusters := [demo_A; demo_B; demo_N];
     clusterMap := {[ "a" := demo_A; "b" := demo_B; "n" := demo_N ]} |}.

Definition demo_ext : Externals :=
  {| sentinel_text :=
       fun s =>
         match s with
         | ErrAmbiguousTablet => "multiple tablets found"
         | ErrInvalidRequest => "Invalid request"
         | ErrNoSrvVSchema => "SrvVSchema not found"
         | ErrNoTablet => "no such tablet"
         | ErrUnsupportedCluster => "unsupported cluster(s)"
         end;
     IsInServingGraph :=
       fun ty =>
         match ty with
         | TabletType_MASTER | TabletType_REPLICA | TabletType_RDONLY => true
         | _ => false
         end;
     json_Marshal_vschema := fun v => Ok (vschema_body v);
     json_Marshal_shards := fun _ => Ok "{}";
     vtexplain_Init := fun _ _ _ => None;
     vtexplain_Run := fun sql => Ok [{| plan_text := sql |}];
     vtexplain_ExplainsAsText := fun plans => String.concat ";" (map plan_text plans) |}.

(** Schedules: a key order for [range], and dispatch order throughout. *)
Definition demo_sched (range : list string) (n : nat) : Schedule :=
  {| mapRange := range; outer := seq 0 n; inner := fun _ => seq 0 1 |}.

(** ** Vocabulary of the statements *)

(** A tablet of the keyspace that reports the serving state. *)
Definition serving_in (ks_Name : string) (t : Tablet) : Prop :=
  Keyspace (Tablet_ t) = ks_Name /\ State t = Tablet_SERVING.

#[global] Instance serving_in_dec ks_Name t : Decision (serving_in ks_Name t) :=
  ltac:(unfold serving_in; apply _).

(** The remote answers behind one entry of a schema listing: the cluster
    lists its tablets and its keyspaces, the keyspace has a serving tablet,
    and that tablet's schema has table definitions. *)
Definition schema_entry_of (c : Cluster) (e : SchemaPb) : Prop :=
  exists tablets kss ks kt r sd,
    Cluster_GetTablets c = Ok tablets
    /\ Vtctld_GetKeyspaces c = Ok kss
    /\ ks ∈ kss
    /\ servingTablet (ks_Name ks) tablets = Some kt
    /\ Vtctld_GetSchema c (Alias (Tablet_ kt)) = Ok (Some r)
    /\ Schema r = Some sd
    /\ TableDefinitions sd <> []
    /\ e = {| s_Cluster := {| Id := ID c; cpb_Name := Name c |};
              s_Keyspace := ks_Name ks;
              s_TableDefinitions := TableDefinitions sd |}.

(** The tablets of the working set with the requested hostname, cluster by
    cluster in dispatch order; a cluster whose listing fails has none. *)
Definition matching_tablets (hostname : string) (cs : list Cluster) : list Tablet :=
  concat
    (map (fun c =>
            match Cluster_GetTablets c with
            | Ok ts => filter (fun t => Hostname (Tablet_ t) = hostname) ts
            | Err _ => []
            end) cs).

(** The call returned nil and a combined error that has [e] among its causes. *)
Definition fails_with {A : Type} (o : Outcome A) (e : error) : Prop :=
  exists errs, o = Returns (None, Some (AllErrors errs)) /\ e ∈ errs.

(** The call did not return a response together with an error. *)
Definition never_both {A : Type} (o : Outcome A) : Prop :=
  match o with
  | Returns (Some _, Some _) => False
  | _ => True
  end.

(** VTExplain gets as far as starting its three goroutines on cluster [c]
    for tablet [tablet]: the request is complete, the cluster is known, a
    tablet is found and the dial succeeds. *)
Definition reaches_fan_out (ext : Externals) (api : API) (req : VTExplainRequest)
    (c : Cluster) (tablet : Tablet) : Prop :=
  req_Cluster req <> ""
  /\ req_Keyspace req <> ""
  /\ req_Sql req <> ""
  /\ clusterMap api !! req_Cluster req = Some c
  /\ Cluster_FindTablet c (VTExplain_tablet_filter ext req) = Ok tablet
  /\ Vtctld_Dial c = None.

(** The three goroutines of VTExplain in dispatch order. *)
Definition VTExplain_goroutines (ext : Externals) (c : Cluster) (tablet : Tablet)
    (req : VTExplainRequest) : list (Branch string) :=
  [VTExplain_GetSchema c tablet;
   VTExplain_GetSrvVSchema ext c tablet req;
   VTExplain_FindAllShards ext c req].

(** The request used to run VTExplain on the small installation. *)
Definition demo_explain (cluster : string) : VTExplainRequest :=
  {| req_Cluster := cluster; req_Keyspace := "commerce"; req_Sql := "select 1" |}.

(** ** NewAPI and GetClusters *)

(** NewAPI, as far as the registry goes: the index is filled from the
    clusters in the order given, then the slice is sorted by ID. The sorter
    sort.ClustersBy(less).Sort lives outside api.go and is an argument; the
    gRPC server, the routes and the middlewares are transport. *)
Definition NewAPI
    (ClustersBy : (Cluster -> Cluster -> bool) -> list Cluster -> list Cluster)
    (clusters0 : list Cluster) : API :=
  let clusterMap := fold_left (fun m c => <[ID c := c]> m) clusters0 ∅ in
  let sorted := ClustersBy (fun c1 c2 => String.ltb (ID c1) (ID c2)) clusters0 in
  {| clusters := sorted; clusterMap := clusterMap |}.

Record GetClustersResponse := { Clusters : list ClusterPb }.

Definition GetClusters (api : API) : Traced (Outcome GetClustersResponse) :=
  let vcs :=
    fold_left (fun vcs c => vcs ++ [{| Id := ID c; cpb_Name := Name c |}]) (clusters api) [] in
  (Returns (Some {| Clusters := vcs |}, None), []).

(** What sort.Sort promises of its output: a permutation of the input in
    which no element is less than an earlier one. *)
Definition sorted_by {A : Type} (less : A -> A -> bool) (input output : list A) : Prop :=
  output ≡ₚ input /\ StronglySorted (fun x y => less y x = false) output.

(** A sorter to run NewAPI with: insertion sort. *)
Fixpoint demo_insert (less : Cluster -> Cluster -> bool) (c : Cluster) (cs : list Cluster)
  : list Cluster :=
  match cs with
  | [] => [c]
  | c' :: rest => if less c' c then c' :: demo_insert less c rest else c :: cs
  end.

Definition demo_ClustersBy (less : Cluster -> Cluster -> bool) (cs : list Cluster)
  : list Cluster :=
  fold_right (demo_insert less) [] cs.

(** ** More vocabulary *)

(** The gates a cluster contributes to a gate listing. *)
Definition gates_of (c : Cluster) : list VTGate :=
  match Discovery_DiscoverVTGates c with
  | Ok gs =>
      map (fun g =>
             {| g_Cell := dg_Cell g;
                g_Cluster := {| Id := ID c; cpb_Name := Name c |};
                g_Hostname := dg_Hostname g;
                g_Keyspaces := dg_Keyspaces g;
                g_Pool := dg_Pool g |}) gs
  | Err _ => []
  end.

(** The tablets a cluster contributes to a tablet listing. *)
Definition tablets_of (c : Cluster) : list Tablet :=
  match Cluster_GetTablets c with
  | Ok ts => ts
  | Err _ => []
  end.

(** The keyspace views a cluster contributes to a keyspace listing. *)
Definition keyspaces_of (c : Cluster) : list KeyspaceView :=
  match Vtctld_GetKeyspaces c with
  | Ok kss =>
      omap (fun ks =>
              match Vtctld_FindAllShardsInKeyspace c (ks_Name ks) with
              | Ok shards =>
                  Some {| k_Cluster := ToProto c; k_Keyspace := ks; k_Shards := shards |}
              | Err _ => None
              end) kss
  | Err _ => []
  end.

(** A cluster all of whose keyspace calls succeed. *)
Definition keyspaces_listed (c : Cluster) : Prop :=
  Vtctld_Dial c = None
  /\ exists kss,
       Vtctld_GetKeyspaces c = Ok kss
       /\ Forall (fun ks => exists shards,
                    Vtctld_FindAllShardsInKeyspace c (ks_Name ks) = Ok shards) kss.

(** The schedule runs every per-keyspace goroutine of every selected
    cluster once. *)
Definition inner_schedules (s : Schedule) (cs : list Cluster) : Prop :=
  forall i c kss,
    cs !! i = Some c -> Vtctld_GetKeyspaces c = Ok kss -> schedules (inner s i) (length kss).

(** The map [vtsm] VTExplain builds from the shards of the keyspace. *)
Definition shard_index (shards : list ShardPb) : gmap string string :=
  fold_left (fun m s => <[sh_Name s := sh_Shard s]> m) shards ∅.

(** ** vtctldclient: the reparent commands

    go/cmd/vtctldclient/internal/command/reparents.go. A command is run on
    its positional arguments and its option struct; what it prints, logs
    and asks of the vtctld client is written to a trace. The client hands
    back Go's pair of a response pointer and an error, both of which may be
    nil; reading a field through a nil response is the outcome [Crashes]. *)

(** logutilpb.Event, carried opaquely. *)
Record LogEvent := { event_text : string }.

(** The protobuf duration built from a time.Duration. *)
Record DurationPb := { Seconds : Z; Nanos : Z }.

Record EmergencyReparentShardRequest := {
  ers_Keyspace : string;
  ers_Shard : string;
  ers_NewPrimary : option TabletAlias;
  ers_IgnoreReplicas : list (option TabletAlias);
  ers_WaitReplicasTimeout : DurationPb
}.

Record EmergencyReparentShardResponse := { ers_Events : list LogEvent }.

Record InitShardPrimaryRequest := {
  isp_Keyspace : string;
  isp_Shard : string;
  isp_PrimaryElectTabletAlias : TabletAlias;
  isp_WaitReplicasTimeout : DurationPb;
  isp_Force : bool
}.

Record InitShardPrimaryResponse := { isp_Events : list LogEvent }.

(** vtctldatapb.ReparentTabletResponse and
    vtctldatapb.TabletExternallyReparentedResponse, carried opaquely. *)
Record ReparentTabletResponse := { rt_body : string }.
Record TabletExternallyReparentedResponse := { ter_body : string }.

(** emergencyReparentShardOptions; durations are nanoseconds. *)
Record EmergencyReparentShardOptions := {
  ers_opt_Force : bool;
  ers_opt_WaitReplicasTimeout : Z;
  NewPrimaryAliasStr : string;
  IgnoreReplicaAliasStrList : list string
}.

(** initShardPrimaryOptions *)
Record InitShardPrimaryOptions := {
  isp_opt_WaitReplicasTimeout : Z;
  isp_opt_Force : bool
}.

(** What the commands use from other packages: the topoproto parsers, the
    duration conversions, the renderings of events and responses, and the
    vtctld client. *)
Record CommandEnv := {
  ParseKeyspaceShard : string -> result (string * string);
  ParseTabletAlias : string -> result TabletAlias;
  ptypes_DurationProto : Z -> DurationPb;
  protoutil_DurationToProto : Z -> DurationPb;
  logutil_EventString : LogEvent -> string;
  fmt_v_Event : LogEvent -> string;
  MarshalJSON_ReparentTablet : option ReparentTabletResponse -> result string;
  MarshalJSON_TabletExternallyReparented :
    option TabletExternallyReparentedResponse -> result string;
  client_EmergencyReparentShard :
    EmergencyReparentShardRequest -> option EmergencyReparentShardResponse * option error;
  client_InitShardPrimary :
    InitShardPrimaryRequest -> option InitShardPrimaryResponse * option error;
  client_ReparentTablet : TabletAlias -> option ReparentTabletResponse * option error;
  client_TabletExternallyReparented :
    TabletAlias -> option TabletExternallyReparentedResponse * option error
}.

Inductive CliEvent :=
| FinishedParsing
| RpcEmergencyReparentShard (req : EmergencyReparentShardRequest)
| RpcInitShardPrimary (req : InitShardPrimaryRequest)
| RpcReparentTablet (alias : TabletAlias)
| RpcTabletExternallyReparented (alias : TabletAlias)
| Stdout (text : string)
| LogInfo (text : string).

(** A command returns its error (nil on success) or dies. *)
Inductive Exit :=
| Exits (err : option error)
| Crashes.

Definition newline : string := String (Ascii.ascii_of_nat 10) EmptyString.

(** cmd.Flags().Arg(i): the i-th positional argument, empty when there is
    none. *)
Definition Arg (args : list string) (i : nat) : string := default "" (args !! i).

(** The loop over --ignore-replicas: slot [i] of the preallocated slice is
    set to the i-th parsed alias; the first alias that does not parse ends
    the command. *)
Fixpoint parse_ignored (env : CommandEnv) (i : nat) (aliasStrs : list string)
    (ignoreReplicaAliases : list (option TabletAlias))
  : result (list (option TabletAlias)) :=
  match aliasStrs with
  | [] => Ok ignoreReplicaAliases
  | aliasStr :: rest =>
      match ParseTabletAlias env aliasStr with
      | Err err => Err err
      | Ok alias => parse_ignored env (S i) rest (<[i := Some alias]> ignoreReplicaAliases)
      end
  end.

Definition commandEmergencyReparentShard (env : CommandEnv)
    (opts : EmergencyReparentShardOptions) (args : list string) : Exit * list CliEvent :=
  match ParseKeyspaceShard env (Arg args 0) with
  | Err err => (Exits (Some err), [])
  | Ok (keyspace, shard) =>
      let ignoreReplicaAliases := replicate (length (IgnoreReplicaAliasStrList opts)) None in
      let parsedPrimary :=
        if bool_decide (NewPrimaryAliasStr opts ≠ "")
        then match ParseTabletAlias env (NewPrimaryAliasStr opts) with
             | Err err => Err err
             | Ok alias => Ok (Some alias)
             end
        else Ok None in
      match parsedPrimary with
      | Err err => (Exits (Some err), [])
      | Ok newPrimaryAlias =>
          match parse_ignored env 0 (IgnoreReplicaAliasStrList opts) ignoreReplicaAliases with
          | Err err => (Exits (Some err), [])
          | Ok ignoreReplicaAliases =>
              let req :=
                {| ers_Keyspace := keyspace;
                   ers_Shard := shard;
                   ers_NewPrimary := newPrimaryAlias;
                   ers_IgnoreReplicas := ignoreReplicaAliases;
                   ers_WaitReplicasTimeout :=
                     ptypes_DurationProto env (ers_opt_WaitReplicasTimeout opts) |} in
              let calls := [FinishedParsing; RpcEmergencyReparentShard req] in
              match client_EmergencyReparentShard env req with
              | (_, Some err) => (Exits (Some err), calls)
              | (None, None) => (Crashes, calls)
              | (Some resp, None) =>
                  (Exits None,
                   calls ++ map (fun event => Stdout (logutil_EventString env event +:+ newline))
                              (ers_Events resp))
              end
          end
      end
  end.

Definition commandInitShardPrimary (env : CommandEnv) (opts : InitShardPrimaryOptions)
    (args : list string) : Exit * list CliEvent :=
  match ParseKeyspaceShard env (Arg args 0) with
  | Err err => (Exits (Some err), [])
  | Ok (keyspace, shard) =>
      match ParseTabletAlias env (Arg args 1) with
      | Err err => (Exits (Some err), [])
      | Ok tabletAlias =>
          let req :=
            {| isp_Keyspace := keyspace;
               isp_Shard := shard;
               isp_PrimaryElectTabletAlias := tabletAlias;
               isp_WaitReplicasTimeout :=
                 protoutil_DurationToProto env (isp_opt_WaitReplicasTimeout opts);
               isp_Force := isp_opt_Force opts |} in
          let calls := [FinishedParsing; RpcInitShardPrimary req] in
          match client_InitShardPrimary env req with
          | (None, _) => (Crashes, calls)
          | (Some resp, err) =>
              (Exits err,
               calls ++ map (fun event => LogInfo (fmt_v_Event env event)) (isp_Events resp))
          end
      end
  end.

Definition commandReparentTablet (env : CommandEnv) (args : list string)
  : Exit * list CliEvent :=
  match ParseTabletAlias env (Arg args 0) with
  | Err err => (Exits (Some err), [])
  | Ok alias =>
      match client_ReparentTablet env alias with
      | (_, Some err) => (Exits (Some err), [RpcReparentTablet alias])
      | (resp, None) =>
          match MarshalJSON_ReparentTablet env resp with
          | Err err => (Exits (Some err), [RpcReparentTablet alias])
          | Ok data => (Exits None, [RpcReparentTablet alias; Stdout (data +:+ newline)])
          end
      end
  end.

Definition commandTabletExternallyReparented (env : CommandEnv) (args : list string)
  : Exit * list CliEvent :=
  match ParseTabletAlias env (Arg args 0) with
  | Err err => (Exits (Some err), [])
  | Ok alias =>
      match client_TabletExternallyReparented env alias with
      | (_, Some err) => (Exits (Some err), [RpcTabletExternallyReparented alias])
      | (resp, None) =>
          match MarshalJSON_TabletExternallyReparented env resp with
          | Err err => (Exits (Some err), [RpcTabletExternallyReparented alias])
          | Ok data =>
              (Exits None, [RpcTabletExternallyReparented alias; Stdout (data +:+ newline)])
          end
      end
  end.

(** A vtctld and parsers to run the commands with: "ks/shard" is split at
    its slash by hand for the two arguments used, aliases are looked up in
    a table, and the client answers as told. *)
Definition demo_parse_alias (str : string) : result TabletAlias :=
  if bool_decide (str = "zone1-100") then Ok {| Cell := "zone1"; Uid := 100 |}
  else if bool_decide (str = "zone1-101") then Ok {| Cell := "zone1"; Uid := 101 |}
  else Err (ERemote ("invalid tablet alias " +:+ str)).

Definition demo_env
    (ers : option EmergencyReparentShardResponse * option error)
    (isp : option InitShardPrimaryResponse * option error) : CommandEnv :=
  {| ParseKeyspaceShard :=
       fun str =>
         if bool_decide (str = "commerce/-") then Ok ("commerce", "-")
         else Err (ERemote ("invalid keyspace/shard " +:+ str));
     ParseTabletAlias := demo_parse_alias;
     ptypes_DurationProto := fun d => {| Seconds := d / 1000000000; Nanos := d mod 1000000000 |};
     protoutil_DurationToProto :=
       fun d => {| Seconds := d / 1000000000; Nanos := d mod 1000000000 |};
     logutil_EventString := event_text;
     fmt_v_Event := event_text;
     MarshalJSON_ReparentTablet :=
       fun resp => match resp with Some r => Ok (rt_body r) | None => Ok "null" end;
     MarshalJSON_TabletExternallyReparented :=
       fun resp => match resp with Some r => Ok (ter_body r) | None => Ok "null" end;
     client_EmergencyReparentShard := fun _ => ers;
     client_InitShardPrimary := fun _ => isp;
     client_ReparentTablet := fun _ => (Some {| rt_body := "{}" |}, None);
     client_TabletExternallyReparented := fun _ => (None, Some demo_unavailable) |}.

Definition demo_ers_options (ignored : list string) : EmergencyReparentShardOptions :=
  {| ers_opt_Force := false;
     ers_opt_WaitReplicasTimeout := 30000000000;
     NewPrimaryAliasStr := "";
     IgnoreReplicaAliasStrList := ignored |}.

(** A vtctld that cannot be reached: every call hands back no response
    and an error. *)
Definition demo_failing_env : CommandEnv :=
  {| ParseKeyspaceShard := fun _ => Ok ("commerce", "-");
     ParseTabletAlias := fun _ => Ok {| Cell := "zone1"; Uid := 100 |};
     ptypes_DurationProto := fun d => {| Seconds := d; Nanos := 0 |};
     protoutil_DurationToProto := fun d => {| Seconds := d; Nanos := 0 |};
     logutil_EventString := event_text;
     fmt_v_Event := event_text;
     MarshalJSON_ReparentTablet := fun _ => Ok "{}";
     MarshalJSON_TabletExternallyReparented := fun _ => Ok "{}";
     client_EmergencyReparentShard := fun _ => (None, Some demo_unavailable);
     client_InitShardPrimary := fun _ => (None, Some demo_unavailable);
     client_ReparentTablet := fun _ => (None, Some demo_unavailable);
     client_TabletExternallyReparented := fun _ => (None, Some demo_unavailable) |}.

(** * Properties *)

(** ** Schedules and the barrier *)

Section Barrier.
Context {B : Type}.

Lemma run_in_order_from (pre bs : list B) :
  omap (fun i => (pre ++ bs) !! i) (seq (length pre) (length bs)) = bs.
Proof.
  revert pre; induction bs as [|b bs IH]; intros pre; simpl; [done|].
  rewrite list_lookup_middle by done. simpl. f_equal.
  specialize (IH (pre ++ [b])).
  rewrite <- app_assoc, length_app in IH. simpl in IH.
  replace (length pre + 1) with (S (length pre)) in IH by lia.
  exact IH.
Qed.

Lemma run_in_order_dispatch (bs : list B) :
  run_in_order (seq 0 (length bs)) bs = bs.
Proof. exact (run_in_order_from [] bs). Qed.

Lemma run_in_order_perm (order : list nat) (bs : list B) :
  schedules order (length bs) -> run_in_order order bs ≡ₚ bs.
Proof.
  unfold schedules; intros H.
  rewrite <- (run_in_order_dispatch bs) at 2.
  unfold run_in_order. by rewrite H.
Qed.

Lemma run_in_order_elem (order : list nat) (bs : list B) (b : B) :
  b ∈ run_in_order order bs -> b ∈ bs.
Proof.
  unfold run_in_order; rewrite list_elem_of_omap.
  intros (i & _ & Hi). by eapply list_elem_of_lookup_2.
Qed.

Lemma run_in_order_nil (order : list nat) : run_in_order order (@nil B) = [].
Proof.
  unfold run_in_order; induction order as [|i order IH]; simpl; done.
Qed.
End Barrier.

Lemma concat_perm {A : Type} (ls ls' : list (list A)) :
  ls ≡ₚ ls' -> concat ls ≡ₚ concat ls'.
Proof.
  induction 1 as [|x l l' _ IH|x y l|l l' l'' _ IH1 _ IH2]; simpl.
  - done.
  - by rewrite IH.
  - rewrite !app_assoc. f_equiv. apply Permutation_app_comm.
  - by etrans.
Qed.

Lemma existsb_perm {A : Type} (f : A -> bool) (l l' : list A) :
  l ≡ₚ l' -> existsb f l = existsb f l'.
Proof.
  induction 1 as [|x l l' _ IH|x y l|l l' l'' _ IH1 _ IH2]; simpl.
  - done.
  - by rewrite IH.
  - by destruct (f x), (f y).
  - by etrans.
Qed.

Section Wait.
Context {R : Type}.
Implicit Types (bs : list (Branch R)) (order : list nat).

Lemma wait_acc order bs :
  schedules order (length bs) -> acc (wait order bs) ≡ₚ concat (map appended bs).
Proof.
  intros H; simpl. apply concat_perm, Permutation_map. by apply run_in_order_perm.
Qed.

Lemma wait_er order bs :
  schedules order (length bs) -> er (wait order bs) ≡ₚ concat (map recorded bs).
Proof.
  intros H; simpl. apply concat_perm, Permutation_map. by apply run_in_order_perm.
Qed.

Lemma wait_log order bs :
  schedules order (length bs) -> log (wait order bs) ≡ₚ concat (map issued bs).
Proof.
  intros H; simpl. apply concat_perm, Permutation_map. by apply run_in_order_perm.
Qed.

Lemma wait_died order bs :
  schedules order (length bs) -> died (wait order bs) = existsb crashed bs.
Proof. intros H; simpl. by apply existsb_perm, run_in_order_perm. Qed.

(** Without any assumption on the schedule, no goroutine that never
    crashes can bring the process down. *)
Lemma wait_alive order bs :
  Forall (fun b => crashed b = false) bs -> died (wait order bs) = false.
Proof.
  intros Hall; simpl. apply not_true_is_false; intros Hex.
  apply existsb_exists in Hex as (b & Hin & Hb).
  apply list_elem_of_In, run_in_order_elem in Hin.
  rewrite Forall_forall in Hall. specialize (Hall b Hin). congruence.
Qed.

Lemma wait_acc_elem order bs (x : R) :
  x ∈ acc (wait order bs) -> exists b, b ∈ bs /\ x ∈ appended b.
Proof.
  simpl; rewrite list_elem_of_In, in_concat.
  intros (l & Hl & Hx). apply in_map_iff in Hl as (b & <- & Hb).
  exists b; split; [|by apply list_elem_of_In].
  by eapply run_in_order_elem, list_elem_of_In.
Qed.

Lemma wait_nil order : wait order (@nil (Branch R)) =
  {| acc := []; er := []; log := []; died := false |}.
Proof. unfold wait. by rewrite run_in_order_nil. Qed.

(** An error recorded by a goroutine is in the recorder after the barrier. *)
Lemma wait_recorded order bs b e :
  schedules order (length bs) -> b ∈ bs -> e ∈ recorded b -> e ∈ er (wait order bs).
Proof.
  intros H Hb He. rewrite (wait_er order bs H).
  apply list_elem_of_In, in_concat. exists (recorded b); split.
  - apply in_map, list_elem_of_In, Hb.
  - by apply list_elem_of_In.
Qed.
End Wait.

Lemma HasErrors_true (errs : list error) : HasErrors errs = true <-> errs <> [].
Proof. destruct errs; simpl; split; congruence. Qed.

Lemma HasErrors_elem (errs : list error) (e : error) : e ∈ errs -> HasErrors errs = true.
Proof. destruct errs; [by intros ?%elem_of_nil|done]. Qed.

(** ** The cluster registry *)

Lemma range_copy (ks acc0 : list string) :
  fold_left (fun acc k => acc ++ [k]) ks acc0 = acc0 ++ ks.
Proof.
  revert acc0; induction ks as [|k ks IH]; intros acc0; simpl.
  - by rewrite app_nil_r.
  - rewrite IH. by rewrite <- app_assoc.
Qed.

Lemma lookup_clusters_from (api : API) (ids : list string) (cs0 : list Cluster) :
  fold_left
    (fun cs id => match clusterMap api !! id with Some c => cs ++ [c] | None => cs end)
    ids cs0
  = cs0 ++ omap (fun id => clusterMap api !! id) ids.
Proof.
  revert cs0; induction ids as [|id ids IH]; intros cs0; simpl.
  - by rewrite app_nil_r.
  - rewrite IH. destruct (clusterMap api !! id); simpl; [|done].
    by rewrite <- app_assoc.
Qed.

Lemma lookup_clusters_omap (api : API) (ids : list string) :
  lookup_clusters api ids = omap (fun id => clusterMap api !! id) ids.
Proof. unfold lookup_clusters. by rewrite lookup_clusters_from. Qed.

Lemma getClustersForRequest_all (api : API) (s : Schedule) :
  getClustersForRequest api s [] = (clusters api, mapRange s).
Proof. simpl. by rewrite range_copy. Qed.

Lemma getClustersForRequest_some (api : API) (s : Schedule) (ids : list string) :
  ids <> [] ->
  getClustersForRequest api s ids = (omap (fun id => clusterMap api !! id) ids, ids).
Proof.
  destruct ids as [|id ids]; [done|]; intros _.
  unfold getClustersForRequest. by rewrite lookup_clusters_omap.
Qed.

Lemma omap_unknown (api : API) (ids : list string) :
  Forall (fun id => clusterMap api !! id = None) ids ->
  omap (fun id => clusterMap api !! id) ids = [].
Proof. induction 1 as [|id ids Hid _ IH]; simpl; [done|]. by rewrite Hid. Qed.

(** C4, as amended. Resolving a filter never fails (the result has no error
    component). The cluster sequence is a function of the registry and the
    filter alone: the configured sequence for the empty filter, otherwise the
    clusters found for the requested identifiers, in the caller's order,
    once per occurrence, unknown identifiers dropped. The identifiers are
    the filter itself when it is not empty; for the empty filter they are
    the keys of the registry, each once, in the order the map happened to
    be ranged over. *)
Theorem getClustersForRequest_resolution (api : API) (s : Schedule) (ids : list string)
    (Hrange : ranges_over s api) :
  (forall s', fst (getClustersForRequest api s' ids) = fst (getClustersForRequest api s ids))
  /\ getClustersForRequest api s [] = (clusters api, mapRange s)
  /\ NoDup (mapRange s)
  /\ (forall id, id ∈ mapRange s <-> is_Some (clusterMap api !! id))
  /\ (ids <> [] ->
      getClustersForRequest api s ids = (omap (fun id => clusterMap api !! id) ids, ids)).
Proof.
  split; [|split; [|split; [|split]]].
  - intros s'. by destruct ids.
  - apply getClustersForRequest_all.
  - unfold ranges_over in Hrange. rewrite Hrange. apply NoDup_fst_map_to_list.
  - intros id. unfold ranges_over in Hrange. rewrite Hrange.
    rewrite list_elem_of_fmap. split.
    + intros ([k c] & -> & Hin). apply elem_of_map_to_list in Hin. by exists c.
    + intros [c Hc]. exists (id, c). split; [done|]. by apply elem_of_map_to_list.
  - apply getClustersForRequest_some.
Qed.

Lemma demo_ranges_abn : ranges_over (demo_sched ["a"; "b"; "n"] 3) demo_api.
Proof. unfold ranges_over. vm_compute. apply perm_skip, perm_swap. Qed.

Lemma demo_ranges_nba : ranges_over (demo_sched ["n"; "b"; "a"] 3) demo_api.
Proof.
  unfold ranges_over. vm_compute.
  transitivity ["n"; "a"; "b"]; [apply perm_skip, perm_swap|apply perm_swap].
Qed.

Lemma getClustersForRequest_resolution_witness :
  getClustersForRequest demo_api (demo_sched ["a"; "b"; "n"] 3) ["n"; "zz"; "a"; "n"]
  = ([demo_N; demo_A; demo_N], ["n"; "zz"; "a"; "n"]).
Proof.
  pose proof (getClustersForRequest_resolution demo_api (demo_sched ["a"; "b"; "n"] 3)
                ["n"; "zz"; "a"; "n"] demo_ranges_abn) as (_ & _ & _ & _ & H).
  rewrite H; [vm_compute; reflexivity|discriminate].
Defined.

(** C4, as stated, fails: on the same registry and the same (empty) filter,
    two runs that range over the map in different orders return different
    identifier sequences. *)
Lemma getClustersForRequest_ids_depend_on_range_order :
  ranges_over (demo_sched ["a"; "b"; "n"] 3) demo_api
  /\ ranges_over (demo_sched ["n"; "b"; "a"] 3) demo_api
  /\ getClustersForRequest demo_api (demo_sched ["a"; "b"; "n"] 3) []
     <> getClustersForRequest demo_api (demo_sched ["n"; "b"; "a"] 3) [].
Proof.
  split; [apply demo_ranges_abn|split; [apply demo_ranges_nba|]].
  rewrite !getClustersForRequest_all. simpl. intros [=].
Qed.

(** C5. A filter that names identifiers, none of which the registry knows,
    resolves to the empty working set; GetGates, GetKeyspaces, GetSchemas
    and GetTablets then issue no call at all and return a response with an
    empty list and no error. (The empty filter names no identifier and
    selects every cluster instead.) *)
Theorem unknown_filter_selects_nothing (api : API) (s : Schedule) (ids : list string)
    (Hnamed : ids <> [])
    (Hunknown : Forall (fun id => clusterMap api !! id = None) ids) :
  fst (getClustersForRequest api s ids) = []
  /\ GetGates api s ids = (Returns (Some {| Gates := [] |}, None), [])
  /\ GetKeyspaces api s ids = (Returns (Some {| Keyspaces := [] |}, None), [])
  /\ GetSchemas api s ids = (Returns (Some {| Schemas := [] |}, None), [])
  /\ GetTablets api s ids = (Returns (Some {| Tablets := [] |}, None), []).
Proof.
  unfold GetGates, GetKeyspaces, GetSchemas, GetTablets.
  rewrite (getClustersForRequest_some api s ids Hnamed), (omap_unknown api ids Hunknown).
  cbn -[wait]. rewrite !wait_nil. done.
Qed.

Lemma unknown_filter_selects_nothing_witness :
  GetSchemas demo_api (demo_sched ["a"; "b"; "n"] 3) ["x"; "y"; "x"]
  = (Returns (Some {| Schemas := [] |}, None), []).
Proof.
  apply (unknown_filter_selects_nothing demo_api (demo_sched ["a"; "b"; "n"] 3)
           ["x"; "y"; "x"]).
  - discriminate.
  - repeat constructor.
Defined.

(** ** Schema discovery *)

Lemma servingTablet_from (ks_Name : string) (tablets : list Tablet) (kt0 : option Tablet) :
  fold_left
    (fun kt t =>
       if bool_decide (Keyspace (Tablet_ t) ≠ ks_Name)
          || bool_decide (State t ≠ Tablet_SERVING)
       then kt
       else Some t)
    tablets kt0
  = match last (filter (serving_in ks_Name) tablets) with
    | Some t => Some t
    | None => kt0
    end.
Proof.
  revert kt0; induction tablets as [|t tablets IH]; intros kt0; simpl; [done|].
  rewrite IH, filter_cons.
  destruct (decide (serving_in ks_Name t)) as [[Hk Hs]|Hn].
  - rewrite (bool_decide_eq_false_2 _ (fun H => H Hk)).
    rewrite (bool_decide_eq_false_2 _ (fun H => H Hs)). simpl.
    rewrite last_cons. by destruct (last _).
  - replace (bool_decide (Keyspace (Tablet_ t) ≠ ks_Name)
             || bool_decide (State t ≠ Tablet_SERVING)) with true; [done|].
    symmetry. apply orb_true_iff. rewrite !bool_decide_eq_true.
    destruct (decide (Keyspace (Tablet_ t) = ks_Name)) as [Hk|Hk]; [|by left].
    right. intros Hs. by apply Hn.
Qed.

Lemma servingTablet_last (ks_Name : string) (tablets : list Tablet) :
  servingTablet ks_Name tablets = last (filter (serving_in ks_Name) tablets).
Proof. unfold servingTablet. rewrite servingTablet_from. by destruct (last _). Qed.

(** The guard of getSchemasForKeyspace never dereferences nil, and when it
    lets a response through, the table definitions are there and not empty. *)
Lemma without_table_definitions_spec (s : option GetSchemaResponse) :
  (without_table_definitions s = Some true
   /\ (s = None
       \/ (exists r, s = Some r /\ Schema r = None)
       \/ (exists r sd, s = Some r /\ Schema r = Some sd /\ TableDefinitions sd = [])))
  \/ (without_table_definitions s = Some false
      /\ exists r sd, s = Some r /\ Schema r = Some sd /\ TableDefinitions sd <> []
                      /\ read_Schema_TableDefinitions s = Some (TableDefinitions sd)).
Proof.
  destruct s as [[[sd|]]|]; simpl.
  - destruct sd as [[|td tds]]; simpl.
    + left; split; [done|]. right; right. by eexists _, _.
    + right; split; [done|]. by eexists _, _.
  - left; split; [done|]. right; left. by eexists.
  - left; split; [done|]. by left.
Qed.


Lemma servingTablet_decomposed (ks_Name : string) (pre post : list Tablet) (t : Tablet) :
  serving_in ks_Name t ->
  Forall (fun u => ~ serving_in ks_Name u) post ->
  servingTablet ks_Name (pre ++ t :: post) = Some t.
Proof.
  intros Ht Hpost. rewrite servingTablet_last, filter_app, filter_cons_True by done.
  replace (filter (serving_in ks_Name) post) with (@nil Tablet).
  - by rewrite last_snoc.
  - symmetry. induction Hpost as [|u post Hu _ IH]; [done|].
    by rewrite filter_cons_False.
Qed.

Lemma getSchemasForKeyspace_calls (c : Cluster) (ks : KeyspacePb) (tablets : list Tablet) :
  snd (getSchemasForKeyspace c ks tablets)
  = match servingTablet (ks_Name ks) tablets with
    | None => []
    | Some kt =>
        match Vtctld_Dial c with
        | Some _ => [CallDial (ID c)]
        | None => [CallDial (ID c); CallGetSchema (ID c) (Alias (Tablet_ kt))]
        end
    end.
Proof.
  unfold getSchemasForKeyspace.
  destruct (servingTablet _ _) as [kt|]; [|done].
  destruct (Vtctld_Dial c); [done|].
  destruct (Vtctld_GetSchema c _) as [s|]; [|done].
  destruct (without_table_definitions s) as [[]|]; try done.
  by destruct (read_Schema_TableDefinitions s).
Qed.

(** What getSchemasForKeyspace can return: it never panics, never returns
    an entry together with an error, and an entry it returns comes from a
    serving tablet whose schema has table definitions. *)
Lemma getSchemasForKeyspace_cases (c : Cluster) (ks : KeyspacePb) (tablets : list Tablet) :
  match fst (getSchemasForKeyspace c ks tablets) with
  | Panics => False
  | Returns (Some e, Some _) => False
  | Returns (Some e, None) =>
      exists kt r sd,
        servingTablet (ks_Name ks) tablets = Some kt
        /\ Vtctld_GetSchema c (Alias (Tablet_ kt)) = Ok (Some r)
        /\ Schema r = Some sd
        /\ TableDefinitions sd <> []
        /\ e = {| s_Cluster := {| Id := ID c; cpb_Name := Name c |};
                  s_Keyspace := ks_Name ks;
                  s_TableDefinitions := TableDefinitions sd |}
  | Returns (None, _) => True
  end.
Proof.
  unfold getSchemasForKeyspace.
  destruct (servingTablet _ _) as [kt|] eqn:Hkt; [|done].
  destruct (Vtctld_Dial c); [done|].
  destruct (Vtctld_GetSchema c _) as [s|] eqn:Hs; [|done].
  destruct (without_table_definitions_spec s)
    as [[-> _]|[-> (r & sd & -> & Hsd & Htds & ->)]]; simpl; [done|].
  by exists kt, r, sd.
Qed.

Lemma getSchemasForKeyspace_alive (c : Cluster) (ks : KeyspacePb) (tablets : list Tablet) :
  fst (getSchemasForKeyspace c ks tablets) <> Panics.
Proof.
  pose proof (getSchemasForKeyspace_cases c ks tablets) as H.
  by destruct (fst (getSchemasForKeyspace c ks tablets)).
Qed.

(** Of three serving tablets of the keyspace, the third is selected. *)
Example servingTablet_demo :
  servingTablet "commerce" [demo_t100; demo_t101; demo_t102; demo_t103] = Some demo_t102.
Proof. reflexivity. Qed.

(** The schema listing of the healthy cluster: one entry, fetched from the
    last serving tablet. *)
Example GetSchemas_demo :
  GetSchemas demo_api (demo_sched [] 1) ["a"]
  = (Returns
       (Some {| Schemas :=
                  [{| s_Cluster := {| Id := "a"; cpb_Name := "cluster A" |};
                      s_Keyspace := "commerce";
                      s_TableDefinitions := [demo_customer; demo_orders] |}] |},
        None),
     [CallGetTablets "a"; CallDial "a"; CallGetKeyspaces "a"; CallDial "a";
      CallGetSchema "a" {| Cell := "zone1"; Uid := 102 |}]).
Proof. vm_compute. reflexivity. Qed.

(** C3. For every keyspace and every tablet list, the tablet selected is
    the last one of the list that belongs to the keyspace and is serving
    (none when there is no such tablet), and the only GetSchema call of the
    per-keyspace fetch is addressed to that tablet's alias. *)
Theorem schema_fetched_from_last_serving_tablet
    (c : Cluster) (ks : KeyspacePb) (tablets : list Tablet) :
  servingTablet (ks_Name ks) tablets = last (filter (serving_in (ks_Name ks)) tablets)
  /\ snd (getSchemasForKeyspace c ks tablets)
     = match last (filter (serving_in (ks_Name ks)) tablets) with
       | None => []
       | Some kt =>
           match Vtctld_Dial c with
           | Some _ => [CallDial (ID c)]
           | None => [CallDial (ID c); CallGetSchema (ID c) (Alias (Tablet_ kt))]
           end
       end.
Proof.
  split; [apply servingTablet_last|].
  rewrite getSchemasForKeyspace_calls. by rewrite servingTablet_last.
Qed.

Lemma getSchemasForKeyspace_skips (c : Cluster) (ks : KeyspacePb) (tablets : list Tablet)
    (kt : Tablet) (s : option GetSchemaResponse) :
  servingTablet (ks_Name ks) tablets = Some kt ->
  Vtctld_Dial c = None ->
  Vtctld_GetSchema c (Alias (Tablet_ kt)) = Ok s ->
  s = None
  \/ (exists r, s = Some r /\ Schema r = None)
  \/ (exists r sd, s = Some r /\ Schema r = Some sd /\ TableDefinitions sd = []) ->
  fst (getSchemasForKeyspace c ks tablets) = Returns (None, None).
Proof.
  intros Hkt Hdial Hget Hdegenerate.
  unfold getSchemasForKeyspace. rewrite Hkt, Hdial, Hget.
  destruct Hdegenerate as [->|[([sch] & -> & Hr)|([sch] & sd & -> & Hr & Hsd)]];
    simpl in *; subst; simpl.
  - done.
  - done.
  - by rewrite Hsd.
Qed.

(** C10. When the keyspace has a serving tablet, the dial succeeds and
    GetSchema succeeds with a nil response, with a response whose schema is
    nil, or with a schema without table definitions, getSchemasForKeyspace
    returns (nil, nil): it neither fails nor dereferences nil. *)
Theorem getSchemasForKeyspace_degenerate_schema
    (c : Cluster) (ks : KeyspacePb) (tablets : list Tablet) (kt : Tablet)
    (s : option GetSchemaResponse)
    (Hkt : servingTablet (ks_Name ks) tablets = Some kt)
    (Hdial : Vtctld_Dial c = None)
    (Hget : Vtctld_GetSchema c (Alias (Tablet_ kt)) = Ok s)
    (Hdegenerate :
       s = None
       \/ (exists r, s = Some r /\ Schema r = None)
       \/ (exists r sd, s = Some r /\ Schema r = Some sd /\ TableDefinitions sd = [])) :
  fst (getSchemasForKeyspace c ks tablets) = Returns (None, None)
  /\ snd (getSchemasForKeyspace c ks tablets)
     = [CallDial (ID c); CallGetSchema (ID c) (Alias (Tablet_ kt))].
Proof.
  split.
  - by apply (getSchemasForKeyspace_skips c ks tablets kt s).
  - rewrite getSchemasForKeyspace_calls. by rewrite Hkt, Hdial.
Qed.

Lemma getSchemasForKeyspace_degenerate_schema_witness :
  fst (getSchemasForKeyspace demo_N {| ks_Name := "commerce"; ks_Keyspace := "{}" |}
         [demo_t100])
  = Returns (None, None).
Proof.
  eapply proj1.
  apply (getSchemasForKeyspace_degenerate_schema demo_N
           {| ks_Name := "commerce"; ks_Keyspace := "{}" |} [demo_t100] demo_t100
           (Some {| Schema := None |})).
  - reflexivity.
  - reflexivity.
  - reflexivity.
  - right; left. exists {| Schema := None |}. split; reflexivity.
Defined.

Lemma getSchemas_goroutine_spec (c : Cluster) (tablets : list Tablet) (ks : KeyspacePb) :
  crashed (getSchemas_goroutine c tablets ks) = false
  /\ forall e, e ∈ appended (getSchemas_goroutine c tablets ks) ->
               fst (getSchemasForKeyspace c ks tablets) = Returns (Some e, None).
Proof.
  unfold getSchemas_goroutine.
  pose proof (getSchemasForKeyspace_alive c ks tablets) as Halive.
  destruct (getSchemasForKeyspace c ks tablets) as [[[[ss|] [err|]]|] calls];
    simpl in *; try done; split; try done; try (by intros e ?%elem_of_nil).
  by intros e ->%list_elem_of_singleton.
Qed.

Lemma getSchemas_cases (korder : list nat) (c : Cluster) (tablets : list Tablet) :
  match fst (getSchemas korder c tablets) with
  | Panics => False
  | Returns (Some _, Some _) => False
  | Returns (Some ss, None) =>
      forall e, e ∈ ss ->
        exists kss ks,
          Vtctld_GetKeyspaces c = Ok kss /\ ks ∈ kss
          /\ fst (getSchemasForKeyspace c ks tablets) = Returns (Some e, None)
  | Returns (None, _) => True
  end.
Proof.
  unfold getSchemas.
  destruct (Vtctld_Dial c); [done|].
  destruct (Vtctld_GetKeyspaces c) as [kss|]; [|done].
  set (bs := map (getSchemas_goroutine c tablets) kss).
  assert (Hbs : forall b, b ∈ bs -> exists ks, ks ∈ kss /\ b = getSchemas_goroutine c tablets ks).
  { intros b Hb. apply list_elem_of_In, in_map_iff in Hb as (ks & <- & Hks).
    exists ks. split; [by apply list_elem_of_In|done]. }
  rewrite (wait_alive korder bs).
  - destruct (HasErrors _); [done|]. cbn -[wait].
    intros e (b & Hb & He)%wait_acc_elem.
    destruct (Hbs b Hb) as (ks & Hks & ->).
    exists kss, ks. repeat split; [done|].
    by apply getSchemas_goroutine_spec.
  - apply Forall_forall. intros b Hb. destruct (Hbs b Hb) as (ks & _ & ->).
    apply getSchemas_goroutine_spec.
Qed.

Lemma GetSchemas_goroutine_spec (korder : list nat) (c : Cluster) :
  crashed (GetSchemas_goroutine korder c) = false
  /\ forall e, e ∈ appended (GetSchemas_goroutine korder c) -> schema_entry_of c e.
Proof.
  unfold GetSchemas_goroutine.
  destruct (Cluster_GetTablets c) as [tablets|err0] eqn:Htablets;
    [|split; [done|by intros e ?%elem_of_nil]].
  pose proof (getSchemas_cases korder c tablets) as Hcases.
  destruct (getSchemas korder c tablets) as [[[[ss|] [err|]]|] calls];
    simpl in *; try done; split; try done; try (by intros e ?%elem_of_nil).
  intros e He. destruct (Hcases e He) as (kss & ks & Hkss & Hks & Hfetch).
  pose proof (getSchemasForKeyspace_cases c ks tablets) as Hentry.
  rewrite Hfetch in Hentry. destruct Hentry as (kt & r & sd & Hkt & Hget & Hr & Hsd & ->).
  by exists tablets, kss, ks, kt, r, sd.
Qed.

(** C6. Every entry of a GetSchemas response has at least one table
    definition and stems from a keyspace with a serving tablet whose
    fetched schema has table definitions. A keyspace without serving tablet
    is skipped by the per-keyspace fetch without any call, entry or error;
    so is, after the fetch, a keyspace whose schema has no table
    definitions. *)
Theorem GetSchemas_entries_have_table_definitions
    (api : API) (s : Schedule) (ids : list string) (resp : GetSchemasResponse)
    (Hresp : fst (GetSchemas api s ids) = Returns (Some resp, None)) :
  Forall
    (fun e =>
       s_TableDefinitions e <> []
       /\ exists c, c ∈ fst (getClustersForRequest api s ids) /\ schema_entry_of c e)
    (Schemas resp)
  /\ (forall c ks tablets,
        servingTablet (ks_Name ks) tablets = None ->
        getSchemasForKeyspace c ks tablets = (Returns (None, None), []))
  /\ (forall c ks tablets kt r sd,
        servingTablet (ks_Name ks) tablets = Some kt ->
        Vtctld_Dial c = None ->
        Vtctld_GetSchema c (Alias (Tablet_ kt)) = Ok (Some r) ->
        Schema r = Some sd ->
        TableDefinitions sd = [] ->
        fst (getSchemasForKeyspace c ks tablets) = Returns (None, None)).
Proof.
  split; [|split].
  - revert Hresp. unfold GetSchemas.
    destruct (getClustersForRequest api s ids) as [cs effective]. cbn -[wait].
    destruct (died _); [done|]. destruct (HasErrors _); [done|].
    cbn -[wait]. intros [= <-]. cbn -[wait].
    apply Forall_forall. intros e (b & Hb & He)%wait_acc_elem.
    apply list_elem_of_lookup in Hb as (i & Hi).
    rewrite list_lookup_imap in Hi.
    destruct (cs !! i) as [c|] eqn:Hc; [|done]. injection Hi as <-.
    destruct (GetSchemas_goroutine_spec (inner s i) c) as (_ & Hentry).
    specialize (Hentry e He). split.
    + destruct Hentry as (? & ? & ? & ? & ? & sd & _ & _ & _ & _ & _ & _ & Hsd & ->).
      exact Hsd.
    + exists c. split; [by eapply list_elem_of_lookup_2|done].
  - intros c ks tablets Hnone. unfold getSchemasForKeyspace. by rewrite Hnone.
  - intros c ks tablets kt r sd Hkt Hdial Hget Hr Hsd.
    apply (getSchemasForKeyspace_skips c ks tablets kt (Some r)); try done.
    right; right. by exists r, sd.
Qed.

Lemma GetSchemas_entries_have_table_definitions_witness :
  Forall (fun e => s_TableDefinitions e <> [])
    [{| s_Cluster := {| Id := "a"; cpb_Name := "cluster A" |};
        s_Keyspace := "commerce";
        s_TableDefinitions := [demo_customer; demo_orders] |}].
Proof.
  destruct (GetSchemas_entries_have_table_definitions demo_api (demo_sched [] 1) ["a"]
              {| Schemas :=
                   [{| s_Cluster := {| Id := "a"; cpb_Name := "cluster A" |};
                       s_Keyspace := "commerce";
                       s_TableDefinitions := [demo_customer; demo_orders] |}] |})
    as (H & _).
  - vm_compute. reflexivity.
  - simpl in H. eapply Forall_impl; [exact H|]. intros e [He _]. exact He.
Defined.

(** ** Tablet lookup *)

Lemma found_by_hostname_from (hostname : string) (ts found0 : list Tablet) :
  fold_left
    (fun found t =>
       if bool_decide (Hostname (Tablet_ t) = hostname) then found ++ [t] else found)
    ts found0
  = found0 ++ filter (fun t => Hostname (Tablet_ t) = hostname) ts.
Proof.
  revert found0; induction ts as [|t ts IH]; intros found0; simpl.
  - by rewrite app_nil_r.
  - rewrite IH, filter_cons. case_bool_decide.
    + rewrite decide_True by done. by rewrite <- app_assoc.
    + by rewrite decide_False by done.
Qed.

Lemma found_by_hostname_filter (hostname : string) (ts : list Tablet) :
  found_by_hostname hostname ts = filter (fun t => Hostname (Tablet_ t) = hostname) ts.
Proof. unfold found_by_hostname. by rewrite found_by_hostname_from. Qed.

Lemma GetTablet_goroutine_alive (hostname : string) (cs : list Cluster) :
  Forall (fun b => crashed b = false) (map (GetTablet_goroutine hostname) cs).
Proof.
  apply Forall_forall. intros b (c & <- & _)%list_elem_of_In%in_map_iff.
  unfold GetTablet_goroutine. by destruct (Cluster_GetTablets c).
Qed.

Lemma GetTablet_goroutines_found (hostname : string) (cs : list Cluster) :
  Forall (fun c => exists ts, Cluster_GetTablets c = Ok ts) cs ->
  concat (map appended (map (GetTablet_goroutine hostname) cs)) = matching_tablets hostname cs
  /\ concat (map recorded (map (GetTablet_goroutine hostname) cs)) = [].
Proof.
  unfold matching_tablets.
  induction 1 as [|c cs (ts & Hts) _ [IHa IHr]]; simpl; [done|].
  unfold GetTablet_goroutine at 1 3. rewrite Hts. simpl.
  by rewrite IHa, IHr, found_by_hostname_filter.
Qed.

Lemma GetTablet_failing_listing (ext : Externals) (api : API) (s : Schedule)
    (hostname : string) (ids : list string) (c : Cluster) (e : error) :
  schedules (outer s) (length (fst (getClustersForRequest api s ids))) ->
  c ∈ fst (getClustersForRequest api s ids) ->
  Cluster_GetTablets c = Err e ->
  fails_with (fst (GetTablet ext api s hostname ids)) e.
Proof.
  unfold GetTablet. destruct (getClustersForRequest api s ids) as [cs effective].
  cbn -[wait]. intros Hsched Hc He.
  rewrite (wait_alive _ _ (GetTablet_goroutine_alive hostname cs)).
  assert (Hin : e ∈ er (wait (outer s) (map (GetTablet_goroutine hostname) cs))).
  { apply (wait_recorded _ _ (GetTablet_goroutine hostname c)).
    - by rewrite length_map.
    - by apply list_elem_of_In, in_map, list_elem_of_In.
    - unfold GetTablet_goroutine. rewrite He. simpl. by apply list_elem_of_singleton. }
  rewrite (HasErrors_elem _ _ Hin). cbn -[wait]. by eexists.
Qed.

Lemma GetTablet_decided (ext : Externals) (api : API) (s : Schedule)
    (hostname : string) (ids : list string) :
  schedules (outer s) (length (fst (getClustersForRequest api s ids))) ->
  Forall (fun c => exists ts, Cluster_GetTablets c = Ok ts)
    (fst (getClustersForRequest api s ids)) ->
  fst (GetTablet ext api s hostname ids)
  = match matching_tablets hostname (fst (getClustersForRequest api s ids)) with
    | [] =>
        Returns
          (None,
           Some (EVt Code_NOT_FOUND
                   (searched_message ext ErrNoTablet hostname
                      (snd (getClustersForRequest api s ids)))))
    | [t] => Returns (Some t, None)
    | _ :: _ :: _ =>
        Returns
          (None,
           Some (EVt Code_NOT_FOUND
                   (searched_message ext ErrAmbiguousTablet hostname
                      (snd (getClustersForRequest api s ids)))))
    end.
Proof.
  unfold GetTablet. destruct (getClustersForRequest api s ids) as [cs effective].
  cbn -[wait matching_tablets]. intros Hsched Hlisted.
  rewrite (wait_alive _ _ (GetTablet_goroutine_alive hostname cs)).
  destruct (GetTablet_goroutines_found hostname cs Hlisted) as [Hfound Hnone].
  assert (Hrun : schedules (outer s) (length (map (GetTablet_goroutine hostname) cs)))
    by (by rewrite length_map).
  pose proof (wait_er _ _ Hrun) as Her. pose proof (wait_acc _ _ Hrun) as Hacc.
  rewrite Hnone in Her. rewrite Hfound in Hacc.
  apply Permutation_nil_r in Her. rewrite Her. cbn -[wait matching_tablets].
  destruct (matching_tablets hostname cs) as [|t [|t' found]].
  - apply Permutation_nil_r in Hacc. by rewrite Hacc.
  - apply Permutation_singleton_r in Hacc. by rewrite Hacc.
  - apply Permutation_length in Hacc.
    destruct (acc _) as [|a [|a' rest]]; simpl in Hacc; try done.
Qed.

(** C2, as amended. When the per-cluster goroutines are all run and every
    selected cluster lists its tablets, GetTablet is decided by the number
    of tablets with the requested hostname, counted over the working set
    (a cluster once per occurrence): none gives an error of code NOT_FOUND
    whose text starts with the no-tablet sentinel text and ends with the
    effective identifiers; one gives that tablet; more give an error of the
    same code NOT_FOUND whose text starts with the ambiguous-tablet sentinel
    text and ends with the effective identifiers. The two errors have the
    same kind and wrap no sentinel: only their text tells them apart. A
    selected cluster whose listing fails makes the call fail with the
    combined error instead. *)
Theorem GetTablet_three_way (ext : Externals) (api : API) (s : Schedule)
    (hostname : string) (ids : list string)
    (Hsched : schedules (outer s) (length (fst (getClustersForRequest api s ids)))) :
  let cs := fst (getClustersForRequest api s ids) in
  let effective := snd (getClustersForRequest api s ids) in
  let not_found := EVt Code_NOT_FOUND (searched_message ext ErrNoTablet hostname effective) in
  let ambiguous :=
    EVt Code_NOT_FOUND (searched_message ext ErrAmbiguousTablet hostname effective) in
  (Forall (fun c => exists ts, Cluster_GetTablets c = Ok ts) cs ->
   fst (GetTablet ext api s hostname ids)
   = match matching_tablets hostname cs with
     | [] => Returns (None, Some not_found)
     | [t] => Returns (Some t, None)
     | _ :: _ :: _ => Returns (None, Some ambiguous)
     end)
  /\ (forall c e, c ∈ cs -> Cluster_GetTablets c = Err e ->
                  fails_with (fst (GetTablet ext api s hostname ids)) e)
  /\ kind_of ambiguous = kind_of not_found
  /\ (forall target, errors_Is ambiguous target = false /\ errors_Is not_found target = false).
Proof.
  intros cs effective not_found ambiguous. split; [|split; [|split]].
  - by apply GetTablet_decided.
  - intros c e. by apply GetTablet_failing_listing.
  - done.
  - done.
Qed.

Lemma GetTablet_three_way_witness :
  fst (GetTablet demo_ext demo_api (demo_sched [] 2) "h1" ["a"; "zz"; "n"])
  = Returns
      (None,
       Some (EVt Code_NOT_FOUND "multiple tablets found: h1, searched clusters = [a zz n]")).
Proof.
  destruct (GetTablet_three_way demo_ext demo_api (demo_sched [] 2) "h1" ["a"; "zz"; "n"])
    as (H & _).
  - vm_compute. reflexivity.
  - rewrite H; [vm_compute; reflexivity|].
    vm_compute. repeat constructor; eexists; reflexivity.
Defined.

(** C2, as stated, fails: one tablet list, one filter; a hostname without
    tablet and a hostname with two tablets are answered by errors of the
    same kind (code NOT_FOUND, no sentinel in the chain), told apart by
    their text alone; and a cluster that cannot list its tablets yields a
    fourth outcome, the combined error. *)
Lemma GetTablet_ambiguous_is_not_a_kind :
  let not_found := EVt Code_NOT_FOUND "no such tablet: h9, searched clusters = [a]" in
  let ambiguous := EVt Code_NOT_FOUND "multiple tablets found: h2, searched clusters = [a]" in
  fst (GetTablet demo_ext demo_api (demo_sched [] 1) "h9" ["a"])
  = Returns (None, Some not_found)
  /\ fst (GetTablet demo_ext demo_api (demo_sched [] 1) "h2" ["a"])
     = Returns (None, Some ambiguous)
  /\ kind_of ambiguous = kind_of not_found
  /\ errors_Is ambiguous ErrAmbiguousTablet = false
  /\ fst (GetTablet demo_ext demo_api (demo_sched [] 1) "h1" ["b"])
     = Returns (None, Some (EAggregate [demo_unavailable])).
Proof. vm_compute. repeat split. Qed.

(** ** Duplicated identifiers *)

Lemma matching_tablets_app (hostname : string) (cs cs' : list Cluster) :
  matching_tablets hostname (cs ++ cs')
  = matching_tablets hostname cs ++ matching_tablets hostname cs'.
Proof. unfold matching_tablets. by rewrite map_app, concat_app. Qed.

Lemma matching_tablets_cons (hostname : string) (c : Cluster) (cs : list Cluster) :
  matching_tablets hostname (c :: cs)
  = match Cluster_GetTablets c with
    | Ok ts => filter (fun t => Hostname (Tablet_ t) = hostname) ts
    | Err _ => []
    end ++ matching_tablets hostname cs.
Proof. done. Qed.

Lemma GetGates_calls (api : API) (s : Schedule) (ids : list string) :
  snd (GetGates api s ids)
  = log (wait (outer s) (map GetGates_goroutine (fst (getClustersForRequest api s ids)))).
Proof.
  unfold GetGates. destruct (getClustersForRequest api s ids) as [cs effective].
  cbn -[wait]. destruct (died _); [done|]. by destruct (HasErrors _).
Qed.

Lemma GetTablets_calls (api : API) (s : Schedule) (ids : list string) :
  snd (GetTablets api s ids)
  = log (wait (outer s) (map GetTablets_goroutine (fst (getClustersForRequest api s ids)))).
Proof.
  unfold GetTablets. destruct (getClustersForRequest api s ids) as [cs effective].
  cbn -[wait]. destruct (died _); [done|]. by destruct (HasErrors _).
Qed.

Lemma GetTablet_calls (ext : Externals) (api : API) (s : Schedule) (hostname : string)
    (ids : list string) :
  snd (GetTablet ext api s hostname ids)
  = log (wait (outer s)
           (map (GetTablet_goroutine hostname) (fst (getClustersForRequest api s ids)))).
Proof.
  unfold GetTablet. destruct (getClustersForRequest api s ids) as [cs effective].
  cbn -[wait]. destruct (died _); [done|]. destruct (HasErrors _); [done|].
  by destruct (acc _) as [|? [|? ?]].
Qed.

Lemma GetKeyspaces_calls (api : API) (s : Schedule) (ids : list string) :
  snd (GetKeyspaces api s ids)
  = log (wait (outer s)
           (imap (fun i c => GetKeyspaces_goroutine (inner s i) c)
              (fst (getClustersForRequest api s ids)))).
Proof.
  unfold GetKeyspaces. destruct (getClustersForRequest api s ids) as [cs effective].
  cbn -[wait]. destruct (died _); [done|]. by destruct (HasErrors _).
Qed.

Lemma GetSchemas_calls (api : API) (s : Schedule) (ids : list string) :
  snd (GetSchemas api s ids)
  = log (wait (outer s)
           (imap (fun i c => GetSchemas_goroutine (inner s i) c)
              (fst (getClustersForRequest api s ids)))).
Proof.
  unfold GetSchemas. destruct (getClustersForRequest api s ids) as [cs effective].
  cbn -[wait]. destruct (died _); [done|]. by destruct (HasErrors _).
Qed.

Lemma one_call_each {R : Type} (g : Cluster -> Branch R) (call : Cluster -> Event)
    (cs : list Cluster) :
  (forall c, issued (g c) = [call c]) ->
  concat (map issued (map g cs)) = map call cs.
Proof.
  intros Hg. induction cs as [|c cs IH]; simpl; [done|]. by rewrite Hg, IH.
Qed.

Lemma map_issued_imap {R : Type} (g : nat -> Cluster -> Branch R) (cs : list Cluster) :
  map issued (imap g cs) = imap (fun i c => issued (g i c)) cs.
Proof.
  revert g; induction cs as [|c cs IH]; intros g; [done|].
  rewrite !imap_cons. simpl. f_equal. apply IH.
Qed.

(** C9. A filter in which a known identifier occurs twice resolves to a
    working set with that cluster at both places; one goroutine is started
    per member of the working set, so every per-cluster call is issued once
    per occurrence; and when the duplicated cluster has exactly one tablet
    with the requested hostname (all selected clusters listing their
    tablets), GetTablet answers with the ambiguous-tablet error. *)
Theorem duplicated_identifier_resolved_per_occurrence
    (ext : Externals) (api : API) (s : Schedule) (id : string) (c : Cluster)
    (l1 l2 l3 : list string) (hostname : string) (ts : list Tablet) (t : Tablet)
    (Hknown : clusterMap api !! id = Some c)
    (Hsched :
       schedules (outer s)
         (length (omap (fun i => clusterMap api !! i) (l1 ++ id :: l2 ++ id :: l3))))
    (Hlisted :
       Forall (fun c' => exists ts', Cluster_GetTablets c' = Ok ts')
         (omap (fun i => clusterMap api !! i) (l1 ++ id :: l2 ++ id :: l3)))
    (Hts : Cluster_GetTablets c = Ok ts)
    (Hone : filter (fun u => Hostname (Tablet_ u) = hostname) ts = [t]) :
  let ids := l1 ++ id :: l2 ++ id :: l3 in
  let resolve := omap (fun i => clusterMap api !! i) in
  fst (getClustersForRequest api s ids) = resolve l1 ++ c :: resolve l2 ++ c :: resolve l3
  /\ snd (GetGates api s ids) ≡ₚ map (fun c' => CallDiscoverVTGates (ID c')) (resolve ids)
  /\ snd (GetTablets api s ids) ≡ₚ map (fun c' => CallGetTablets (ID c')) (resolve ids)
  /\ snd (GetTablet ext api s hostname ids)
     ≡ₚ map (fun c' => CallGetTablets (ID c')) (resolve ids)
  /\ snd (GetKeyspaces api s ids)
     ≡ₚ concat (imap (fun i c' => issued (GetKeyspaces_goroutine (inner s i) c'))
                  (resolve ids))
  /\ snd (GetSchemas api s ids)
     ≡ₚ concat (imap (fun i c' => issued (GetSchemas_goroutine (inner s i) c'))
                  (resolve ids))
  /\ fst (GetTablet ext api s hostname ids)
     = Returns
         (None,
          Some (EVt Code_NOT_FOUND (searched_message ext ErrAmbiguousTablet hostname ids))).
Proof.
  intros ids resolve.
  assert (Hids : ids <> []) by (subst ids; by destruct l1).
  assert (Hres : getClustersForRequest api s ids = (resolve ids, ids))
    by apply (getClustersForRequest_some api s ids Hids).
  assert (Hsplit : resolve ids = resolve l1 ++ c :: resolve l2 ++ c :: resolve l3).
  { subst ids resolve. rewrite omap_app. simpl. rewrite Hknown.
    rewrite omap_app. simpl. by rewrite Hknown. }
  split; [by rewrite Hres|].
  split.
  { rewrite GetGates_calls, Hres. cbn -[wait]. rewrite wait_log by (by rewrite length_map).
    rewrite (one_call_each GetGates_goroutine (fun c' => CallDiscoverVTGates (ID c'))); [done|].
    intros c'. unfold GetGates_goroutine. by destruct (Discovery_DiscoverVTGates c'). }
  split.
  { rewrite GetTablets_calls, Hres. cbn -[wait]. rewrite wait_log by (by rewrite length_map).
    rewrite (one_call_each GetTablets_goroutine (fun c' => CallGetTablets (ID c'))); [done|].
    intros c'. unfold GetTablets_goroutine. by destruct (Cluster_GetTablets c'). }
  split.
  { rewrite GetTablet_calls, Hres. cbn -[wait]. rewrite wait_log by (by rewrite length_map).
    rewrite (one_call_each (GetTablet_goroutine hostname)
               (fun c' => CallGetTablets (ID c'))); [done|].
    intros c'. unfold GetTablet_goroutine. by destruct (Cluster_GetTablets c'). }
  split.
  { rewrite GetKeyspaces_calls, Hres. cbn -[wait].
    rewrite wait_log by (by rewrite length_imap).
    by rewrite map_issued_imap. }
  split.
  { rewrite GetSchemas_calls, Hres. cbn -[wait].
    rewrite wait_log by (by rewrite length_imap).
    by rewrite map_issued_imap. }
  rewrite GetTablet_decided; rewrite Hres; cbn -[matching_tablets]; try done.
  rewrite Hsplit, matching_tablets_app, matching_tablets_cons, Hts, Hone.
  rewrite matching_tablets_app, matching_tablets_cons, Hts, Hone.
  destruct (matching_tablets hostname (resolve l1)) as [|a [|a' m1]]; simpl; try done;
    by destruct (matching_tablets hostname (resolve l2)).
Qed.

Lemma duplicated_identifier_resolved_per_occurrence_witness :
  fst (GetTablet demo_ext demo_api (demo_sched [] 2) "h1" ["a"; "a"])
  = Returns
      (None,
       Some (EVt Code_NOT_FOUND "multiple tablets found: h1, searched clusters = [a a]"))
  /\ snd (GetTablet demo_ext demo_api (demo_sched [] 2) "h1" ["a"; "a"])
     ≡ₚ [CallGetTablets "a"; CallGetTablets "a"].
Proof.
  destruct (duplicated_identifier_resolved_per_occurrence demo_ext demo_api
              (demo_sched [] 2) "a" demo_A [] [] [] "h1"
              [demo_t100; demo_t101; demo_t102; demo_t103] demo_t100)
    as (_ & _ & _ & Hcalls & _ & _ & Hambiguous).
  - vm_compute. reflexivity.
  - vm_compute. reflexivity.
  - vm_compute. repeat constructor; eexists; reflexivity.
  - reflexivity.
  - vm_compute. reflexivity.
  - split; [exact Hambiguous|exact Hcalls].
Defined.

(** ** All or nothing at the barrier *)

Lemma GetGates_goroutine_alive (cs : list Cluster) :
  Forall (fun b => crashed b = false) (map GetGates_goroutine cs).
Proof.
  apply Forall_forall. intros b (c & <- & _)%list_elem_of_In%in_map_iff.
  unfold GetGates_goroutine. by destruct (Discovery_DiscoverVTGates c).
Qed.

Lemma GetTablets_goroutine_alive (cs : list Cluster) :
  Forall (fun b => crashed b = false) (map GetTablets_goroutine cs).
Proof.
  apply Forall_forall. intros b (c & <- & _)%list_elem_of_In%in_map_iff.
  unfold GetTablets_goroutine. by destruct (Cluster_GetTablets c).
Qed.

Lemma GetKeyspaces_goroutine_alive (s : Schedule) (cs : list Cluster) :
  Forall (fun b => crashed b = false)
    (imap (fun i c => GetKeyspaces_goroutine (inner s i) c) cs).
Proof.
  apply Forall_forall. intros b (i & Hi)%list_elem_of_lookup.
  rewrite list_lookup_imap in Hi. destruct (cs !! i) as [c|]; [|done].
  injection Hi as <-. unfold GetKeyspaces_goroutine.
  destruct (Vtctld_Dial c); [done|]. destruct (Vtctld_GetKeyspaces c) as [kss|]; [|done].
  cbn -[wait]. apply wait_alive, Forall_forall.
  intros b (ks & <- & _)%list_elem_of_In%in_map_iff.
  unfold GetKeyspaces_shards_goroutine.
  by destruct (Vtctld_FindAllShardsInKeyspace c (ks_Name ks)).
Qed.

Lemma GetSchemas_goroutine_alive (s : Schedule) (cs : list Cluster) :
  Forall (fun b => crashed b = false)
    (imap (fun i c => GetSchemas_goroutine (inner s i) c) cs).
Proof.
  apply Forall_forall. intros b (i & Hi)%list_elem_of_lookup.
  rewrite list_lookup_imap in Hi. destruct (cs !! i) as [c|]; [|done].
  injection Hi as <-. apply GetSchemas_goroutine_spec.
Qed.

(** The decision taken after [wg.Wait()], common to the operations. *)
Ltac decide_at_barrier Halive Hin :=
  cbn -[wait]; rewrite (wait_alive _ _ Halive), (HasErrors_elem _ _ Hin);
  cbn -[wait]; by eexists.

Lemma GetGates_all_or_nothing (api : API) (s : Schedule) (ids : list string)
    (b : Branch VTGate) (e : error) :
  schedules (outer s) (length (fst (getClustersForRequest api s ids))) ->
  b ∈ map GetGates_goroutine (fst (getClustersForRequest api s ids)) ->
  e ∈ recorded b ->
  fails_with (fst (GetGates api s ids)) e.
Proof.
  unfold GetGates. destruct (getClustersForRequest api s ids) as [cs effective].
  cbn -[wait]. intros Hsched Hb He.
  assert (Hin : e ∈ er (wait (outer s) (map GetGates_goroutine cs)))
    by (apply (wait_recorded _ _ b); [by rewrite length_map|done|done]).
  decide_at_barrier (GetGates_goroutine_alive cs) Hin.
Qed.

Lemma GetTablets_all_or_nothing (api : API) (s : Schedule) (ids : list string)
    (b : Branch Tablet) (e : error) :
  schedules (outer s) (length (fst (getClustersForRequest api s ids))) ->
  b ∈ map GetTablets_goroutine (fst (getClustersForRequest api s ids)) ->
  e ∈ recorded b ->
  fails_with (fst (GetTablets api s ids)) e.
Proof.
  unfold GetTablets. destruct (getClustersForRequest api s ids) as [cs effective].
  cbn -[wait]. intros Hsched Hb He.
  assert (Hin : e ∈ er (wait (outer s) (map GetTablets_goroutine cs)))
    by (apply (wait_recorded _ _ b); [by rewrite length_map|done|done]).
  decide_at_barrier (GetTablets_goroutine_alive cs) Hin.
Qed.

Lemma GetTablet_all_or_nothing (ext : Externals) (api : API) (s : Schedule)
    (hostname : string) (ids : list string) (b : Branch Tablet) (e : error) :
  schedules (outer s) (length (fst (getClustersForRequest api s ids))) ->
  b ∈ map (GetTablet_goroutine hostname) (fst (getClustersForRequest api s ids)) ->
  e ∈ recorded b ->
  fails_with (fst (GetTablet ext api s hostname ids)) e.
Proof.
  unfold GetTablet. destruct (getClustersForRequest api s ids) as [cs effective].
  cbn -[wait]. intros Hsched Hb He.
  assert (Hin : e ∈ er (wait (outer s) (map (GetTablet_goroutine hostname) cs)))
    by (apply (wait_recorded _ _ b); [by rewrite length_map|done|done]).
  decide_at_barrier (GetTablet_goroutine_alive hostname cs) Hin.
Qed.

Lemma GetKeyspaces_all_or_nothing (api : API) (s : Schedule) (ids : list string)
    (b : Branch KeyspaceView) (e : error) :
  schedules (outer s) (length (fst (getClustersForRequest api s ids))) ->
  b ∈ imap (fun i c => GetKeyspaces_goroutine (inner s i) c)
        (fst (getClustersForRequest api s ids)) ->
  e ∈ recorded b ->
  fails_with (fst (GetKeyspaces api s ids)) e.
Proof.
  unfold GetKeyspaces. destruct (getClustersForRequest api s ids) as [cs effective].
  cbn -[wait]. intros Hsched Hb He.
  assert (Hin : e ∈ er (wait (outer s)
                          (imap (fun i c => GetKeyspaces_goroutine (inner s i) c) cs)))
    by (apply (wait_recorded _ _ b); [by rewrite length_imap|done|done]).
  decide_at_barrier (GetKeyspaces_goroutine_alive s cs) Hin.
Qed.

Lemma GetSchemas_all_or_nothing (api : API) (s : Schedule) (ids : list string)
    (b : Branch SchemaPb) (e : error) :
  schedules (outer s) (length (fst (getClustersForRequest api s ids))) ->
  b ∈ imap (fun i c => GetSchemas_goroutine (inner s i) c)
        (fst (getClustersForRequest api s ids)) ->
  e ∈ recorded b ->
  fails_with (fst (GetSchemas api s ids)) e.
Proof.
  unfold GetSchemas. destruct (getClustersForRequest api s ids) as [cs effective].
  cbn -[wait]. intros Hsched Hb He.
  assert (Hin : e ∈ er (wait (outer s)
                          (imap (fun i c => GetSchemas_goroutine (inner s i) c) cs)))
    by (apply (wait_recorded _ _ b); [by rewrite length_imap|done|done]).
  decide_at_barrier (GetSchemas_goroutine_alive s cs) Hin.
Qed.

(** No operation returns a response together with an error, whatever the
    schedule and whatever the clusters answer. *)
Lemma never_a_response_with_an_error (ext : Externals) (api : API) (s : Schedule)
    (ids : list string) (hostname : string) (req : VTExplainRequest) :
  never_both (fst (GetGates api s ids))
  /\ never_both (fst (GetKeyspaces api s ids))
  /\ never_both (fst (GetSchemas api s ids))
  /\ never_both (fst (GetTablets api s ids))
  /\ never_both (fst (GetTablet ext api s hostname ids))
  /\ never_both (fst (VTExplain ext api s req)).
Proof.
  unfold GetGates, GetKeyspaces, GetSchemas, GetTablets, GetTablet, VTExplain.
  destruct (getClustersForRequest api s ids) as [cs effective].
  repeat split.
  - cbn -[wait]. destruct (died _); [done|]. by destruct (HasErrors _).
  - cbn -[wait]. destruct (died _); [done|]. by destruct (HasErrors _).
  - cbn -[wait]. destruct (died _); [done|]. by destruct (HasErrors _).
  - cbn -[wait]. destruct (died _); [done|]. by destruct (HasErrors _).
  - cbn -[wait]. destruct (died _); [done|]. destruct (HasErrors _); [done|].
    by destruct (acc _) as [|? [|? ?]].
  - repeat case_bool_decide; try done.
    destruct (clusterMap api !! req_Cluster req) as [c|]; [|done].
    destruct (Cluster_FindTablet c _) as [tablet|]; [|done].
    destruct (Vtctld_Dial c); [done|].
    cbn -[wait]. destruct (died _); [done|]. destruct (HasErrors _); [done|].
    destruct (vtexplain_Init _ _ _ _); [done|].
    by destruct (vtexplain_Run _ _).
Qed.

(** ** VTExplain *)

(** C7. VTExplain tests the cluster id, then the keyspace name, then the
    SQL text, and returns at the first empty one with an error wrapping the
    invalid-request sentinel and naming that field, before any call is
    issued; the three texts differ. In particular a request with an empty
    SQL text always fails with an invalid-request error and no call, and
    the error names the SQL query when the two other fields are present.
    A complete request for a cluster the registry does not know fails, again
    before any call, with the unsupported-cluster sentinel, which is of
    another kind. *)
Theorem VTExplain_validation (ext : Externals) (api : API) (s : Schedule)
    (req : VTExplainRequest) :
  (req_Cluster req = "" ->
   VTExplain ext api s req
   = (Returns (None, Some (EWrap ErrInvalidRequest "cluster ID is required")), []))
  /\ (req_Cluster req <> "" -> req_Keyspace req = "" ->
      VTExplain ext api s req
      = (Returns (None, Some (EWrap ErrInvalidRequest "keyspace name is required")), []))
  /\ (req_Cluster req <> "" -> req_Keyspace req <> "" -> req_Sql req = "" ->
      VTExplain ext api s req
      = (Returns (None, Some (EWrap ErrInvalidRequest "SQL query is required")), []))
  /\ (req_Sql req = "" ->
      exists detail,
        VTExplain ext api s req = (Returns (None, Some (EWrap ErrInvalidRequest detail)), [])
        /\ errors_Is (EWrap ErrInvalidRequest detail) ErrInvalidRequest = true)
  /\ (req_Cluster req <> "" -> req_Keyspace req <> "" -> req_Sql req <> "" ->
      clusterMap api !! req_Cluster req = None ->
      VTExplain ext api s req = (Returns (None, Some (ESentinel ErrUnsupportedCluster)), []))
  /\ (forall detail,
        kind_of (ESentinel ErrUnsupportedCluster) <> kind_of (EWrap ErrInvalidRequest detail))
  /\ "cluster ID is required" <> "keyspace name is required"
  /\ "cluster ID is required" <> "SQL query is required"
  /\ "keyspace name is required" <> "SQL query is required".
Proof.
  unfold VTExplain. repeat split; try done.
  - intros Hc. by rewrite bool_decide_eq_true_2.
  - intros Hc Hk. by rewrite (bool_decide_eq_false_2 _ Hc), bool_decide_eq_true_2.
  - intros Hc Hk Hq.
    by rewrite (bool_decide_eq_false_2 _ Hc), (bool_decide_eq_false_2 _ Hk),
      bool_decide_eq_true_2.
  - intros Hq. repeat case_bool_decide; try done; by eexists.
  - intros Hc Hk Hq Hunknown.
    by rewrite (bool_decide_eq_false_2 _ Hc), (bool_decide_eq_false_2 _ Hk),
      (bool_decide_eq_false_2 _ Hq), Hunknown.
Qed.

Lemma VTExplain_validation_witness :
  VTExplain demo_ext demo_api (demo_sched [] 3)
    {| req_Cluster := "a"; req_Keyspace := "commerce"; req_Sql := "" |}
  = (Returns (None, Some (EWrap ErrInvalidRequest "SQL query is required")), [])
  /\ VTExplain demo_ext demo_api (demo_sched [] 3) (demo_explain "zz")
     = (Returns (None, Some (ESentinel ErrUnsupportedCluster)), []).
Proof.
  split.
  - apply (VTExplain_validation demo_ext demo_api (demo_sched [] 3)
             {| req_Cluster := "a"; req_Keyspace := "commerce"; req_Sql := "" |});
      [discriminate|discriminate|reflexivity].
  - apply (VTExplain_validation demo_ext demo_api (demo_sched [] 3) (demo_explain "zz"));
      [discriminate|discriminate|discriminate|reflexivity].
Defined.

Lemma wait_log_elem {R : Type} (order : list nat) (bs : list (Branch R)) (ev : Event) :
  ev ∈ log (wait order bs) -> exists b, b ∈ bs /\ ev ∈ issued b.
Proof.
  simpl; rewrite list_elem_of_In, in_concat.
  intros (l & Hl & Hx). apply in_map_iff in Hl as (b & <- & Hb).
  exists b; split; [|by apply list_elem_of_In].
  by eapply run_in_order_elem, list_elem_of_In.
Qed.

(** Past its prelude, VTExplain is the barrier decision over its three
    goroutines followed by the explain engine. *)
Lemma VTExplain_past_prelude (ext : Externals) (api : API) (s : Schedule)
    (req : VTExplainRequest) (c : Cluster) (tablet : Tablet) :
  reaches_fan_out ext api req c tablet ->
  VTExplain ext api s req
  = let schema := VTExplain_GetSchema c tablet in
    let srvVSchema := VTExplain_GetSrvVSchema ext c tablet req in
    let shardMap := VTExplain_FindAllShards ext c req in
    let j := wait (outer s) (VTExplain_goroutines ext c tablet req) in
    let calls := [CallFindTablet (ID c); CallDial (ID c)] ++ log j in
    if died j then (Panics, calls)
    else if HasErrors (er j)
    then (Returns (None, Some (AllErrors (er j))), calls)
    else
      let init :=
        CallExplainInit (slot_of srvVSchema) (slot_of schema) (slot_of shardMap) in
      match vtexplain_Init ext (slot_of srvVSchema) (slot_of schema) (slot_of shardMap) with
      | Some err => (Returns (None, Some err), calls ++ [init])
      | None =>
          match vtexplain_Run ext (req_Sql req) with
          | Err err =>
              (Returns (None, Some err), calls ++ [init; CallExplainRun (req_Sql req)])
          | Ok plans =>
              (Returns (Some {| Response := vtexplain_ExplainsAsText ext plans |}, None),
               calls ++ [init; CallExplainRun (req_Sql req)])
          end
      end.
Proof.
  intros (Hc & Hk & Hq & Hknown & Hfind & Hdial). unfold VTExplain.
  by rewrite (bool_decide_eq_false_2 _ Hc), (bool_decide_eq_false_2 _ Hk),
    (bool_decide_eq_false_2 _ Hq), Hknown, Hfind, Hdial.
Qed.

Lemma VTExplain_GetSrvVSchema_alive (ext : Externals) (c : Cluster) (tablet : Tablet)
    (req : VTExplainRequest) :
  crashed (VTExplain_GetSrvVSchema ext c tablet req) = false.
Proof.
  unfold VTExplain_GetSrvVSchema.
  destruct (Vtctld_GetSrvVSchema c _) as [res|]; [|done].
  destruct (SrvVSchema_Keyspaces res !! req_Keyspace req) as [ksvs|]; [|done].
  by destruct (json_Marshal_vschema ext ksvs).
Qed.

Lemma VTExplain_FindAllShards_alive (ext : Externals) (c : Cluster) (req : VTExplainRequest) :
  crashed (VTExplain_FindAllShards ext c req) = false.
Proof.
  unfold VTExplain_FindAllShards.
  destruct (Vtctld_FindAllShardsInKeyspace c _) as [shards|]; [|done].
  by destruct (json_Marshal_shards ext _).
Qed.

Lemma VTExplain_issued (ext : Externals) (c : Cluster) (tablet : Tablet)
    (req : VTExplainRequest) :
  issued (VTExplain_GetSchema c tablet) = [CallGetSchema (ID c) (Alias (Tablet_ tablet))]
  /\ issued (VTExplain_GetSrvVSchema ext c tablet req)
     = [CallGetSrvVSchema (ID c) (Cell (Alias (Tablet_ tablet)))]
  /\ issued (VTExplain_FindAllShards ext c req)
     = [CallFindAllShardsInKeyspace (ID c) (req_Keyspace req)].
Proof.
  unfold VTExplain_GetSchema, VTExplain_GetSrvVSchema, VTExplain_FindAllShards.
  repeat split.
  - destruct (Vtctld_GetSchema c _) as [res|]; [|done].
    by destruct (read_Schema_TableDefinitions res).
  - destruct (Vtctld_GetSrvVSchema c _) as [res|]; [|done].
    destruct (SrvVSchema_Keyspaces res !! req_Keyspace req) as [ksvs|]; [|done].
    by destruct (json_Marshal_vschema ext ksvs).
  - destruct (Vtctld_FindAllShardsInKeyspace c _) as [shards|]; [|done].
    by destruct (json_Marshal_shards ext _).
Qed.

Lemma VTExplain_died (ext : Externals) (s : Schedule) (c : Cluster) (tablet : Tablet)
    (req : VTExplainRequest) :
  schedules (outer s) 3 ->
  died (wait (outer s) (VTExplain_goroutines ext c tablet req))
  = crashed (VTExplain_GetSchema c tablet).
Proof.
  intros Hsched. rewrite wait_died by done. simpl.
  rewrite VTExplain_GetSrvVSchema_alive, VTExplain_FindAllShards_alive.
  by destruct (crashed _).
Qed.

(** The barrier decision of VTExplain: a nil schema in the GetSchema answer
    takes the process down; otherwise an error recorded by any of the three
    goroutines fails the call with the combined error. *)
Lemma VTExplain_all_or_nothing (ext : Externals) (api : API) (s : Schedule)
    (req : VTExplainRequest) (c : Cluster) (tablet : Tablet)
    (b : Branch string) (e : error) :
  reaches_fan_out ext api req c tablet ->
  schedules (outer s) 3 ->
  b ∈ VTExplain_goroutines ext c tablet req ->
  e ∈ recorded b ->
  if crashed (VTExplain_GetSchema c tablet)
  then fst (VTExplain ext api s req) = Panics
  else fails_with (fst (VTExplain ext api s req)) e.
Proof.
  intros Hreach Hsched Hb He.
  rewrite (VTExplain_past_prelude ext api s req c tablet Hreach). cbn -[wait].
  rewrite VTExplain_died by done.
  destruct (crashed (VTExplain_GetSchema c tablet)); [done|].
  assert (Hin : e ∈ er (wait (outer s) (VTExplain_goroutines ext c tablet req)))
    by (by apply (wait_recorded _ _ b)).
  rewrite (HasErrors_elem _ _ Hin). cbn -[wait]. by eexists.
Qed.

(** The explain engine is initialised only after a barrier without panic
    and without error, with the three slots as arguments. *)
Lemma VTExplain_init_handed (ext : Externals) (api : API) (s : Schedule)
    (req : VTExplainRequest) (c : Cluster) (tablet : Tablet) (v sc sh : string) :
  reaches_fan_out ext api req c tablet ->
  CallExplainInit v sc sh ∈ snd (VTExplain ext api s req) ->
  er (wait (outer s) (VTExplain_goroutines ext c tablet req)) = []
  /\ v = slot_of (VTExplain_GetSrvVSchema ext c tablet req)
  /\ sc = slot_of (VTExplain_GetSchema c tablet)
  /\ sh = slot_of (VTExplain_FindAllShards ext c req).
Proof.
  intros Hreach. rewrite (VTExplain_past_prelude ext api s req c tablet Hreach).
  cbn -[wait].
  assert (Hlog : CallExplainInit v sc sh
                 ∉ CallFindTablet (ID c) :: CallDial (ID c)
                     :: log (wait (outer s) (VTExplain_goroutines ext c tablet req))).
  { rewrite !not_elem_of_cons. repeat split; try done.
    intros (b & Hb & Hev)%wait_log_elem.
    unfold VTExplain_goroutines in Hb.
    rewrite !elem_of_cons, elem_of_nil in Hb.
    destruct (VTExplain_issued ext c tablet req) as (H1 & H2 & H3).
    destruct Hb as [->|[->|[->|[]]]];
      rewrite ?H1, ?H2, ?H3 in Hev; apply list_elem_of_singleton in Hev; done. }
  destruct (died _); [done|].
  destruct (er _) as [|e0 errs] eqn:Her; cbn -[wait]; [|done].
  destruct (vtexplain_Init _ _ _ _); [|destruct (vtexplain_Run _ _)]; cbn -[wait];
    rewrite ?app_comm_cons, elem_of_app; (intros [Hbad|Hlast]; [done|]);
    rewrite ?elem_of_cons, elem_of_nil in Hlast;
    destruct Hlast as [[= -> -> ->]|Hrest]; try done;
    destruct Hrest as [[=]|[]].
Qed.

(** The serving-vschema goroutine within the call. Once VTExplain has
    started its goroutines and GetSrvVSchema has answered: if the answer
    has no entry for the requested keyspace, the goroutine records the
    missing-vschema error naming the keyspace, the engine is never
    initialised, and the call either fails with the combined error having
    that error among its causes or, when the GetSchema goroutine reads a
    nil schema, panics; if the answer has an entry, the goroutine's slot is
    built from the marshalled entry, and whenever the engine is initialised
    its vschema argument is that text. *)
Theorem VTExplain_serving_vschema_fragment (ext : Externals) (api : API) (s : Schedule)
    (req : VTExplainRequest) (c : Cluster) (tablet : Tablet) (res : GetSrvVSchemaResponse)
    (Hreach : reaches_fan_out ext api req c tablet)
    (Hsched : schedules (outer s) 3)
    (Hsrv : Vtctld_GetSrvVSchema c (Cell (Alias (Tablet_ tablet))) = Ok res) :
  match SrvVSchema_Keyspaces res !! req_Keyspace req with
  | None =>
      let missing := EWrap ErrNoSrvVSchema ("keyspace " +:+ req_Keyspace req) in
      recorded (VTExplain_GetSrvVSchema ext c tablet req) = [missing]
      /\ appended (VTExplain_GetSrvVSchema ext c tablet req) = []
      /\ errors_Is missing ErrNoSrvVSchema = true
      /\ (if crashed (VTExplain_GetSchema c tablet)
          then fst (VTExplain ext api s req) = Panics
          else fails_with (fst (VTExplain ext api s req)) missing)
      /\ (forall v sc sh, CallExplainInit v sc sh ∉ snd (VTExplain ext api s req))
  | Some ksvs =>
      (forall js, json_Marshal_vschema ext ksvs = Ok js ->
                  slot_of (VTExplain_GetSrvVSchema ext c tablet req)
                  = fmt_keyed (req_Keyspace req) js)
      /\ (forall v sc sh,
            CallExplainInit v sc sh ∈ snd (VTExplain ext api s req) ->
            exists js, json_Marshal_vschema ext ksvs = Ok js
                       /\ v = fmt_keyed (req_Keyspace req) js)
  end.
Proof.
  assert (Hmember : VTExplain_GetSrvVSchema ext c tablet req
                    ∈ VTExplain_goroutines ext c tablet req)
    by (unfold VTExplain_goroutines; rewrite !elem_of_cons; auto).
  destruct (SrvVSchema_Keyspaces res !! req_Keyspace req) as [ksvs|] eqn:Hkey.
  - split.
    + intros js Hjs. unfold VTExplain_GetSrvVSchema. by rewrite Hsrv, Hkey, Hjs.
    + intros v sc sh Hinit.
      destruct (VTExplain_init_handed ext api s req c tablet v sc sh Hreach Hinit)
        as (Her & -> & _).
      unfold VTExplain_GetSrvVSchema in *. rewrite Hsrv, Hkey in *.
      destruct (json_Marshal_vschema ext ksvs) as [js|err]; [by exists js|].
      exfalso. eapply (elem_of_nil err). rewrite <- Her.
      eapply wait_recorded; [done|exact Hmember|]. simpl. by apply list_elem_of_singleton.
  - assert (Hrec : recorded (VTExplain_GetSrvVSchema ext c tablet req)
                   = [EWrap ErrNoSrvVSchema ("keyspace " +:+ req_Keyspace req)])
      by (unfold VTExplain_GetSrvVSchema; by rewrite Hsrv, Hkey).
    assert (Hin : EWrap ErrNoSrvVSchema ("keyspace " +:+ req_Keyspace req)
                  ∈ recorded (VTExplain_GetSrvVSchema ext c tablet req))
      by (rewrite Hrec; by apply list_elem_of_singleton).
    cbn zeta. repeat split.
    + exact Hrec.
    + unfold VTExplain_GetSrvVSchema. by rewrite Hsrv, Hkey.
    + by apply (VTExplain_all_or_nothing ext api s req c tablet _ _ Hreach Hsched Hmember).
    + intros v sc sh Hinit.
      destruct (VTExplain_init_handed ext api s req c tablet v sc sh Hreach Hinit)
        as (Her & _).
      eapply (elem_of_nil (EWrap ErrNoSrvVSchema ("keyspace " +:+ req_Keyspace req))).
      rewrite <- Her. by eapply wait_recorded.
Qed.

Lemma demo_sched_runs (range : list string) (n : nat) :
  schedules (outer (demo_sched range n)) n.
Proof. apply Permutation_refl. Qed.

Lemma VTExplain_serving_vschema_fragment_witness :
  fails_with (fst (VTExplain demo_ext demo_api (demo_sched [] 3)
                     {| req_Cluster := "a"; req_Keyspace := "sales"; req_Sql := "select 1" |}))
    (EWrap ErrNoSrvVSchema "keyspace sales")
  /\ (forall v sc sh,
        CallExplainInit v sc sh
        ∈ snd (VTExplain demo_ext demo_api (demo_sched [] 3) (demo_explain "a")) ->
        exists js, Ok (A := string) "{}" = Ok js /\ v = fmt_keyed "commerce" js).
Proof.
  split.
  - assert (Hreach : reaches_fan_out demo_ext demo_api
                       {| req_Cluster := "a"; req_Keyspace := "sales"; req_Sql := "select 1" |}
                       demo_A demo_t100)
      by (repeat split; discriminate || reflexivity).
    pose proof (VTExplain_serving_vschema_fragment demo_ext demo_api (demo_sched [] 3)
                  {| req_Cluster := "a"; req_Keyspace := "sales"; req_Sql := "select 1" |}
                  demo_A demo_t100
                  {| SrvVSchema_Keyspaces := {[ "commerce" := {| vschema_body := "{}" |} ]} |}
                  Hreach (demo_sched_runs [] 3) eq_refl)
      as H.
    cbn in H. apply H.
  - assert (Hreach : reaches_fan_out demo_ext demo_api (demo_explain "a") demo_A demo_t100)
      by (repeat split; discriminate || reflexivity).
    pose proof (VTExplain_serving_vschema_fragment demo_ext demo_api (demo_sched [] 3)
                  (demo_explain "a") demo_A demo_t100
                  {| SrvVSchema_Keyspaces := {[ "commerce" := {| vschema_body := "{}" |} ]} |}
                  Hreach (demo_sched_runs [] 3) eq_refl)
      as H.
    cbn in H. apply H.
Defined.

(** C1 breaks on VTExplain. On a cluster whose serving vschema lacks the
    keyspace and whose GetSchema answers without a schema, the
    serving-vschema goroutine records its error, the GetSchema goroutine
    reads [res.Schema.TableDefinitions] through the nil schema, and the
    call panics instead of returning nil with the combined error. On the
    very same GetSchema answer getSchemasForKeyspace, which tests for nil,
    returns (nil, nil). *)
Theorem VTExplain_panics_on_nil_schema :
  reaches_fan_out demo_ext demo_api (demo_explain "n") demo_N demo_t100
  /\ Vtctld_GetSchema demo_N (Alias (Tablet_ demo_t100)) = Ok (Some {| Schema := None |})
  /\ recorded (VTExplain_GetSrvVSchema demo_ext demo_N demo_t100 (demo_explain "n"))
     = [EWrap ErrNoSrvVSchema "keyspace commerce"]
  /\ fst (VTExplain demo_ext demo_api (demo_sched [] 3) (demo_explain "n")) = Panics
  /\ ~ fails_with (fst (VTExplain demo_ext demo_api (demo_sched [] 3) (demo_explain "n")))
         (EWrap ErrNoSrvVSchema "keyspace commerce")
  /\ fst (getSchemasForKeyspace demo_N {| ks_Name := "commerce"; ks_Keyspace := "{}" |}
            [demo_t100])
     = Returns (None, None).
Proof.
  assert (Hpanics : fst (VTExplain demo_ext demo_api (demo_sched [] 3) (demo_explain "n"))
                    = Panics) by (vm_compute; reflexivity).
  split; [|split; [|split; [|split; [|split]]]].
  - repeat split; discriminate || reflexivity.
  - reflexivity.
  - reflexivity.
  - exact Hpanics.
  - rewrite Hpanics. intros (errs & Hfalse & _). discriminate.
  - reflexivity.
Qed.

(** C8 breaks on VTExplain, by the defect of C1. The serialisation is the
    one the claim gives: on the healthy cluster the engine is handed, as
    vschema, the keyspace name in double quotes (character 34), a colon, a
    space and the marshalled entry, all in braces. But on a cluster whose
    serving-vschema answer lacks the requested keyspace and whose GetSchema
    answers without a schema, the serving-vschema goroutine records the
    missing-vschema error naming the keyspace and the call, instead of
    failing with it, panics in the GetSchema goroutine: no error is
    returned. *)
Theorem VTExplain_missing_vschema_lost_to_panic :
  Vtctld_GetSrvVSchema demo_N (Cell (Alias (Tablet_ demo_t100)))
  = Ok {| SrvVSchema_Keyspaces := ∅ |}
  /\ VTExplain_GetSrvVSchema demo_ext demo_N demo_t100 (demo_explain "n")
     = {| appended := [];
          recorded := [EWrap ErrNoSrvVSchema "keyspace commerce"];
          issued := [CallGetSrvVSchema "n" "zone1"];
          crashed := false |}
  /\ VTExplain demo_ext demo_api (demo_sched [] 3) (demo_explain "n")
     = (Panics,
        [CallFindTablet "n"; CallDial "n";
         CallGetSchema "n" {| Cell := "zone1"; Uid := 100 |};
         CallGetSrvVSchema "n" "zone1";
         CallFindAllShardsInKeyspace "n" "commerce"])
  /\ (forall e, ~ fails_with (fst (VTExplain demo_ext demo_api (demo_sched [] 3)
                                    (demo_explain "n"))) e)
  /\ VTExplain demo_ext demo_api (demo_sched [] 3) (demo_explain "a")
     = (Returns (Some {| Response := "select 1" |}, None),
        [CallFindTablet "a"; CallDial "a";
         CallGetSchema "a" {| Cell := "zone1"; Uid := 100 |};
         CallGetSrvVSchema "a" "zone1";
         CallFindAllShardsInKeyspace "a" "commerce";
         CallExplainInit
           ("{" +:+ String (Ascii.ascii_of_nat 34)
                      ("commerce" +:+ String (Ascii.ascii_of_nat 34) ": {}}"))
           "create table customer(id bigint);create table orders(id bigint)"
           ("{" +:+ String (Ascii.ascii_of_nat 34)
                      ("commerce" +:+ String (Ascii.ascii_of_nat 34) ": {}}"));
         CallExplainRun "select 1"]).
Proof.
  assert (Hpanics : VTExplain demo_ext demo_api (demo_sched [] 3) (demo_explain "n")
                    = (Panics,
                       [CallFindTablet "n"; CallDial "n";
                        CallGetSchema "n" {| Cell := "zone1"; Uid := 100 |};
                        CallGetSrvVSchema "n" "zone1";
                        CallFindAllShardsInKeyspace "n" "commerce"]))
    by (vm_compute; reflexivity).
  split; [reflexivity|]. split; [reflexivity|]. split; [exact Hpanics|].
  split.
  - intros e. rewrite Hpanics. intros (errs & Hfalse & _). discriminate.
  - vm_compute. reflexivity.
Qed.

(** * Further properties of api.go *)

(** ** The registry built by NewAPI *)

Lemma cluster_index_from (cs : list Cluster) (m0 : gmap string Cluster) (id : string) :
  fold_left (fun m c => <[ID c := c]> m) cs m0 !! id
  = match last (filter (fun c => ID c = id) cs) with
    | Some c => Some c
    | None => m0 !! id
    end.
Proof.
  revert m0; induction cs as [|c cs IH]; intros m0; simpl; [done|].
  rewrite IH, filter_cons. destruct (decide (ID c = id)) as [Hc|Hc].
  - rewrite last_cons. destruct (last _); [done|]. rewrite <- Hc. apply lookup_insert_eq.
  - destruct (last _); [done|]. by apply lookup_insert_ne.
Qed.

Lemma NewAPI_lookup
    (ClustersBy : (Cluster -> Cluster -> bool) -> list Cluster -> list Cluster)
    (cs : list Cluster) (id : string) :
  clusterMap (NewAPI ClustersBy cs) !! id = last (filter (fun c => ID c = id) cs).
Proof.
  unfold NewAPI; simpl. rewrite cluster_index_from, lookup_empty. by destruct (last _).
Qed.

Lemma last_filter_Some {A : Type} (P : A -> Prop) `{!forall x, Decision (P x)}
    (l : list A) (x : A) :
  last (filter P l) = Some x -> P x /\ x ∈ l.
Proof.
  intros Hlast. apply last_Some in Hlast as (l' & Hl').
  assert (Hin : x ∈ filter P l) by (rewrite Hl'; set_solver).
  by apply list_elem_of_filter in Hin.
Qed.

Lemma last_filter_None {A : Type} (P : A -> Prop) `{!forall x, Decision (P x)}
    (l : list A) (x : A) :
  last (filter P l) = None -> x ∈ l -> ~ P x.
Proof.
  intros Hlast Hin HP. apply last_None in Hlast.
  assert (Hx : x ∈ filter P l) by (by apply list_elem_of_filter).
  rewrite Hlast in Hx. by apply elem_of_nil in Hx.
Qed.

Lemma NewAPI_lookup_known
    (ClustersBy : (Cluster -> Cluster -> bool) -> list Cluster -> list Cluster)
    (cs : list Cluster) (id : string) :
  is_Some (clusterMap (NewAPI ClustersBy cs) !! id) <-> id ∈ map ID cs.
Proof.
  rewrite NewAPI_lookup. split.
  - intros [c Hc]. apply (last_filter_Some (fun c' => ID c' = id)) in Hc as [<- Hin].
    by apply list_elem_of_In, in_map, list_elem_of_In.
  - intros (c & <- & Hin)%list_elem_of_In%in_map_iff.
    destruct (last (filter (fun c' => ID c' = ID c) cs)) as [c'|] eqn:Hlast; [by eexists|].
    exfalso.
    eapply (last_filter_None (fun c' => ID c' = ID c) _ c Hlast); [by apply list_elem_of_In|done].
Qed.

(** X1. The index NewAPI builds maps an identifier to the last configured
    cluster carrying it: a cluster found under an identifier has that ID
    and is configured, every configured cluster's ID is a key, and when
    the IDs are pairwise distinct every configured cluster is found under
    its own ID. *)
Theorem NewAPI_index
    (ClustersBy : (Cluster -> Cluster -> bool) -> list Cluster -> list Cluster)
    (cs : list Cluster) :
  (forall id, clusterMap (NewAPI ClustersBy cs) !! id
              = last (filter (fun c => ID c = id) cs))
  /\ (forall id c, clusterMap (NewAPI ClustersBy cs) !! id = Some c -> ID c = id /\ c ∈ cs)
  /\ (forall c, c ∈ cs -> is_Some (clusterMap (NewAPI ClustersBy cs) !! ID c))
  /\ (NoDup (map ID cs) ->
      forall c, c ∈ cs -> clusterMap (NewAPI ClustersBy cs) !! ID c = Some c).
Proof.
  split; [|split; [|split]].
  - apply NewAPI_lookup.
  - intros id c. rewrite NewAPI_lookup.
    apply (last_filter_Some (fun c' => ID c' = id)).
  - intros c Hc. apply NewAPI_lookup_known.
    by apply list_elem_of_In, in_map, list_elem_of_In.
  - intros Hnodup c Hc.
    destruct (clusterMap (NewAPI ClustersBy cs) !! ID c) as [c'|] eqn:Hlookup.
    + rewrite NewAPI_lookup in Hlookup.
      apply (last_filter_Some (fun c0 => ID c0 = ID c)) in Hlookup as [Hid Hc'].
      f_equal. revert Hnodup Hc Hc' Hid. clear. induction cs as [|c0 cs IH]; simpl.
      * by intros _ ?%elem_of_nil.
      * intros [Hfresh Hnodup]%NoDup_cons. rewrite !elem_of_cons.
        intros [->|Hc] [->|Hc'] Hid; try done.
        -- exfalso. apply Hfresh. rewrite <- Hid.
           by apply list_elem_of_In, in_map, list_elem_of_In.
        -- exfalso. apply Hfresh. rewrite Hid.
           by apply list_elem_of_In, in_map, list_elem_of_In.
        -- by apply IH.
    + exfalso. assert (Hsome : is_Some (clusterMap (NewAPI ClustersBy cs) !! ID c)).
      { apply NewAPI_lookup_known. by apply list_elem_of_In, in_map, list_elem_of_In. }
      rewrite Hlookup in Hsome. by destruct Hsome.
Qed.

Lemma NewAPI_index_witness :
  clusterMap (NewAPI demo_ClustersBy [demo_N; demo_B; demo_A]) !! "b" = Some demo_B.
Proof.
  destruct (NewAPI_index demo_ClustersBy [demo_N; demo_B; demo_A]) as (_ & _ & _ & H).
  change "b" with (ID demo_B). apply H.
  - apply (bool_decide_unpack _). vm_compute. exact I.
  - apply list_elem_of_In. simpl. tauto.
Defined.

(** X2. On a registry built by NewAPI, a non-empty filter resolves to
    configured clusters whose IDs are the filter with the unconfigured
    identifiers removed, in the same order and with the same repetitions;
    the effective identifiers are the filter unchanged. *)
Theorem NewAPI_filter_resolution
    (ClustersBy : (Cluster -> Cluster -> bool) -> list Cluster -> list Cluster)
    (cs : list Cluster) (s : Schedule) (ids : list string)
    (Hnamed : ids <> []) :
  map ID (fst (getClustersForRequest (NewAPI ClustersBy cs) s ids))
  = filter (fun id => id ∈ map ID cs) ids
  /\ Forall (fun c => c ∈ cs) (fst (getClustersForRequest (NewAPI ClustersBy cs) s ids))
  /\ snd (getClustersForRequest (NewAPI ClustersBy cs) s ids) = ids.
Proof.
  rewrite (getClustersForRequest_some _ s ids Hnamed). cbn [fst snd]. clear Hnamed.
  split; [|split; [|done]].
  - induction ids as [|id ids IH]; [done|]. cbn [omap list_omap].
    rewrite filter_cons.
    destruct (clusterMap (NewAPI ClustersBy cs) !! id) as [c|] eqn:Hlookup.
    + rewrite decide_True
        by (apply (proj1 (NewAPI_lookup_known ClustersBy cs id)); by rewrite Hlookup).
      cbn [map]. rewrite IH. f_equal.
      rewrite NewAPI_lookup in Hlookup.
      by apply (last_filter_Some (fun c' => ID c' = id)) in Hlookup as [? _].
    + rewrite decide_False; [done|].
      intros Hknown. apply (proj2 (NewAPI_lookup_known ClustersBy cs id)) in Hknown.
      rewrite Hlookup in Hknown. by destruct Hknown.
  - apply Forall_forall. intros c (id & _ & Hlookup)%list_elem_of_omap.
    rewrite NewAPI_lookup in Hlookup.
    by apply (last_filter_Some (fun c' => ID c' = id)) in Hlookup as [_ ?].
Qed.

Lemma NewAPI_filter_resolution_witness :
  map ID (fst (getClustersForRequest (NewAPI demo_ClustersBy [demo_N; demo_B; demo_A])
                 (demo_sched [] 3) ["a"; "zz"; "n"; "a"]))
  = ["a"; "n"; "a"].
Proof.
  destruct (NewAPI_filter_resolution demo_ClustersBy [demo_N; demo_B; demo_A]
              (demo_sched [] 3) ["a"; "zz"; "n"; "a"]) as (H & _).
  - discriminate.
  - rewrite H. vm_compute. reflexivity.
Defined.

Lemma StronglySorted_map {A B : Type} (R : A -> A -> Prop) (R' : B -> B -> Prop)
    (f : A -> B) (l : list A) :
  (forall x y, R x y -> R' (f x) (f y)) ->
  StronglySorted R l -> StronglySorted R' (map f l).
Proof.
  intros Hf. induction 1 as [|x l _ IH Hx]; simpl; constructor; [done|].
  apply Forall_forall. intros y (z & <- & Hz)%list_elem_of_In%in_map_iff.
  apply Hf. rewrite Forall_forall in Hx. by apply Hx, list_elem_of_In.
Qed.

(** X3. On a registry built by NewAPI, the empty filter selects every
    configured cluster, ordered by ID; the effective identifiers are the
    configured IDs without repetition, in the order the index was ranged
    over, and when the configured IDs are pairwise distinct they are
    exactly the IDs of the selected clusters. *)
Theorem NewAPI_empty_filter
    (ClustersBy : (Cluster -> Cluster -> bool) -> list Cluster -> list Cluster)
    (cs : list Cluster) (s : Schedule)
    (Hsorted :
       sorted_by (fun c1 c2 => String.ltb (ID c1) (ID c2)) cs
         (ClustersBy (fun c1 c2 => String.ltb (ID c1) (ID c2)) cs))
    (Hrange : ranges_over s (NewAPI ClustersBy cs)) :
  let working := fst (getClustersForRequest (NewAPI ClustersBy cs) s []) in
  let effective := snd (getClustersForRequest (NewAPI ClustersBy cs) s []) in
  working ≡ₚ cs
  /\ StronglySorted (fun c1 c2 => String.ltb (ID c2) (ID c1) = false) working
  /\ NoDup effective
  /\ (forall id, id ∈ effective <-> id ∈ map ID cs)
  /\ (NoDup (map ID cs) -> effective ≡ₚ map ID working).
Proof.
  intros working effective. subst working effective.
  rewrite getClustersForRequest_all. simpl. destruct Hsorted as [Hperm Hsorted].
  assert (Hnodup : NoDup (mapRange s)).
  { unfold ranges_over in Hrange. rewrite Hrange. apply NoDup_fst_map_to_list. }
  assert (Hkeys : forall id, id ∈ mapRange s <-> id ∈ map ID cs).
  { intros id. rewrite <- NewAPI_lookup_known. unfold ranges_over in Hrange.
    rewrite Hrange, list_elem_of_fmap. split.
    - intros ([k c] & -> & Hin). apply elem_of_map_to_list in Hin. by exists c.
    - intros [c Hc]. exists (id, c). split; [done|]. by apply elem_of_map_to_list. }
  repeat split; try done.
  - by apply Hkeys.
  - by apply Hkeys.
  - intros Hdistinct. apply NoDup_Permutation; [done| |].
    + rewrite Hperm. done.
    + intros id. rewrite Hkeys. by rewrite Hperm.
Qed.

Lemma demo_ClustersBy_sorted :
  sorted_by (fun c1 c2 => String.ltb (ID c1) (ID c2)) [demo_N; demo_B; demo_A]
    (demo_ClustersBy (fun c1 c2 => String.ltb (ID c1) (ID c2)) [demo_N; demo_B; demo_A]).
Proof.
  split.
  - change (demo_ClustersBy _ _) with [demo_A; demo_B; demo_N].
    exact (Permutation_rev [demo_A; demo_B; demo_N]).
  - change (demo_ClustersBy _ _) with [demo_A; demo_B; demo_N].
    repeat constructor.
Qed.

Lemma demo_ranges_built :
  ranges_over (demo_sched ["n"; "a"; "b"] 3)
    (NewAPI demo_ClustersBy [demo_N; demo_B; demo_A]).
Proof.
  unfold ranges_over. vm_compute.
  transitivity ["a"; "n"; "b"]; [apply perm_swap|reflexivity].
Qed.

Lemma NewAPI_empty_filter_witness :
  snd (getClustersForRequest (NewAPI demo_ClustersBy [demo_N; demo_B; demo_A])
         (demo_sched ["n"; "a"; "b"] 3) [])
  ≡ₚ map ID (fst (getClustersForRequest (NewAPI demo_ClustersBy [demo_N; demo_B; demo_A])
                    (demo_sched ["n"; "a"; "b"] 3) [])).
Proof.
  destruct (NewAPI_empty_filter demo_ClustersBy [demo_N; demo_B; demo_A]
              (demo_sched ["n"; "a"; "b"] 3) demo_ClustersBy_sorted demo_ranges_built)
    as (_ & _ & _ & _ & H).
  apply H. apply (bool_decide_unpack _). vm_compute. exact I.
Defined.

Lemma GetClusters_map (api : API) :
  GetClusters api
  = (Returns (Some {| Clusters := map ToProto (clusters api) |}, None), []).
Proof.
  unfold GetClusters. do 5 f_equal.
  assert (H : forall cs vcs0,
             fold_left (fun vcs c => vcs ++ [{| Id := ID c; cpb_Name := Name c |}]) cs vcs0
             = vcs0 ++ map ToProto cs).
  { induction cs as [|c cs IH]; intros vcs0; simpl; [by rewrite app_nil_r|].
    rewrite IH. by rewrite <- app_assoc. }
  apply (H (clusters api) []).
Qed.

(** X4. GetClusters on a registry built by NewAPI issues no call and
    returns, without error, one entry (Id, Name) per configured cluster,
    the entries ordered by Id. *)
Theorem GetClusters_lists_the_registry
    (ClustersBy : (Cluster -> Cluster -> bool) -> list Cluster -> list Cluster)
    (cs : list Cluster)
    (Hsorted :
       sorted_by (fun c1 c2 => String.ltb (ID c1) (ID c2)) cs
         (ClustersBy (fun c1 c2 => String.ltb (ID c1) (ID c2)) cs)) :
  exists resp,
    GetClusters (NewAPI ClustersBy cs) = (Returns (Some resp, None), [])
    /\ Clusters resp ≡ₚ map ToProto cs
    /\ StronglySorted (fun a b => String.ltb (Id b) (Id a) = false) (Clusters resp).
Proof.
  destruct Hsorted as [Hperm Hsorted]. eexists. split; [apply GetClusters_map|].
  simpl. split.
  - by apply Permutation_map.
  - eapply StronglySorted_map; [|exact Hsorted]. done.
Qed.

Lemma GetClusters_lists_the_registry_witness :
  exists resp,
    GetClusters (NewAPI demo_ClustersBy [demo_N; demo_B; demo_A])
    = (Returns (Some resp, None), [])
    /\ Clusters resp ≡ₚ map ToProto [demo_N; demo_B; demo_A]
    /\ StronglySorted (fun a b => String.ltb (Id b) (Id a) = false) (Clusters resp).
Proof.
  apply (GetClusters_lists_the_registry demo_ClustersBy [demo_N; demo_B; demo_A]).
  exact demo_ClustersBy_sorted.
Defined.

(** ** What the listings contain *)

Lemma wait_appended {R : Type} (order : list nat) (bs : list (Branch R)) (b : Branch R)
    (x : R) :
  schedules order (length bs) -> b ∈ bs -> x ∈ appended b -> x ∈ acc (wait order bs).
Proof.
  intros H Hb Hx. rewrite (wait_acc order bs H).
  apply list_elem_of_In, in_concat. exists (appended b); split.
  - apply in_map, list_elem_of_In, Hb.
  - by apply list_elem_of_In.
Qed.

Lemma wait_quiet {R : Type} (order : list nat) (bs : list (Branch R)) :
  schedules order (length bs) ->
  Forall (fun b => recorded b = []) bs ->
  er (wait order bs) = [].
Proof.
  intros H Hall. apply Permutation_nil_r. rewrite (wait_er order bs H). clear H.
  induction Hall as [|b bs Hb _ IH]; simpl; [done|]. by rewrite Hb, IH.
Qed.

Lemma concat_perm_pointwise {A : Type} (ls ls' : list (list A)) :
  Forall2 Permutation ls ls' -> concat ls ≡ₚ concat ls'.
Proof.
  induction 1 as [|l l' ls ls' Hl _ IH]; simpl; [done|]. by apply Permutation_app.
Qed.

Lemma imap_Forall2 {A B : Type} (f : nat -> A -> B) (R : B -> A -> Prop) (l : list A) :
  (forall i x, l !! i = Some x -> R (f i x) x) -> Forall2 R (imap f l) l.
Proof.
  revert f; induction l as [|x l IH]; intros f Hf; [constructor|].
  rewrite imap_cons. constructor.
  - by apply (Hf 0).
  - apply IH. intros i y Hy. by apply (Hf (S i)).
Qed.

Lemma imap_Forall {A B : Type} (f : nat -> A -> B) (P : B -> Prop) (l : list A) :
  (forall i x, l !! i = Some x -> P (f i x)) -> Forall P (imap f l).
Proof.
  intros Hf. apply Forall_forall. intros b (i & Hi)%list_elem_of_lookup.
  rewrite list_lookup_imap in Hi. destruct (l !! i) as [x|] eqn:Hx; [|done].
  injection Hi as <-. by apply Hf.
Qed.

Lemma map_Forall {A B : Type} (f : A -> B) (P : B -> Prop) (l : list A) :
  Forall (fun x => P (f x)) l -> Forall P (map f l).
Proof. induction 1; simpl; by constructor. Qed.

(** X5. When every goroutine is run and every selected cluster's discovery
    succeeds, GetGates returns, without error, exactly the discovered gates
    of the selected clusters (a cluster counted once per occurrence in the
    working set), each with its cell, hostname, keyspaces and pool and with
    the id and name of the cluster that discovered it, in some order. *)
Theorem GetGates_success (api : API) (s : Schedule) (ids : list string)
    (Hsched : schedules (outer s) (length (fst (getClustersForRequest api s ids))))
    (Hall : Forall (fun c => exists gs, Discovery_DiscoverVTGates c = Ok gs)
              (fst (getClustersForRequest api s ids))) :
  exists gates,
    fst (GetGates api s ids) = Returns (Some {| Gates := gates |}, None)
    /\ gates ≡ₚ concat (map gates_of (fst (getClustersForRequest api s ids))).
Proof.
  revert Hsched Hall. unfold GetGates.
  destruct (getClustersForRequest api s ids) as [cs effective]. cbn -[wait].
  intros Hsched Hall.
  assert (Hrun : schedules (outer s) (length (map GetGates_goroutine cs)))
    by (by rewrite length_map).
  rewrite (wait_alive _ _ (GetGates_goroutine_alive cs)), wait_quiet; [|done|].
  - cbn -[wait]. eexists; split; [done|]. rewrite (wait_acc _ _ Hrun), map_map.
    rewrite (map_ext _ gates_of); [done|].
    intros c. unfold GetGates_goroutine, gates_of.
    by destruct (Discovery_DiscoverVTGates c).
  - apply map_Forall. eapply Forall_impl; [exact Hall|].
    intros c [gs Hgs]. unfold GetGates_goroutine. by rewrite Hgs.
Qed.

Lemma GetGates_success_witness :
  exists gates,
    fst (GetGates demo_api (demo_sched [] 2) ["a"; "n"])
    = Returns (Some {| Gates := gates |}, None)
    /\ gates ≡ₚ concat (map gates_of
                          (fst (getClustersForRequest demo_api (demo_sched [] 2) ["a"; "n"]))).
Proof.
  apply (GetGates_success demo_api (demo_sched [] 2) ["a"; "n"]).
  - apply Permutation_refl.
  - vm_compute. repeat constructor; eexists; reflexivity.
Defined.

(** X6. When every goroutine is run and every selected cluster lists its
    tablets, GetTablets returns, without error, exactly the tablets of the
    selected clusters (a cluster counted once per occurrence), in some
    order. *)
Theorem GetTablets_success (api : API) (s : Schedule) (ids : list string)
    (Hsched : schedules (outer s) (length (fst (getClustersForRequest api s ids))))
    (Hall : Forall (fun c => exists ts, Cluster_GetTablets c = Ok ts)
              (fst (getClustersForRequest api s ids))) :
  exists tablets,
    fst (GetTablets api s ids) = Returns (Some {| Tablets := tablets |}, None)
    /\ tablets ≡ₚ concat (map tablets_of (fst (getClustersForRequest api s ids))).
Proof.
  revert Hsched Hall. unfold GetTablets.
  destruct (getClustersForRequest api s ids) as [cs effective]. cbn -[wait].
  intros Hsched Hall.
  assert (Hrun : schedules (outer s) (length (map GetTablets_goroutine cs)))
    by (by rewrite length_map).
  rewrite (wait_alive _ _ (GetTablets_goroutine_alive cs)), wait_quiet; [|done|].
  - cbn -[wait]. eexists; split; [done|]. rewrite (wait_acc _ _ Hrun), map_map.
    rewrite (map_ext _ tablets_of); [done|].
    intros c. unfold GetTablets_goroutine, tablets_of.
    by destruct (Cluster_GetTablets c).
  - apply map_Forall. eapply Forall_impl; [exact Hall|].
    intros c [ts Hts]. unfold GetTablets_goroutine. by rewrite Hts.
Qed.

Lemma GetTablets_success_witness :
  exists tablets,
    fst (GetTablets demo_api (demo_sched [] 2) ["n"; "a"])
    = Returns (Some {| Tablets := tablets |}, None)
    /\ tablets ≡ₚ concat (map tablets_of
                            (fst (getClustersForRequest demo_api (demo_sched [] 2) ["n"; "a"]))).
Proof.
  apply (GetTablets_success demo_api (demo_sched [] 2) ["n"; "a"]).
  - apply Permutation_refl.
  - vm_compute. repeat constructor; eexists; reflexivity.
Defined.

Lemma GetKeyspaces_shards_goroutines (c : Cluster) (kss : list KeyspacePb) :
  Forall (fun ks => exists shards,
            Vtctld_FindAllShardsInKeyspace c (ks_Name ks) = Ok shards) kss ->
  Forall (fun b => recorded b = []) (map (GetKeyspaces_shards_goroutine c) kss)
  /\ concat (map appended (map (GetKeyspaces_shards_goroutine c) kss))
     = omap (fun ks =>
               match Vtctld_FindAllShardsInKeyspace c (ks_Name ks) with
               | Ok shards =>
                   Some {| k_Cluster := ToProto c; k_Keyspace := ks; k_Shards := shards |}
               | Err _ => None
               end) kss.
Proof.
  induction 1 as [|ks kss [shards Hks] _ [IHr IHa]]; simpl; [done|].
  unfold GetKeyspaces_shards_goroutine at 1 3. rewrite Hks. simpl.
  split; [by constructor|]. by rewrite IHa.
Qed.

Lemma GetKeyspaces_goroutine_listed (korder : list nat) (c : Cluster) :
  keyspaces_listed c ->
  (forall kss, Vtctld_GetKeyspaces c = Ok kss -> schedules korder (length kss)) ->
  recorded (GetKeyspaces_goroutine korder c) = []
  /\ appended (GetKeyspaces_goroutine korder c) ≡ₚ keyspaces_of c.
Proof.
  intros (Hdial & kss & Hkss & Hall) Hinner. unfold GetKeyspaces_goroutine, keyspaces_of.
  rewrite Hdial, Hkss. cbn -[wait].
  destruct (GetKeyspaces_shards_goroutines c kss Hall) as [Hquiet Happ].
  assert (Hrun : schedules korder (length (map (GetKeyspaces_shards_goroutine c) kss)))
    by (rewrite length_map; by apply Hinner).
  split.
  - by apply wait_quiet.
  - by rewrite (wait_acc _ _ Hrun), Happ.
Qed.

(** X7. When every goroutine of both levels is run and, for every selected
    cluster, the dial, the keyspace listing and every shard lookup succeed,
    GetKeyspaces returns, without error, exactly one view per keyspace of
    each selected cluster, carrying the cluster's id and name, the keyspace
    and its shards, in some order. *)
Theorem GetKeyspaces_success (api : API) (s : Schedule) (ids : list string)
    (Hsched : schedules (outer s) (length (fst (getClustersForRequest api s ids))))
    (Hinner : inner_schedules s (fst (getClustersForRequest api s ids)))
    (Hall : Forall keyspaces_listed (fst (getClustersForRequest api s ids))) :
  exists views,
    fst (GetKeyspaces api s ids) = Returns (Some {| Keyspaces := views |}, None)
    /\ views ≡ₚ concat (map keyspaces_of (fst (getClustersForRequest api s ids))).
Proof.
  revert Hsched Hinner Hall. unfold GetKeyspaces.
  destruct (getClustersForRequest api s ids) as [cs effective]. cbn -[wait].
  intros Hsched Hinner Hall.
  set (bs := imap (fun i c => GetKeyspaces_goroutine (inner s i) c) cs).
  assert (Hrun : schedules (outer s) (length bs)) by (subst bs; by rewrite length_imap).
  assert (Heach : forall i c, cs !! i = Some c ->
                    recorded (GetKeyspaces_goroutine (inner s i) c) = []
                    /\ appended (GetKeyspaces_goroutine (inner s i) c) ≡ₚ keyspaces_of c).
  { intros i c Hc. apply GetKeyspaces_goroutine_listed.
    - rewrite Forall_forall in Hall. by eapply Hall, list_elem_of_lookup_2.
    - intros kss Hkss. by eapply Hinner. }
  rewrite (wait_alive _ _ (GetKeyspaces_goroutine_alive s cs)), wait_quiet; [|done|].
  - cbn -[wait]. eexists; split; [done|]. rewrite (wait_acc _ _ Hrun).
    apply concat_perm_pointwise. subst bs.
    apply Forall2_fmap_r, Forall2_fmap_l.
    apply (imap_Forall2 _ (fun b c => appended b ≡ₚ keyspaces_of c)).
    intros i c Hc. by apply Heach.
  - subst bs. apply imap_Forall. intros i c Hc. by apply Heach.
Qed.

Lemma GetKeyspaces_success_witness :
  exists views,
    fst (GetKeyspaces demo_api (demo_sched [] 2) ["a"; "n"])
    = Returns (Some {| Keyspaces := views |}, None)
    /\ views ≡ₚ concat (map keyspaces_of
                          (fst (getClustersForRequest demo_api (demo_sched [] 2) ["a"; "n"]))).
Proof.
  apply (GetKeyspaces_success demo_api (demo_sched [] 2) ["a"; "n"]).
  - apply Permutation_refl.
  - intros i c kss Hc Hkss.
    destruct i as [|[|i]]; simpl in Hc; [| |discriminate];
      injection Hc as <-; injection Hkss as <-; apply Permutation_refl.
  - vm_compute. repeat constructor; repeat (eexists; try reflexivity); repeat constructor;
      eexists; reflexivity.
Defined.

(** X9. Whatever the schedule, a tablet returned by GetTablet has the
    requested hostname and is listed by one of the selected clusters. *)
Theorem GetTablet_returns_a_match (ext : Externals) (api : API) (s : Schedule)
    (hostname : string) (ids : list string) (t : Tablet)
    (Hfound : fst (GetTablet ext api s hostname ids) = Returns (Some t, None)) :
  Hostname (Tablet_ t) = hostname
  /\ exists c ts,
       c ∈ fst (getClustersForRequest api s ids)
       /\ Cluster_GetTablets c = Ok ts
       /\ t ∈ ts.
Proof.
  revert Hfound. unfold GetTablet.
  destruct (getClustersForRequest api s ids) as [cs effective]. cbn -[wait].
  destruct (died _); [done|]. destruct (HasErrors _); [done|].
  destruct (acc _) as [|t' [|t'' rest]] eqn:Hacc; cbn -[wait]; try done.
  intros [= ->].
  assert (Hin : t ∈ acc (wait (outer s) (map (GetTablet_goroutine hostname) cs)))
    by (rewrite Hacc; by apply list_elem_of_singleton).
  apply wait_acc_elem in Hin as (b & Hb & Ht).
  apply list_elem_of_In, in_map_iff in Hb as (c & <- & Hc).
  unfold GetTablet_goroutine in Ht.
  destruct (Cluster_GetTablets c) as [ts|err] eqn:Hts; simpl in Ht;
    [|by apply elem_of_nil in Ht].
  rewrite found_by_hostname_filter in Ht. apply list_elem_of_filter in Ht as [Hhost Hts'].
  split; [done|]. exists c, ts. split; [by apply list_elem_of_In|done].
Qed.

Lemma GetTablet_returns_a_match_witness :
  Hostname (Tablet_ demo_t100) = "h1"
  /\ exists c ts,
       c ∈ fst (getClustersForRequest demo_api (demo_sched [] 1) ["a"])
       /\ Cluster_GetTablets c = Ok ts
       /\ demo_t100 ∈ ts.
Proof.
  apply (GetTablet_returns_a_match demo_ext demo_api (demo_sched [] 1) "h1" ["a"] demo_t100).
  vm_compute. reflexivity.
Defined.

(** ** How failures of the second level surface *)

Lemma imap_member {A B : Type} (f : nat -> A -> B) (l : list A) (i : nat) (x : A) :
  l !! i = Some x -> f i x ∈ imap f l.
Proof.
  intros Hx. apply list_elem_of_lookup. exists i. by rewrite list_lookup_imap, Hx.
Qed.

(** X10. In GetKeyspaces the per-keyspace goroutines record into the
    request's own error recorder: when the shard lookup of one keyspace of
    a selected cluster fails, GetKeyspaces fails with the combined error
    and the lookup's error is directly one of its causes. *)
Theorem GetKeyspaces_shard_lookup_failure (api : API) (s : Schedule) (ids : list string)
    (i : nat) (c : Cluster) (kss : list KeyspacePb) (ks : KeyspacePb) (e : error)
    (Hsched : schedules (outer s) (length (fst (getClustersForRequest api s ids))))
    (Hinner : schedules (inner s i) (length kss))
    (Hc : fst (getClustersForRequest api s ids) !! i = Some c)
    (Hdial : Vtctld_Dial c = None)
    (Hkss : Vtctld_GetKeyspaces c = Ok kss)
    (Hks : ks ∈ kss)
    (He : Vtctld_FindAllShardsInKeyspace c (ks_Name ks) = Err e) :
  fails_with (fst (GetKeyspaces api s ids)) e.
Proof.
  apply (GetKeyspaces_all_or_nothing api s ids (GetKeyspaces_goroutine (inner s i) c));
    [done|by apply (imap_member (fun i c => GetKeyspaces_goroutine (inner s i) c))|].
  unfold GetKeyspaces_goroutine. rewrite Hdial, Hkss. cbn -[wait].
  apply (wait_recorded _ _ (GetKeyspaces_shards_goroutine c ks)).
  - by rewrite length_map.
  - by apply list_elem_of_In, in_map, list_elem_of_In.
  - unfold GetKeyspaces_shards_goroutine. rewrite He. simpl.
    by apply list_elem_of_singleton.
Qed.

(** A cluster whose keyspace listing works and whose shard lookups fail. *)
Lemma GetKeyspaces_shard_lookup_failure_witness :
  fails_with
    (fst (GetKeyspaces
            {| clusters := [];
               clusterMap :=
                 {[ "s" := {| ID := "s"; Name := "cluster S";
                              Discovery_DiscoverVTGates := Ok [];
                              Vtctld_Dial := None;
                              Vtctld_GetKeyspaces :=
                                Ok [{| ks_Name := "commerce"; ks_Keyspace := "{}" |}];
                              Vtctld_FindAllShardsInKeyspace := fun _ => Err demo_unavailable;
                              Vtctld_GetSchema := fun _ => Err demo_unavailable;
                              Vtctld_GetSrvVSchema := fun _ => Err demo_unavailable;
                              Cluster_GetTablets := Ok [demo_t100];
                              Cluster_FindTablet := fun _ => Ok demo_t100 |} ]} |}
            (demo_sched [] 1) ["s"]))
    demo_unavailable.
Proof.
  eapply (GetKeyspaces_shard_lookup_failure _ (demo_sched [] 1) ["s"] 0 _
            [{| ks_Name := "commerce"; ks_Keyspace := "{}" |}]
            {| ks_Name := "commerce"; ks_Keyspace := "{}" |}).
  - apply Permutation_refl.
  - apply Permutation_refl.
  - vm_compute. reflexivity.
  - reflexivity.
  - reflexivity.
  - by apply list_elem_of_singleton.
  - reflexivity.
Defined.

Lemma getSchemas_keyspace_failure (korder : list nat) (c : Cluster) (tablets : list Tablet)
    (kss : list KeyspacePb) (ks : KeyspacePb) (e : error) :
  schedules korder (length kss) ->
  Vtctld_Dial c = None ->
  Vtctld_GetKeyspaces c = Ok kss ->
  ks ∈ kss ->
  fst (getSchemasForKeyspace c ks tablets) = Returns (None, Some e) ->
  exists causes,
    e ∈ causes /\ fst (getSchemas korder c tablets) = Returns (None, Some (EAggregate causes)).
Proof.
  intros Hinner Hdial Hkss Hks Hfetch. unfold getSchemas. rewrite Hdial, Hkss.
  set (bs := map (getSchemas_goroutine c tablets) kss).
  assert (Halive : Forall (fun b => crashed b = false) bs).
  { apply Forall_forall. intros b (ks' & <- & _)%list_elem_of_In%in_map_iff.
    apply getSchemas_goroutine_spec. }
  assert (Hin : e ∈ er (wait korder bs)).
  { apply (wait_recorded _ _ (getSchemas_goroutine c tablets ks)).
    - subst bs. by rewrite length_map.
    - by apply list_elem_of_In, in_map, list_elem_of_In.
    - unfold getSchemas_goroutine.
      destruct (getSchemasForKeyspace c ks tablets) as [o calls]. simpl in Hfetch.
      subst o. simpl. by apply list_elem_of_singleton. }
  cbn -[wait]. rewrite (wait_alive _ _ Halive), (HasErrors_elem _ _ Hin). cbn -[wait].
  by eexists.
Qed.

(** X11. In GetSchemas the per-keyspace goroutines record into a recorder
    of their own: when the schema fetch from the serving tablet of one
    keyspace of a selected cluster fails, GetSchemas fails with a combined
    error one of whose causes is itself a combined error, and the fetch's
    error is a cause of that inner one. *)
Theorem GetSchemas_keyspace_failure (api : API) (s : Schedule) (ids : list string)
    (i : nat) (c : Cluster) (tablets : list Tablet) (kss : list KeyspacePb)
    (ks : KeyspacePb) (kt : Tablet) (e : error)
    (Hsched : schedules (outer s) (length (fst (getClustersForRequest api s ids))))
    (Hinner : schedules (inner s i) (length kss))
    (Hc : fst (getClustersForRequest api s ids) !! i = Some c)
    (Htablets : Cluster_GetTablets c = Ok tablets)
    (Hdial : Vtctld_Dial c = None)
    (Hkss : Vtctld_GetKeyspaces c = Ok kss)
    (Hks : ks ∈ kss)
    (Hkt : servingTablet (ks_Name ks) tablets = Some kt)
    (He : Vtctld_GetSchema c (Alias (Tablet_ kt)) = Err e) :
  exists causes,
    e ∈ causes /\ fails_with (fst (GetSchemas api s ids)) (EAggregate causes).
Proof.
  assert (Hfetch : fst (getSchemasForKeyspace c ks tablets) = Returns (None, Some e))
    by (unfold getSchemasForKeyspace; by rewrite Hkt, Hdial, He).
  destruct (getSchemas_keyspace_failure (inner s i) c tablets kss ks e
              Hinner Hdial Hkss Hks Hfetch) as (causes & Hcause & Hgot).
  exists causes. split; [done|].
  apply (GetSchemas_all_or_nothing api s ids (GetSchemas_goroutine (inner s i) c));
    [done|by apply (imap_member (fun i c => GetSchemas_goroutine (inner s i) c))|].
  unfold GetSchemas_goroutine. rewrite Htablets.
  destruct (getSchemas (inner s i) c tablets) as [o calls]. simpl in Hgot. subst o.
  simpl. by apply list_elem_of_singleton.
Qed.

Lemma GetSchemas_keyspace_failure_witness :
  exists causes,
    demo_unavailable ∈ causes
    /\ fails_with
         (fst (GetSchemas
                 {| clusters := [];
                    clusterMap :=
                      {[ "s" := {| ID := "s"; Name := "cluster S";
                                   Discovery_DiscoverVTGates := Ok [];
                                   Vtctld_Dial := None;
                                   Vtctld_GetKeyspaces :=
                                     Ok [{| ks_Name := "commerce"; ks_Keyspace := "{}" |}];
                                   Vtctld_FindAllShardsInKeyspace :=
                                     fun _ => Err demo_unavailable;
                                   Vtctld_GetSchema := fun _ => Err demo_unavailable;
                                   Vtctld_GetSrvVSchema := fun _ => Err demo_unavailable;
                                   Cluster_GetTablets := Ok [demo_t100];
                                   Cluster_FindTablet := fun _ => Ok demo_t100 |} ]} |}
                 (demo_sched [] 1) ["s"]))
         (EAggregate causes).
Proof.
  eapply (GetSchemas_keyspace_failure _ (demo_sched [] 1) ["s"] 0 _ [demo_t100]
            [{| ks_Name := "commerce"; ks_Keyspace := "{}" |}]
            {| ks_Name := "commerce"; ks_Keyspace := "{}" |} demo_t100).
  - apply Permutation_refl.
  - apply Permutation_refl.
  - vm_compute. reflexivity.
  - reflexivity.
  - reflexivity.
  - reflexivity.
  - by apply list_elem_of_singleton.
  - reflexivity.
  - reflexivity.
Defined.

Lemma getSchemasForKeyspace_fetched (c : Cluster) (ks : KeyspacePb) (tablets : list Tablet)
    (kt : Tablet) (sd : SchemaDefinition) :
  servingTablet (ks_Name ks) tablets = Some kt ->
  Vtctld_Dial c = None ->
  Vtctld_GetSchema c (Alias (Tablet_ kt)) = Ok (Some {| Schema := Some sd |}) ->
  TableDefinitions sd <> [] ->
  fst (getSchemasForKeyspace c ks tablets)
  = Returns
      (Some {| s_Cluster := {| Id := ID c; cpb_Name := Name c |};
               s_Keyspace := ks_Name ks;
               s_TableDefinitions := TableDefinitions sd |},
       None).
Proof.
  intros Hkt Hdial Hget Hsd. unfold getSchemasForKeyspace. rewrite Hkt, Hdial, Hget.
  destruct sd as [[|td tds]]; simpl in *; done.
Qed.

Lemma wait_nothing_recorded {R : Type} (order : list nat) (bs : list (Branch R))
    (b : Branch R) :
  schedules order (length bs) -> b ∈ bs -> er (wait order bs) = [] -> recorded b = [].
Proof.
  intros Hsched Hb Her. destruct (recorded b) as [|e errs] eqn:Hrec; [done|].
  exfalso. apply (elem_of_nil e). rewrite <- Her.
  apply (wait_recorded order bs b e Hsched Hb). rewrite Hrec. by left.
Qed.

Lemma HasErrors_false (errs : list error) : HasErrors errs = false -> errs = [].
Proof. by destruct errs. Qed.

(** X8. A successful GetSchemas leaves nothing out: when every goroutine is
    run and the call returns a response, every keyspace of a selected
    cluster that has a serving tablet whose schema has table definitions
    has its entry (cluster id and name, keyspace name, those table
    definitions) in the response. *)
Theorem GetSchemas_complete (api : API) (s : Schedule) (ids : list string)
    (resp : GetSchemasResponse) (i : nat) (c : Cluster) (tablets : list Tablet)
    (kss : list KeyspacePb) (ks : KeyspacePb) (kt : Tablet) (sd : SchemaDefinition)
    (Hsched : schedules (outer s) (length (fst (getClustersForRequest api s ids))))
    (Hinner : schedules (inner s i) (length kss))
    (Hresp : fst (GetSchemas api s ids) = Returns (Some resp, None))
    (Hc : fst (getClustersForRequest api s ids) !! i = Some c)
    (Htablets : Cluster_GetTablets c = Ok tablets)
    (Hkss : Vtctld_GetKeyspaces c = Ok kss)
    (Hks : ks ∈ kss)
    (Hkt : servingTablet (ks_Name ks) tablets = Some kt)
    (Hget : Vtctld_GetSchema c (Alias (Tablet_ kt)) = Ok (Some {| Schema := Some sd |}))
    (Hsd : TableDefinitions sd <> []) :
  {| s_Cluster := {| Id := ID c; cpb_Name := Name c |};
     s_Keyspace := ks_Name ks;
     s_TableDefinitions := TableDefinitions sd |} ∈ Schemas resp.
Proof.
  revert Hsched Hresp Hc. unfold GetSchemas.
  destruct (getClustersForRequest api s ids) as [cs effective]. cbn -[wait].
  intros Hsched Hresp Hc.
  set (bs := imap (fun i c => GetSchemas_goroutine (inner s i) c) cs) in *.
  assert (Hrun : schedules (outer s) (length bs)) by (subst bs; by rewrite length_imap).
  destruct (died (wait (outer s) bs)); [done|].
  destruct (HasErrors (er (wait (outer s) bs))) eqn:Herrs; [done|].
  apply HasErrors_false in Herrs. cbn -[wait] in Hresp. injection Hresp as <-.
  cbn -[wait].
  assert (Hb : GetSchemas_goroutine (inner s i) c ∈ bs)
    by (subst bs; by apply (imap_member (fun i c => GetSchemas_goroutine (inner s i) c))).
  pose proof (wait_nothing_recorded _ _ _ Hrun Hb Herrs) as Hquiet.
  apply (wait_appended _ _ _ _ Hrun Hb). clear Hb.
  revert Hquiet. unfold GetSchemas_goroutine. rewrite Htablets.
  unfold getSchemas. destruct (Vtctld_Dial c) as [err|] eqn:Hdial; [done|].
  rewrite Hkss.
  set (kbs := map (getSchemas_goroutine c tablets) kss).
  assert (Hkrun : schedules (inner s i) (length kbs)) by (subst kbs; by rewrite length_map).
  assert (Halive : Forall (fun b => crashed b = false) kbs).
  { apply Forall_forall. intros b (ks' & <- & _)%list_elem_of_In%in_map_iff.
    apply getSchemas_goroutine_spec. }
  cbn -[wait]. rewrite (wait_alive _ _ Halive).
  destruct (HasErrors (er (wait (inner s i) kbs))); cbn -[wait]; [done|]. intros _.
  apply (wait_appended _ _ (getSchemas_goroutine c tablets ks)); [done| |].
  - subst kbs. by apply list_elem_of_In, in_map, list_elem_of_In.
  - pose proof (getSchemasForKeyspace_fetched c ks tablets kt sd Hkt Hdial Hget Hsd) as Hf.
    unfold getSchemas_goroutine.
    destruct (getSchemasForKeyspace c ks tablets) as [o calls]. simpl in Hf. subst o.
    simpl. by apply list_elem_of_singleton.
Qed.

Lemma GetSchemas_complete_witness :
  {| s_Cluster := {| Id := "a"; cpb_Name := "cluster A" |};
     s_Keyspace := "commerce";
     s_TableDefinitions := [demo_customer; demo_orders] |}
  ∈ [{| s_Cluster := {| Id := "a"; cpb_Name := "cluster A" |};
        s_Keyspace := "commerce";
        s_TableDefinitions := [demo_customer; demo_orders] |}].
Proof.
  apply (GetSchemas_complete demo_api (demo_sched [] 1) ["a"]
           {| Schemas :=
                [{| s_Cluster := {| Id := "a"; cpb_Name := "cluster A" |};
                    s_Keyspace := "commerce";
                    s_TableDefinitions := [demo_customer; demo_orders] |}] |}
           0 demo_A [demo_t100; demo_t101; demo_t102; demo_t103]
           [{| ks_Name := "commerce"; ks_Keyspace := "{}" |}]
           {| ks_Name := "commerce"; ks_Keyspace := "{}" |} demo_t102
           {| TableDefinitions := [demo_customer; demo_orders] |}).
  - apply Permutation_refl.
  - apply Permutation_refl.
  - vm_compute. reflexivity.
  - vm_compute. reflexivity.
  - reflexivity.
  - reflexivity.
  - by apply list_elem_of_singleton.
  - reflexivity.
  - reflexivity.
  - discriminate.
Defined.

(** ** Panics *)

Lemma VTExplain_GetSchema_crashed (c : Cluster) (tablet : Tablet) :
  crashed (VTExplain_GetSchema c tablet) = true
  <-> Vtctld_GetSchema c (Alias (Tablet_ tablet)) = Ok None
      \/ exists r, Vtctld_GetSchema c (Alias (Tablet_ tablet)) = Ok (Some r)
                   /\ Schema r = None.
Proof.
  unfold VTExplain_GetSchema.
  destruct (Vtctld_GetSchema c _) as [[[[sd|]]|]|err]; simpl; split; try done.
  - intros [[=]|(r & [= <-] & [=])].
  - intros _. right. by eexists.
  - intros _. by left.
  - intros [[=]|(r & [=] & _)].
Qed.

(** X13. Once VTExplain has started its goroutines, and all three are run,
    a GetSchema that succeeds with a nil response or with a response whose
    schema is nil makes the call panic, whatever the two other fetches
    answer and in whatever order the goroutines run. *)
Theorem VTExplain_nil_schema_panics (ext : Externals) (api : API) (s : Schedule)
    (req : VTExplainRequest) (c : Cluster) (tablet : Tablet)
    (Hreach : reaches_fan_out ext api req c tablet)
    (Hsched : schedules (outer s) 3)
    (Hnil : Vtctld_GetSchema c (Alias (Tablet_ tablet)) = Ok None
            \/ exists r, Vtctld_GetSchema c (Alias (Tablet_ tablet)) = Ok (Some r)
                         /\ Schema r = None) :
  fst (VTExplain ext api s req) = Panics.
Proof.
  apply VTExplain_GetSchema_crashed in Hnil.
  rewrite (VTExplain_past_prelude ext api s req c tablet Hreach). cbn -[wait].
  by rewrite (VTExplain_died ext s c tablet req Hsched), Hnil.
Qed.

Lemma VTExplain_nil_schema_panics_witness :
  fst (VTExplain demo_ext demo_api (demo_sched [] 3) (demo_explain "n")) = Panics.
Proof.
  apply (VTExplain_nil_schema_panics demo_ext demo_api (demo_sched [] 3)
           (demo_explain "n") demo_N demo_t100).
  - repeat split; discriminate || reflexivity.
  - apply Permutation_refl.
  - right. exists {| Schema := None |}. split; reflexivity.
Defined.

(** ** The artifacts handed to the explain engine *)

(** X12. When the three fetches of VTExplain succeed (all goroutines run),
    the engine is initialised after them with the serving vschema wrapped
    under the keyspace name, the table DDLs joined by semicolons in the
    order returned, and the wrapped shard map. An error of the
    initialisation is returned as it is and the query is not run; otherwise
    the query is run, its error is returned as it is, and on success the
    response is the rendered plans. *)
Theorem VTExplain_engine_sequence (ext : Externals) (api : API) (s : Schedule)
    (req : VTExplainRequest) (c : Cluster) (tablet : Tablet)
    (sd : SchemaDefinition) (res : GetSrvVSchemaResponse) (ksvs : VSchemaKeyspace)
    (js : string) (shards : list ShardPb) (js' : string)
    (Hreach : reaches_fan_out ext api req c tablet)
    (Hsched : schedules (outer s) 3)
    (Hschema : Vtctld_GetSchema c (Alias (Tablet_ tablet))
               = Ok (Some {| Schema := Some sd |}))
    (Hsrv : Vtctld_GetSrvVSchema c (Cell (Alias (Tablet_ tablet))) = Ok res)
    (Hkey : SrvVSchema_Keyspaces res !! req_Keyspace req = Some ksvs)
    (Hjs : json_Marshal_vschema ext ksvs = Ok js)
    (Hshards : Vtctld_FindAllShardsInKeyspace c (req_Keyspace req) = Ok shards)
    (Hjs' : json_Marshal_shards ext (shard_index shards) = Ok js') :
  let vschema := fmt_keyed (req_Keyspace req) js in
  let schema := String.concat ";" (map td_Schema (TableDefinitions sd)) in
  let shardMap := fmt_keyed (req_Keyspace req) js' in
  let init := CallExplainInit vschema schema shardMap in
  let run := CallExplainRun (req_Sql req) in
  exists fetches,
    fetches ≡ₚ [CallGetSchema (ID c) (Alias (Tablet_ tablet));
                CallGetSrvVSchema (ID c) (Cell (Alias (Tablet_ tablet)));
                CallFindAllShardsInKeyspace (ID c) (req_Keyspace req)]
    /\ VTExplain ext api s req
       = match vtexplain_Init ext vschema schema shardMap with
         | Some err =>
             (Returns (None, Some err),
              [CallFindTablet (ID c); CallDial (ID c)] ++ fetches ++ [init])
         | None =>
             match vtexplain_Run ext (req_Sql req) with
             | Err err =>
                 (Returns (None, Some err),
                  [CallFindTablet (ID c); CallDial (ID c)] ++ fetches ++ [init; run])
             | Ok plans =>
                 (Returns (Some {| Response := vtexplain_ExplainsAsText ext plans |}, None),
                  [CallFindTablet (ID c); CallDial (ID c)] ++ fetches ++ [init; run])
             end
         end.
Proof.
  intros vschema schema shardMap init run.
  assert (Hb1 : VTExplain_GetSchema c tablet
                = {| appended := [schema]; recorded := [];
                     issued := [CallGetSchema (ID c) (Alias (Tablet_ tablet))];
                     crashed := false |})
    by (unfold VTExplain_GetSchema; by rewrite Hschema).
  assert (Hb2 : VTExplain_GetSrvVSchema ext c tablet req
                = {| appended := [vschema]; recorded := [];
                     issued := [CallGetSrvVSchema (ID c) (Cell (Alias (Tablet_ tablet)))];
                     crashed := false |})
    by (unfold VTExplain_GetSrvVSchema; by rewrite Hsrv, Hkey, Hjs).
  assert (Hb3 : VTExplain_FindAllShards ext c req
                = {| appended := [shardMap]; recorded := [];
                     issued := [CallFindAllShardsInKeyspace (ID c) (req_Keyspace req)];
                     crashed := false |}).
  { unfold VTExplain_FindAllShards. rewrite Hshards. fold (shard_index shards).
    by rewrite Hjs'. }
  exists (log (wait (outer s) (VTExplain_goroutines ext c tablet req))). split.
  - rewrite wait_log by done. unfold VTExplain_goroutines. by rewrite Hb1, Hb2, Hb3.
  - assert (Hs1 : slot_of (VTExplain_GetSchema c tablet) = schema) by (by rewrite Hb1).
    assert (Hs2 : slot_of (VTExplain_GetSrvVSchema ext c tablet req) = vschema)
      by (by rewrite Hb2).
    assert (Hs3 : slot_of (VTExplain_FindAllShards ext c req) = shardMap)
      by (by rewrite Hb3).
    assert (Hquiet : er (wait (outer s) (VTExplain_goroutines ext c tablet req)) = []).
    { apply wait_quiet; [done|].
      unfold VTExplain_goroutines. rewrite Hb1, Hb2, Hb3. by repeat constructor. }
    assert (Halive : crashed (VTExplain_GetSchema c tablet) = false) by (by rewrite Hb1).
    rewrite (VTExplain_past_prelude ext api s req c tablet Hreach). cbv zeta.
    rewrite (VTExplain_died ext s c tablet req Hsched), Halive, Hquiet, Hs1, Hs2, Hs3.
    cbn [HasErrors]. fold init run.
    destruct (vtexplain_Init ext vschema schema shardMap);
      [|destruct (vtexplain_Run ext (req_Sql req))];
      by rewrite <- ?app_assoc.
Qed.

Lemma VTExplain_engine_sequence_witness :
  exists fetches,
    fetches ≡ₚ [CallGetSchema "a" {| Cell := "zone1"; Uid := 100 |};
                CallGetSrvVSchema "a" "zone1";
                CallFindAllShardsInKeyspace "a" "commerce"]
    /\ VTExplain demo_ext demo_api (demo_sched [] 3) (demo_explain "a")
       = (Returns (Some {| Response := "select 1" |}, None),
          [CallFindTablet "a"; CallDial "a"] ++ fetches
          ++ [CallExplainInit (fmt_keyed "commerce" "{}")
                "create table customer(id bigint);create table orders(id bigint)"
                (fmt_keyed "commerce" "{}");
              CallExplainRun "select 1"]).
Proof.
  assert (Hreach : reaches_fan_out demo_ext demo_api (demo_explain "a") demo_A demo_t100)
    by (repeat split; discriminate || reflexivity).
  exact (VTExplain_engine_sequence demo_ext demo_api (demo_sched [] 3) (demo_explain "a")
           demo_A demo_t100 {| TableDefinitions := [demo_customer; demo_orders] |}
           {| SrvVSchema_Keyspaces := {[ "commerce" := {| vschema_body := "{}" |} ]} |}
           {| vschema_body := "{}" |} "{}"
           [{| sh_Keyspace := "commerce"; sh_Name := "-"; sh_Shard := "{}" |}] "{}"
           Hreach (demo_sched_runs [] 3) eq_refl eq_refl eq_refl eq_refl eq_refl eq_refl).
Defined.

(** * Properties of the reparent commands *)

Lemma parse_ignored_spec (env : CommandEnv) (aliasStrs : list string) (i : nat)
    (slots : list (option TabletAlias)) :
  length slots = i + length aliasStrs ->
  match parse_ignored env i aliasStrs slots with
  | Ok out =>
      exists aliases,
        Forall2 (fun str a => ParseTabletAlias env str = Ok a) aliasStrs aliases
        /\ out = take i slots ++ map Some aliases
  | Err e =>
      exists pre bad post,
        aliasStrs = pre ++ bad :: post
        /\ Forall (fun str => exists a, ParseTabletAlias env str = Ok a) pre
        /\ ParseTabletAlias env bad = Err e
  end.
Proof.
  revert i slots; induction aliasStrs as [|str strs IH]; intros i slots Hlen; simpl in *.
  - exists []. split; [constructor|]. rewrite take_ge by lia. by rewrite app_nil_r.
  - destruct (ParseTabletAlias env str) as [alias|err] eqn:Hstr.
    + specialize (IH (S i) (<[i := Some alias]> slots)).
      rewrite length_insert in IH. specialize (IH ltac:(lia)).
      destruct (parse_ignored env (S i) strs _) as [out|e].
      * destruct IH as (aliases & Hall & ->). exists (alias :: aliases).
        split; [by constructor|].
        rewrite (take_S_r _ _ (Some alias)) by (apply list_lookup_insert_eq; lia).
        rewrite take_insert_ge by lia. by rewrite <- app_assoc.
      * destruct IH as (pre & bad & post & -> & Hpre & Hbad).
        exists (str :: pre), bad, post. repeat split; [|done].
        constructor; [by eexists|done].
    + exists [], str, strs. by repeat split.
Qed.

Lemma parse_ignored_first_failure (env : CommandEnv) (pre post : list string)
    (bad : string) (e : error) (i : nat) (slots : list (option TabletAlias)) :
  Forall (fun str => exists a, ParseTabletAlias env str = Ok a) pre ->
  ParseTabletAlias env bad = Err e ->
  parse_ignored env i (pre ++ bad :: post) slots = Err e.
Proof.
  intros Hpre Hbad. revert i slots.
  induction Hpre as [|str pre [a Ha] _ IH]; intros i slots; simpl.
  - by rewrite Hbad.
  - rewrite Ha. apply IH.
Qed.

(** X16. Whatever commandEmergencyReparentShard asks of the vtctld is built
    from arguments that all parsed: keyspace and shard come from the first
    positional argument, the new primary is absent exactly when the
    --new-primary flag is empty, every slot of IgnoreReplicas is filled
    with the parsed alias of the flag value at the same position, and the
    timeout is the converted option. *)
Theorem EmergencyReparentShard_request (env : CommandEnv)
    (opts : EmergencyReparentShardOptions) (args : list string)
    (req : EmergencyReparentShardRequest)
    (Hrpc : RpcEmergencyReparentShard req
            ∈ snd (commandEmergencyReparentShard env opts args)) :
  exists aliases,
    ParseKeyspaceShard env (Arg args 0) = Ok (ers_Keyspace req, ers_Shard req)
    /\ Forall2 (fun str a => ParseTabletAlias env str = Ok a)
         (IgnoreReplicaAliasStrList opts) aliases
    /\ ers_IgnoreReplicas req = map Some aliases
    /\ (NewPrimaryAliasStr opts = "" -> ers_NewPrimary req = None)
    /\ (NewPrimaryAliasStr opts <> "" ->
        exists a, ParseTabletAlias env (NewPrimaryAliasStr opts) = Ok a
                  /\ ers_NewPrimary req = Some a)
    /\ ers_WaitReplicasTimeout req
       = ptypes_DurationProto env (ers_opt_WaitReplicasTimeout opts).
Proof.
  revert Hrpc. unfold commandEmergencyReparentShard.
  destruct (ParseKeyspaceShard env (Arg args 0)) as [[keyspace shard]|err];
    [|by intros ?%elem_of_nil].
  pose proof (parse_ignored_spec env (IgnoreReplicaAliasStrList opts) 0
                (replicate (length (IgnoreReplicaAliasStrList opts)) None)) as Hloop.
  rewrite length_replicate in Hloop. specialize (Hloop eq_refl).
  set (primary := if bool_decide (NewPrimaryAliasStr opts ≠ "") then _ else _).
  assert (Hprimary : forall p, primary = Ok p ->
            (NewPrimaryAliasStr opts = "" -> p = None)
            /\ (NewPrimaryAliasStr opts <> "" ->
                exists a, ParseTabletAlias env (NewPrimaryAliasStr opts) = Ok a
                          /\ p = Some a)).
  { intros p. subst primary. case_bool_decide as Hflag.
    - destruct (ParseTabletAlias env (NewPrimaryAliasStr opts)) as [a|]; [|done].
      intros [= <-]. split; [done|]. intros _. by exists a.
    - intros [= <-]. split; [done|]. intros Hne. exfalso. by apply Hne. }
  destruct primary as [newPrimaryAlias|err]; [|by intros ?%elem_of_nil].
  destruct (parse_ignored env 0 _ _) as [out|err]; [|by intros ?%elem_of_nil].
  destruct Hloop as (aliases & Hall & ->). rewrite take_0. simpl.
  destruct (Hprimary _ eq_refl) as [Hnone Hsome].
  assert (Hreq : forall r trace,
            RpcEmergencyReparentShard req
            ∈ [FinishedParsing; RpcEmergencyReparentShard r]
                ++ map (fun event => Stdout (logutil_EventString env event +:+ newline)) trace ->
            req = r).
  { intros r trace. rewrite elem_of_app, !elem_of_cons, elem_of_nil.
    intros [[[=]|[[= ->]|[]]]|Hout]; [done|].
    apply list_elem_of_In, in_map_iff in Hout as (? & [=] & _). }
  intros Hrpc. exists aliases.
  assert (Heq : req = {| ers_Keyspace := keyspace; ers_Shard := shard;
                         ers_NewPrimary := newPrimaryAlias;
                         ers_IgnoreReplicas := map Some aliases;
                         ers_WaitReplicasTimeout :=
                           ptypes_DurationProto env (ers_opt_WaitReplicasTimeout opts) |}).
  { destruct (client_EmergencyReparentShard env _) as [[resp|] [err|]]; simpl in Hrpc.
    - apply (Hreq _ []). simpl. exact Hrpc.
    - by apply (Hreq _ (ers_Events resp)).
    - apply (Hreq _ []). simpl. exact Hrpc.
    - apply (Hreq _ []). simpl. exact Hrpc. }
  subst req. simpl. by repeat split.
Qed.

Lemma EmergencyReparentShard_request_witness :
  exists aliases,
    Forall2 (fun str a => demo_parse_alias str = Ok a) ["zone1-101"; "zone1-100"] aliases
    /\ [Some {| Cell := "zone1"; Uid := 101 |}; Some {| Cell := "zone1"; Uid := 100 |}]
       = map Some aliases.
Proof.
  destruct (EmergencyReparentShard_request
              (demo_env (Some {| ers_Events := [] |}, None) (None, None))
              (demo_ers_options ["zone1-101"; "zone1-100"]) ["commerce/-"]
              {| ers_Keyspace := "commerce"; ers_Shard := "-"; ers_NewPrimary := None;
                 ers_IgnoreReplicas :=
                   [Some {| Cell := "zone1"; Uid := 101 |};
                    Some {| Cell := "zone1"; Uid := 100 |}];
                 ers_WaitReplicasTimeout := {| Seconds := 30; Nanos := 0 |} |})
    as (aliases & _ & Hall & Hslots & _).
  - vm_compute. apply list_elem_of_In. simpl. tauto.
  - exists aliases. split; [exact Hall|exact Hslots].
Defined.

(** X17. commandEmergencyReparentShard stops at the first --ignore-replicas
    value that does not parse: the command returns that parse error, and
    nothing is sent to the vtctld, printed or marked as parsed. *)
Theorem EmergencyReparentShard_bad_ignored_alias (env : CommandEnv)
    (opts : EmergencyReparentShardOptions) (args : list string)
    (keyspace shard : string) (pre post : list string) (bad : string) (e : error)
    (Hks : ParseKeyspaceShard env (Arg args 0) = Ok (keyspace, shard))
    (Hprimary : NewPrimaryAliasStr opts = ""
                \/ exists a, ParseTabletAlias env (NewPrimaryAliasStr opts) = Ok a)
    (Hlist : IgnoreReplicaAliasStrList opts = pre ++ bad :: post)
    (Hpre : Forall (fun str => exists a, ParseTabletAlias env str = Ok a) pre)
    (Hbad : ParseTabletAlias env bad = Err e) :
  commandEmergencyReparentShard env opts args = (Exits (Some e), []).
Proof.
  unfold commandEmergencyReparentShard. rewrite Hks, Hlist.
  rewrite (parse_ignored_first_failure env pre post bad e 0 _ Hpre Hbad).
  destruct Hprimary as [->|[a Ha]].
  - by rewrite bool_decide_eq_false_2 by (intros H; by apply H).
  - case_bool_decide; [by rewrite Ha|done].
Qed.

Lemma EmergencyReparentShard_bad_ignored_alias_witness :
  commandEmergencyReparentShard (demo_env (Some {| ers_Events := [] |}, None) (None, None))
    (demo_ers_options ["zone1-100"; "oops"; "zone1-101"; "worse"]) ["commerce/-"]
  = (Exits (Some (ERemote "invalid tablet alias oops")), []).
Proof.
  apply (EmergencyReparentShard_bad_ignored_alias _ _ _ "commerce" "-"
           ["zone1-100"] ["zone1-101"; "worse"] "oops").
  - reflexivity.
  - by left.
  - reflexivity.
  - repeat constructor. by eexists.
  - reflexivity.
Defined.

(** X18. commandEmergencyReparentShard prints only after a successful
    call: when it returns nil it has marked parsing as finished, made one
    call, and printed the events of the response, one line each, in order;
    when it returns an error it has printed nothing; it dies only when the
    client hands back neither a response nor an error. *)
Theorem EmergencyReparentShard_output (env : CommandEnv)
    (opts : EmergencyReparentShardOptions) (args : list string) :
  match commandEmergencyReparentShard env opts args with
  | (Exits None, trace) =>
      exists req resp,
        client_EmergencyReparentShard env req = (Some resp, None)
        /\ trace
           = [FinishedParsing; RpcEmergencyReparentShard req]
               ++ map (fun event => Stdout (logutil_EventString env event +:+ newline))
                    (ers_Events resp)
  | (Exits (Some _), trace) => forall text, Stdout text ∉ trace
  | (Crashes, trace) =>
      exists req,
        client_EmergencyReparentShard env req = (None, None)
        /\ trace = [FinishedParsing; RpcEmergencyReparentShard req]
  end.
Proof.
  unfold commandEmergencyReparentShard.
  destruct (ParseKeyspaceShard env (Arg args 0)) as [[keyspace shard]|err];
    [|by intros text ?%elem_of_nil].
  destruct (if bool_decide (NewPrimaryAliasStr opts ≠ "") then _ else _)
    as [newPrimaryAlias|err]; [|by intros text ?%elem_of_nil].
  destruct (parse_ignored env 0 _ _) as [out|err]; [|by intros text ?%elem_of_nil].
  destruct (client_EmergencyReparentShard env _) as [[resp|] [err|]] eqn:Hclient.
  - intros text. rewrite !elem_of_cons, elem_of_nil. by intros [|[|]].
  - by eexists _, _.
  - intros text. rewrite !elem_of_cons, elem_of_nil. by intros [|[|]].
  - by eexists.
Qed.

(** X19. Handed no response and an error by the client, after arguments
    that parse, commandEmergencyReparentShard, commandReparentTablet and
    commandTabletExternallyReparented return that error, while
    commandInitShardPrimary, which ranges over the events of the response
    before it looks at the error, dies. When it is handed a response it
    logs every event and returns the client's error, whatever it is. *)
Theorem InitShardPrimary_reads_the_response_first (env : CommandEnv)
    (eopts : EmergencyReparentShardOptions) (iopts : InitShardPrimaryOptions)
    (eargs iargs targs : list string) (keyspace shard : string) (alias talias : TabletAlias)
    (Heks : exists ks sh, ParseKeyspaceShard env (Arg eargs 0) = Ok (ks, sh))
    (Hflags : NewPrimaryAliasStr eopts = "" /\ IgnoreReplicaAliasStrList eopts = [])
    (Hiks : ParseKeyspaceShard env (Arg iargs 0) = Ok (keyspace, shard))
    (Hialias : ParseTabletAlias env (Arg iargs 1) = Ok alias)
    (Htalias : ParseTabletAlias env (Arg targs 0) = Ok talias) :
  let req :=
    {| isp_Keyspace := keyspace;
       isp_Shard := shard;
       isp_PrimaryElectTabletAlias := alias;
       isp_WaitReplicasTimeout :=
         protoutil_DurationToProto env (isp_opt_WaitReplicasTimeout iopts);
       isp_Force := isp_opt_Force iopts |} in
  (forall e,
     (forall r, client_EmergencyReparentShard env r = (None, Some e)) ->
     client_InitShardPrimary env req = (None, Some e) ->
     client_ReparentTablet env talias = (None, Some e) ->
     client_TabletExternallyReparented env talias = (None, Some e) ->
     fst (commandEmergencyReparentShard env eopts eargs) = Exits (Some e)
     /\ fst (commandReparentTablet env targs) = Exits (Some e)
     /\ fst (commandTabletExternallyReparented env targs) = Exits (Some e)
     /\ commandInitShardPrimary env iopts iargs
        = (Crashes, [FinishedParsing; RpcInitShardPrimary req]))
  /\ (forall resp err,
        client_InitShardPrimary env req = (Some resp, err) ->
        commandInitShardPrimary env iopts iargs
        = (Exits err,
           [FinishedParsing; RpcInitShardPrimary req]
             ++ map (fun event => LogInfo (fmt_v_Event env event)) (isp_Events resp))).
Proof.
  intros req. destruct Hflags as [Hprimary Hignored]. destruct Heks as (ks & sh & Heks).
  split.
  - intros e Hers Hisp Hrt Hter. repeat split.
    + unfold commandEmergencyReparentShard. rewrite Heks, Hprimary, Hignored. simpl.
      by rewrite Hers.
    + unfold commandReparentTablet. by rewrite Htalias, Hrt.
    + unfold commandTabletExternallyReparented. by rewrite Htalias, Hter.
    + unfold commandInitShardPrimary. rewrite Hiks, Hialias. fold req. by rewrite Hisp.
  - intros resp err Hisp. unfold commandInitShardPrimary. rewrite Hiks, Hialias.
    fold req. by rewrite Hisp.
Qed.

Lemma InitShardPrimary_reads_the_response_first_witness :
  commandInitShardPrimary demo_failing_env
    {| isp_opt_WaitReplicasTimeout := 30; isp_opt_Force := false |}
    ["commerce/-"; "zone1-100"]
  = (Crashes,
     [FinishedParsing;
      RpcInitShardPrimary
        {| isp_Keyspace := "commerce"; isp_Shard := "-";
           isp_PrimaryElectTabletAlias := {| Cell := "zone1"; Uid := 100 |};
           isp_WaitReplicasTimeout := {| Seconds := 30; Nanos := 0 |};
           isp_Force := false |}])
  /\ fst (commandReparentTablet demo_failing_env ["zone1-100"])
     = Exits (Some demo_unavailable).
Proof.
  destruct (InitShardPrimary_reads_the_response_first demo_failing_env
              (demo_ers_options [])
              {| isp_opt_WaitReplicasTimeout := 30; isp_opt_Force := false |}
              ["commerce/-"] ["commerce/-"; "zone1-100"] ["zone1-100"]
              "commerce" "-" {| Cell := "zone1"; Uid := 100 |}
              {| Cell := "zone1"; Uid := 100 |}
              (ex_intro _ "commerce" (ex_intro _ "-" eq_refl))
              (conj eq_refl eq_refl) eq_refl eq_refl eq_refl) as [H _].
  destruct (H demo_unavailable (fun _ => eq_refl) eq_refl eq_refl eq_refl)
    as (_ & Hrt & _ & Hisp).
  split; [exact Hisp|exact Hrt].
Defined.

(** X20. commandReparentTablet and commandTabletExternallyReparented never
    die and never mark parsing as finished; each prints exactly one line,
    the marshalled response, after its single call when it returns nil, and
    prints nothing when it returns an error (of the parser, the client or
    the marshaller, in that order). *)
Theorem tablet_commands_print_one_line (env : CommandEnv) (args : list string) :
  match commandReparentTablet env args with
  | (Exits None, trace) =>
      exists alias resp data,
        ParseTabletAlias env (Arg args 0) = Ok alias
        /\ client_ReparentTablet env alias = (resp, None)
        /\ MarshalJSON_ReparentTablet env resp = Ok data
        /\ trace = [RpcReparentTablet alias; Stdout (data +:+ newline)]
  | (Exits (Some e), trace) =>
      (ParseTabletAlias env (Arg args 0) = Err e /\ trace = [])
      \/ exists alias,
           ParseTabletAlias env (Arg args 0) = Ok alias
           /\ trace = [RpcReparentTablet alias]
           /\ (snd (client_ReparentTablet env alias) = Some e
               \/ MarshalJSON_ReparentTablet env (fst (client_ReparentTablet env alias))
                  = Err e)
  | (Crashes, _) => False
  end
  /\ match commandTabletExternallyReparented env args with
     | (Exits None, trace) =>
         exists alias resp data,
           ParseTabletAlias env (Arg args 0) = Ok alias
           /\ client_TabletExternallyReparented env alias = (resp, None)
           /\ MarshalJSON_TabletExternallyReparented env resp = Ok data
           /\ trace = [RpcTabletExternallyReparented alias; Stdout (data +:+ newline)]
     | (Exits (Some e), trace) =>
         (ParseTabletAlias env (Arg args 0) = Err e /\ trace = [])
         \/ exists alias,
              ParseTabletAlias env (Arg args 0) = Ok alias
              /\ trace = [RpcTabletExternallyReparented alias]
              /\ (snd (client_TabletExternallyReparented env alias) = Some e
                  \/ MarshalJSON_TabletExternallyReparented env
                       (fst (client_TabletExternallyReparented env alias))
                     = Err e)
     | (Crashes, _) => False
     end.
Proof.
  unfold commandReparentTablet, commandTabletExternallyReparented.
  destruct (ParseTabletAlias env (Arg args 0)) as [alias|err]; [|split; by left].
  split.
  - destruct (client_ReparentTablet env alias) as [resp [err|]] eqn:Hclient; simpl.
    + right. exists alias. rewrite Hclient. repeat split. by left.
    + destruct (MarshalJSON_ReparentTablet env resp) as [data|err] eqn:Hdata.
      * by exists alias, resp, data.
      * right. exists alias. rewrite Hclient. repeat split. by right.
  - destruct (client_TabletExternallyReparented env alias) as [resp [err|]] eqn:Hclient;
      simpl.
    + right. exists alias. rewrite Hclient. repeat split. by left.
    + destruct (MarshalJSON_TabletExternallyReparented env resp) as [data|err] eqn:Hdata.
      * by exists alias, resp, data.
      * right. exists alias. rewrite Hclient. repeat split. by right.
Qed.
